(** * Diet SaaS: authentication, session and entitlement core

    A shallow embedding of the TypeScript sources of the authentication
    and tenant-authorization core (login with lockout, refresh,
    change/forgot/reset password, logout, the shared API helpers, the
    token utilities and the plan/usage helpers next to the Prisma client),
    followed by the properties the specification states about them.

    Conventions.
    - A JavaScript [number] that holds a counter or a millisecond
      timestamp is a [Z]; a [Date] is its [getTime()] value.
    - A computation that may throw returns an [Outcome]; handlers that
      touch the store, the rate-limit map or an external collaborator run
      in the state-and-exception monad [M] over a [World].
    - The clock is an explicit argument [now] of every handler: one
      request is served at one instant.
    - Libraries the repository imports (jsonwebtoken, bcryptjs, nanoid,
      zod's e-mail check, ua-parser-js, the JS runtime's calendar) are the
      fields of the class [Platform]. *)

From Stdlib Require Import ZArith Lia Ascii String.
From stdpp Require Import gmap strings list fin_maps pretty.

Local Open Scope string_scope.
Local Open Scope Z_scope.

(** ** Exceptions and outcomes *)

Inductive Exn : Type :=
| PrismaError (code : string)
| JsonWebTokenError (message : string)
| TokenExpiredError
| TypeError (message : string)
| Error (message : string)
| ZodError (issues : list (list string * string)).

Inductive Outcome (A : Type) : Type :=
| Ret (a : A)
| Throw (e : Exn).

Arguments Ret {A} a.
Arguments Throw {A} e.

(** Sequencing, and [try { o } catch (error) { h error }], for code that
    touches no state. *)
Definition andThen {A B : Type} (o : Outcome A) (k : A -> Outcome B) : Outcome B :=
  match o with
  | Ret a => k a
  | Throw e => Throw e
  end.

Definition catch {A : Type} (o : Outcome A) (h : Exn -> Outcome A) : Outcome A :=
  match o with
  | Ret a => Ret a
  | Throw e => h e
  end.

(** ** JSON values (request and response bodies) *)

#[local] Unset Elimination Schemes.

Inductive Json : Type :=
| JNull
| JBool (b : bool)
| JNum (n : Z)
| JStr (s : string)
| JArr (xs : list Json)
| JObj (fields : list (string * Json)).

#[local] Set Elimination Schemes.

Definition assoc {A : Type} (k : string) (l : list (string * A)) : option A :=
  snd <$> List.find (fun p => String.eqb (fst p) k) l.

Definition jfield (k : string) (j : Json) : option Json :=
  match j with
  | JObj fields => assoc k fields
  | _ => None
  end.

(** ** Enumerations of the Prisma schema *)

Inductive SubscriptionPlan : Type := FREE | STARTER | PROFESSIONAL | ENTERPRISE.

Inductive OrganizationStatus : Type := TRIAL | ACTIVE | SUSPENDED | CANCELLED.

Inductive UserRole : Type := SUPER_ADMIN | ORGANIZATION_OWNER | DIETITIAN | ASSISTANT.

Inductive ResourceType : Type := users | patients | storage | aiQueries.

#[global] Instance SubscriptionPlan_eq_dec : EqDecision SubscriptionPlan.
Proof. solve_decision. Defined.

#[global] Instance OrganizationStatus_eq_dec : EqDecision OrganizationStatus.
Proof. solve_decision. Defined.

#[global] Instance UserRole_eq_dec : EqDecision UserRole.
Proof. solve_decision. Defined.

#[global] Instance ResourceType_eq_dec : EqDecision ResourceType.
Proof. solve_decision. Defined.

(** The string a plan is at run time (the key used on the [features]
    object). *)
Definition plan_key (p : SubscriptionPlan) : string :=
  match p with
  | FREE => "FREE"
  | STARTER => "STARTER"
  | PROFESSIONAL => "PROFESSIONAL"
  | ENTERPRISE => "ENTERPRISE"
  end.

Definition role_key (r : UserRole) : string :=
  match r with
  | SUPER_ADMIN => "SUPER_ADMIN"
  | ORGANIZATION_OWNER => "ORGANIZATION_OWNER"
  | DIETITIAN => "DIETITIAN"
  | ASSISTANT => "ASSISTANT"
  end.

Definition status_key (s : OrganizationStatus) : string :=
  match s with
  | TRIAL => "TRIAL"
  | ACTIVE => "ACTIVE"
  | SUSPENDED => "SUSPENDED"
  | CANCELLED => "CANCELLED"
  end.

(** The plan order FREE < STARTER < PROFESSIONAL < ENTERPRISE. *)
Definition plan_rank (p : SubscriptionPlan) : nat :=
  match p with
  | FREE => 0
  | STARTER => 1
  | PROFESSIONAL => 2
  | ENTERPRISE => 3
  end.

(** ** Entitlement: [hasFeature] (lib/prisma.ts)

    [features] is an object literal used as a map.  Reading
    [features[plan]] with a key that is not an own property falls through
    to [Object.prototype]; the names below are the ones every plain object
    inherits.  Such a value is neither [undefined] nor [null], so [?.]
    does not short-circuit on it, and it has no [includes] method. *)

Definition features : gmap string (list string) :=
  <["FREE" := ["basic_diet_plans"; "patient_management"] ]>
  (<["STARTER" := ["basic_diet_plans"; "patient_management"; "ai_diet_plans";
                   "appointments"; "messaging"] ]>
  (<["PROFESSIONAL" := ["basic_diet_plans"; "patient_management"; "ai_diet_plans";
                        "appointments"; "messaging"; "video_consultation";
                        "white_label"; "custom_domain"; "advanced_reports"] ]>
  (<["ENTERPRISE" := ["basic_diet_plans"; "patient_management"; "ai_diet_plans";
                      "appointments"; "messaging"; "video_consultation";
                      "white_label"; "custom_domain"; "advanced_reports";
                      "api_access"; "priority_support"; "custom_integrations"] ]>
   ∅))).

Definition ObjectPrototype_keys : list string :=
  ["constructor"; "__proto__"; "hasOwnProperty"; "isPrototypeOf";
   "propertyIsEnumerable"; "toString"; "toLocaleString"; "valueOf";
   "__defineGetter__"; "__defineSetter__"; "__lookupGetter__";
   "__lookupSetter__"].

Inductive PropertyValue : Type :=
| PUndefined
| PArray (xs : list string)
| PInherited (name : string).

(** [features[plan]] *)
Definition features_get (plan : string) : PropertyValue :=
  match features !! plan with
  | Some xs => PArray xs
  | None =>
      if bool_decide (plan ∈ ObjectPrototype_keys) then PInherited plan
      else PUndefined
  end.

(** [Array.prototype.includes] on an array of strings *)
Definition includes (xs : list string) (x : string) : bool :=
  existsb (String.eqb x) xs.

(** [return features[plan]?.includes(feature) || false] *)
Definition hasFeature (plan : string) (feature : string) : Outcome bool :=
  match features_get plan with
  | PUndefined => Ret false
  | PArray xs => Ret (includes xs feature || false)
  | PInherited _ => Throw (TypeError "features[plan]?.includes is not a function")
  end.

(** ** Rate limiter (lib/utils/api.ts) *)

Record RateLimitRecord : Type := { count : Z; resetAt : Z }.

(** [rateLimit(key, limit, windowMs)] with [Date.now() = now]; the module
    level [rateLimitStore] is passed in and out. *)
Definition rateLimit (key : string) (limit windowMs : Z) (now : Z)
    (rateLimitStore : gmap string RateLimitRecord)
    : bool * gmap string RateLimitRecord :=
  let record := rateLimitStore !! key in
  match record with
  | Some r =>
      if resetAt r <? now then
        (true, <[key := {| count := 1; resetAt := now + windowMs |}]> rateLimitStore)
      else if count r >=? limit then
        (false, rateLimitStore)
      else
        (true, <[key := {| count := count r + 1; resetAt := resetAt r |}]> rateLimitStore)
  | None =>
      (true, <[key := {| count := 1; resetAt := now + windowMs |}]> rateLimitStore)
  end.

(** ** Rows of the store (the fields the handlers read or write) *)

Module User.
Record t : Type := mk {
  id : string;
  email : string;
  password : string;
  firstName : string;
  lastName : string;
  role : UserRole;
  avatar : option string;
  emailVerified : bool;
  organizationId : string;
  isActive : bool;
  failedLoginAttempts : Z;
  lockedUntil : option Z;
  lastLoginAt : option Z;
  lastLoginIp : option string;
  lastLoginBrowser : option string;
  lastLoginDevice : option string;
  lastLoginOs : option string;
  resetPasswordToken : option string;
  resetPasswordExpires : option Z
}.

Definition set_password (v : string) (u : t) : t :=
  mk (id u) (email u) v (firstName u) (lastName u) (role u) (avatar u)
     (emailVerified u) (organizationId u) (isActive u) (failedLoginAttempts u)
     (lockedUntil u) (lastLoginAt u) (lastLoginIp u) (lastLoginBrowser u)
     (lastLoginDevice u) (lastLoginOs u) (resetPasswordToken u)
     (resetPasswordExpires u).

Definition set_failedLoginAttempts (v : Z) (u : t) : t :=
  mk (id u) (email u) (password u) (firstName u) (lastName u) (role u) (avatar u)
     (emailVerified u) (organizationId u) (isActive u) v
     (lockedUntil u) (lastLoginAt u) (lastLoginIp u) (lastLoginBrowser u)
     (lastLoginDevice u) (lastLoginOs u) (resetPasswordToken u)
     (resetPasswordExpires u).

Definition set_lockedUntil (v : option Z) (u : t) : t :=
  mk (id u) (email u) (password u) (firstName u) (lastName u) (role u) (avatar u)
     (emailVerified u) (organizationId u) (isActive u) (failedLoginAttempts u)
     v (lastLoginAt u) (lastLoginIp u) (lastLoginBrowser u)
     (lastLoginDevice u) (lastLoginOs u) (resetPasswordToken u)
     (resetPasswordExpires u).

Definition set_lastLogin (at_ : Z) (ip browser device os : string) (u : t) : t :=
  mk (id u) (email u) (password u) (firstName u) (lastName u) (role u) (avatar u)
     (emailVerified u) (organizationId u) (isActive u) (failedLoginAttempts u)
     (lockedUntil u) (Some at_) (Some ip) (Some browser)
     (Some device) (Some os) (resetPasswordToken u)
     (resetPasswordExpires u).

Definition set_resetPassword (token : option string) (expires : option Z) (u : t) : t :=
  mk (id u) (email u) (password u) (firstName u) (lastName u) (role u) (avatar u)
     (emailVerified u) (organizationId u) (isActive u) (failedLoginAttempts u)
     (lockedUntil u) (lastLoginAt u) (lastLoginIp u) (lastLoginBrowser u)
     (lastLoginDevice u) (lastLoginOs u) token expires.
End User.

Module UserSession.
Record t : Type := mk {
  id : string;
  userId : string;
  refreshToken : string;
  accessToken : string;
  ipAddress : string;
  userAgent : string;
  browser : string;
  device : string;
  os : string;
  isValid : bool;
  expiresAt : Z;
  lastActivityAt : Z
}.

Definition set_isValid (v : bool) (s : t) : t :=
  mk (id s) (userId s) (refreshToken s) (accessToken s) (ipAddress s)
     (userAgent s) (browser s) (device s) (os s) v (expiresAt s)
     (lastActivityAt s).

Definition set_access (token : string) (at_ : Z) (s : t) : t :=
  mk (id s) (userId s) (refreshToken s) token (ipAddress s)
     (userAgent s) (browser s) (device s) (os s) (isValid s) (expiresAt s)
     at_.
End UserSession.

Module Organization.
Record t : Type := mk {
  id : string;
  name : string;
  subdomain : string;
  status : OrganizationStatus;
  plan : SubscriptionPlan;
  trialEndsAt : option Z;
  maxUsers : Z;
  maxPatients : Z;
  maxStorage : Z;
  maxAiQueries : Z;
  currentUsers : Z;
  currentPatients : Z;
  currentStorage : Z;
  currentAiQueries : Z;
  aiQueriesResetAt : Z
}.

(** [organization[`max${Type}`]] *)
Definition maxField (type : ResourceType) (o : t) : Z :=
  match type with
  | users => maxUsers o
  | patients => maxPatients o
  | storage => maxStorage o
  | aiQueries => maxAiQueries o
  end.

(** [organization[`current${Type}`]] *)
Definition currentField (type : ResourceType) (o : t) : Z :=
  match type with
  | users => currentUsers o
  | patients => currentPatients o
  | storage => currentStorage o
  | aiQueries => currentAiQueries o
  end.

Definition set_currentField (type : ResourceType) (v : Z) (o : t) : t :=
  mk (id o) (name o) (subdomain o) (status o) (plan o) (trialEndsAt o)
     (maxUsers o) (maxPatients o) (maxStorage o) (maxAiQueries o)
     (if decide (type = users) then v else currentUsers o)
     (if decide (type = patients) then v else currentPatients o)
     (if decide (type = storage) then v else currentStorage o)
     (if decide (type = aiQueries) then v else currentAiQueries o)
     (aiQueriesResetAt o).

Definition set_aiQueriesResetAt (v : Z) (o : t) : t :=
  mk (id o) (name o) (subdomain o) (status o) (plan o) (trialEndsAt o)
     (maxUsers o) (maxPatients o) (maxStorage o) (maxAiQueries o)
     (currentUsers o) (currentPatients o) (currentStorage o)
     (currentAiQueries o) v.
End Organization.

Module SecurityLog.
Record t : Type := mk {
  event : string;
  severity : string;
  userId : string;
  email : string;
  details : Json;
  ipAddress : string;
  userAgent : string;
  blocked : option bool
}.
End SecurityLog.

Module AdminAuditLog.
Record t : Type := mk {
  userId : string;
  action : string;
  resource : string;
  resourceId : string;
  ipAddress : string;
  userAgent : string
}.
End AdminAuditLog.

(** The tables behind [prisma.user], [prisma.userSession], ... in row
    order. *)
Record Prisma : Type := mkPrisma {
  prisma_user : list User.t;
  prisma_userSession : list UserSession.t;
  prisma_organization : list Organization.t;
  prisma_securityLog : list SecurityLog.t;
  prisma_adminAuditLog : list AdminAuditLog.t
}.

(** What a handler asks of the store and of the collaborators outside it,
    in the order it asks. *)
Inductive Effect : Type :=
| Query (call : string)
| BcryptCompare (plain hashed : string)
| BcryptHash (plain : string) (rounds : Z)
| SendPasswordResetEmail (to name token : string)
| ConsoleError (label : string) (e : Exn).

(** The state a request runs against.  [faults] schedules failures of the
    store: every store call consumes the head, and fails when it is [true];
    with an empty schedule the store never fails.  [seed] numbers the
    draws from the random generators. *)
Record World : Type := mkWorld {
  db : Prisma;
  rateLimitStore : gmap string RateLimitRecord;
  effects : list Effect;
  seed : nat;
  faults : list bool
}.

Definition set_db (p : Prisma) (w : World) : World :=
  mkWorld p (rateLimitStore w) (effects w) (seed w) (faults w).

Definition set_rateLimitStore (s : gmap string RateLimitRecord) (w : World) : World :=
  mkWorld (db w) s (effects w) (seed w) (faults w).

Definition set_faults (f : list bool) (w : World) : World :=
  mkWorld (db w) (rateLimitStore w) (effects w) (seed w) f.

Definition log_effect (e : Effect) (w : World) : World :=
  mkWorld (db w) (rateLimitStore w) (effects w ++ [e]) (seed w) (faults w).

Definition next_seed (w : World) : World :=
  mkWorld (db w) (rateLimitStore w) (effects w) (S (seed w)) (faults w).

(** ** The monad of handlers *)

Definition M (A : Type) : Type := World -> Outcome A * World.

Definition ret {A : Type} (a : A) : M A := fun w => (Ret a, w).

Definition throw {A : Type} (e : Exn) : M A := fun w => (Throw e, w).

Definition bind {A B : Type} (m : M A) (k : A -> M B) : M B :=
  fun w =>
    match m w with
    | (Ret a, w') => k a w'
    | (Throw e, w') => (Throw e, w')
    end.

(** [try { m } catch (error) { h error }] *)
Definition tryCatch {A : Type} (m : M A) (h : Exn -> M A) : M A :=
  fun w =>
    match m w with
    | (Ret a, w') => (Ret a, w')
    | (Throw e, w') => h e w'
    end.

Definition lift {A : Type} (o : Outcome A) : M A := fun w => (o, w).

Notation "'let!' x ':=' m 'in' k" := (bind m (fun x => k))
  (at level 10, x pattern, m at level 100, k at level 200).

(** One call [call] to the store: it is recorded, then it fails if the
    schedule says so, and otherwise runs [op] on the tables. *)
Definition query {A : Type} (call : string) (op : Prisma -> Outcome A * Prisma) : M A :=
  fun w =>
    let w := log_effect (Query call) w in
    match faults w with
    | true :: rest => (Throw (PrismaError "P1001"), set_faults rest w)
    | false :: rest =>
        let (r, p) := op (db w) in (r, set_db p (set_faults rest w))
    | [] =>
        let (r, p) := op (db w) in (r, set_db p w)
    end.

Definition effect (e : Effect) : M unit := fun w => (Ret tt, log_effect e w).

Definition console_error (label : string) (e : Exn) : M unit :=
  effect (ConsoleError label e).

(** ** Requests and responses *)

Module NextRequest.
Record t : Type := mk {
  headers : gmap string string;
  cookies : gmap string string;
  (** the result of [request.json()]: [None] when the body is not JSON *)
  json : option Json
}.
End NextRequest.

Module Cookie.
Record t : Type := mk {
  name : string;
  value : string;
  httpOnly : bool;
  secure : bool;
  sameSite : string;
  expires : Z;
  path : string
}.
End Cookie.

Module NextResponse.
Record t : Type := mk {
  status : Z;
  body : Json;
  cookies_set : list Cookie.t;
  cookies_deleted : list string
}.

Definition json (body : Json) (status : Z) : t := mk status body [] [].

Definition set_cookie (c : Cookie.t) (r : t) : t :=
  mk (status r) (body r) (cookies_set r ++ [c]) (cookies_deleted r).

Definition delete_cookie (n : string) (r : t) : t :=
  mk (status r) (body r) (cookies_set r) (cookies_deleted r ++ [n]).
End NextResponse.

(** JavaScript truthiness of a string, and [a || b] on optional strings. *)
Definition truthy (s : string) : bool := negb (String.eqb s "").

Definition or_else (a : option string) (b : option string) : option string :=
  match a with
  | Some s => if truthy s then Some s else b
  | None => b
  end.

Definition or_default (a : option string) (d : string) : string :=
  match a with
  | Some s => if truthy s then s else d
  | None => d
  end.

(** [!token] *)
Definition falsy (a : option string) : bool :=
  match a with
  | Some s => negb (truthy s)
  | None => true
  end.

(** [successResponse(data, status = 200)] *)
Definition successResponse (data : Json) (status : Z) : NextResponse.t :=
  NextResponse.json (JObj [("success", JBool true); ("data", data)]) status.

(** [errorResponse(message, status = 400, errors?)]; an [undefined]
    member is dropped when the object is serialised. *)
Definition errorResponse (message : string) (status : Z) (errors : option Json)
    : NextResponse.t :=
  NextResponse.json
    (JObj ([("success", JBool false); ("error", JStr message)]
           ++ match errors with Some e => [("errors", e)] | None => [] end))
    status.

(** ** External collaborators *)

Module TokenPayload.
Record t : Type := mk {
  userId : string;
  email : string;
  role : string;
  organizationId : string
}.
End TokenPayload.

Module UAResult.
Record t : Type := mk {
  browser_name : option string;
  browser_version : option string;
  os_name : option string;
  os_version : option string;
  device_type : option string;
  device_vendor : option string;
  device_model : option string
}.
End UAResult.

Class Platform : Type := {
  (** [process.env] *)
  env_JWT_SECRET : option string;
  env_JWT_EXPIRES_IN : option string;
  env_REFRESH_TOKEN_EXPIRES_IN : option string;
  env_NODE_ENV : option string;
  (** jsonwebtoken: [sign(payload, secret, { expiresIn })] and
      [verify(token, secret)], both read at the instant [now] *)
  jwt_sign : TokenPayload.t -> string -> string -> Z -> Outcome string;
  jwt_verify : string -> string -> Z -> Outcome TokenPayload.t;
  (** bcryptjs *)
  bcrypt_compare : string -> string -> bool;
  bcrypt_hash : string -> Z -> string;
  (** nanoid(size), as a function of the number of the draw *)
  nanoid : nat -> Z -> string;
  (** the identifier the store gives a new row *)
  cuid : nat -> string;
  (** ua-parser-js *)
  UAParser : string -> UAResult.t;
  (** [Date.prototype.getFullYear] and [getMonth] of a timestamp *)
  getFullYear : Z -> Z;
  getMonth : Z -> Z;
  (** zod's e-mail format check *)
  zod_email : string -> bool
}.

(** ** Characters and strings of the JS code *)

Definition chars (s : string) : list ascii := list_ascii_of_string s.

Definition is_digit (c : ascii) : bool :=
  let n := nat_of_ascii c in (48 <=? n)%nat && (n <=? 57)%nat.

Definition is_upper (c : ascii) : bool :=
  let n := nat_of_ascii c in (65 <=? n)%nat && (n <=? 90)%nat.

Definition is_lower (c : ascii) : bool :=
  let n := nat_of_ascii c in (97 <=? n)%nat && (n <=? 122)%nat.

(** White space removed by [String.prototype.trim] (the ASCII part). *)
Definition is_space (c : ascii) : bool :=
  let n := nat_of_ascii c in
  (n =? 32)%nat || ((9 <=? n)%nat && (n <=? 13)%nat).

Fixpoint drop_spaces (l : list ascii) : list ascii :=
  match l with
  | c :: l' => if is_space c then drop_spaces l' else l
  | [] => []
  end.

Definition trim (s : string) : string :=
  string_of_list_ascii (rev (drop_spaces (rev (drop_spaces (chars s))))).

(** [s.split(',')[0]] *)
Fixpoint before_comma (l : list ascii) : list ascii :=
  match l with
  | c :: l' => if (nat_of_ascii c =? 44)%nat then [] else c :: before_comma l'
  | [] => []
  end.

Definition split_comma_first (s : string) : string :=
  string_of_list_ascii (before_comma (chars s)).

(** [parseInt] of a string of decimal digits *)
Definition parseInt_digits (l : list ascii) : Z :=
  fold_left (fun acc c => acc * 10 + (Z.of_nat (nat_of_ascii c) - 48)) l 0.

(** [s.startsWith(p)] and [s.substring(n)] *)
Definition startsWith (p s : string) : bool := String.prefix p s.

Definition substring_from (n : nat) (s : string) : string :=
  String.substring n (String.length s - n) s.

(** [Math.ceil(a / b)] for integers [a] and positive [b] *)
Definition ceil_div (a b : Z) : Z := - ((- a) / b).

(** ** The store client: the Prisma calls the handlers make *)

Definition with_user (rows : list User.t) (p : Prisma) : Prisma :=
  mkPrisma rows (prisma_userSession p) (prisma_organization p)
           (prisma_securityLog p) (prisma_adminAuditLog p).

Definition with_userSession (rows : list UserSession.t) (p : Prisma) : Prisma :=
  mkPrisma (prisma_user p) rows (prisma_organization p)
           (prisma_securityLog p) (prisma_adminAuditLog p).

Definition with_organization (rows : list Organization.t) (p : Prisma) : Prisma :=
  mkPrisma (prisma_user p) (prisma_userSession p) rows
           (prisma_securityLog p) (prisma_adminAuditLog p).

Definition with_securityLog (rows : list SecurityLog.t) (p : Prisma) : Prisma :=
  mkPrisma (prisma_user p) (prisma_userSession p) (prisma_organization p)
           rows (prisma_adminAuditLog p).

Definition with_adminAuditLog (rows : list AdminAuditLog.t) (p : Prisma) : Prisma :=
  mkPrisma (prisma_user p) (prisma_userSession p) (prisma_organization p)
           (prisma_securityLog p) rows.

(** Rows matching [where] get [data] applied; the others stay. *)
Definition updateWhere {A : Type} (where_ : A -> bool) (data : A -> A)
    (rows : list A) : list A :=
  map (fun r => if where_ r then data r else r) rows.

Definition user_by_id (id : string) (u : User.t) : bool := String.eqb (User.id u) id.

Definition user_by_email (e : string) (u : User.t) : bool := String.eqb (User.email u) e.

Definition session_by_id (id : string) (s : UserSession.t) : bool :=
  String.eqb (UserSession.id s) id.

Definition session_by_refreshToken (tok : string) (s : UserSession.t) : bool :=
  String.eqb (UserSession.refreshToken s) tok.

Definition organization_by_id (id : string) (o : Organization.t) : bool :=
  String.eqb (Organization.id o) id.

(** [prisma.user.findUnique({ where: { id } })] *)
Definition user_findUnique_id (id : string) : M (option User.t) :=
  query "user.findUnique" (fun p => (Ret (List.find (user_by_id id) (prisma_user p)), p)).

(** [prisma.user.findUnique({ where: { email } })] *)
Definition user_findUnique_email (e : string) : M (option User.t) :=
  query "user.findUnique" (fun p => (Ret (List.find (user_by_email e) (prisma_user p)), p)).

(** [prisma.user.findUnique({ where: { email }, include: { organization } })] *)
Definition user_findUnique_email_include_organization (e : string)
    : M (option (User.t * option Organization.t)) :=
  query "user.findUnique" (fun p =>
    (Ret (match List.find (user_by_email e) (prisma_user p) with
          | Some u =>
              Some (u, List.find (organization_by_id (User.organizationId u))
                                 (prisma_organization p))
          | None => None
          end), p)).

(** [prisma.user.findFirst({ where })] *)
Definition user_findFirst (where_ : User.t -> bool) : M (option User.t) :=
  query "user.findFirst" (fun p => (Ret (List.find where_ (prisma_user p)), p)).

(** [prisma.user.update({ where: { id }, data })]: fails with P2025 when
    no row has the id. *)
Definition user_update (id : string) (data : User.t -> User.t) : M unit :=
  query "user.update" (fun p =>
    if existsb (user_by_id id) (prisma_user p)
    then (Ret tt, with_user (updateWhere (user_by_id id) data (prisma_user p)) p)
    else (Throw (PrismaError "P2025"), p)).

(** [prisma.userSession.findUnique({ where: { refreshToken }, include: { user } })] *)
Definition userSession_findUnique_refreshToken (tok : string)
    : M (option (UserSession.t * option User.t)) :=
  query "userSession.findUnique" (fun p =>
    (Ret (match List.find (session_by_refreshToken tok) (prisma_userSession p) with
          | Some s =>
              Some (s, List.find (user_by_id (UserSession.userId s)) (prisma_user p))
          | None => None
          end), p)).

(** [prisma.userSession.update({ where: { id }, data })] *)
Definition userSession_update (id : string) (data : UserSession.t -> UserSession.t)
    : M unit :=
  query "userSession.update" (fun p =>
    if existsb (session_by_id id) (prisma_userSession p)
    then (Ret tt,
          with_userSession
            (updateWhere (session_by_id id) data (prisma_userSession p)) p)
    else (Throw (PrismaError "P2025"), p)).

(** [prisma.userSession.updateMany({ where, data })] *)
Definition userSession_updateMany (where_ : UserSession.t -> bool)
    (data : UserSession.t -> UserSession.t) : M unit :=
  query "userSession.updateMany" (fun p =>
    (Ret tt, with_userSession (updateWhere where_ data (prisma_userSession p)) p)).

(** [prisma.userSession.create({ data })] *)
Definition userSession_create (row : UserSession.t) : M unit :=
  query "userSession.create"
    (fun p => (Ret tt, with_userSession (prisma_userSession p ++ [row]) p)).

(** [prisma.organization.findUnique({ where: { id } })] *)
Definition organization_findUnique (id : string) : M (option Organization.t) :=
  query "organization.findUnique"
    (fun p => (Ret (List.find (organization_by_id id) (prisma_organization p)), p)).

(** [prisma.organization.update({ where: { id }, data })] *)
Definition organization_update (id : string) (data : Organization.t -> Organization.t)
    : M unit :=
  query "organization.update" (fun p =>
    if existsb (organization_by_id id) (prisma_organization p)
    then (Ret tt,
          with_organization
            (updateWhere (organization_by_id id) data (prisma_organization p)) p)
    else (Throw (PrismaError "P2025"), p)).

(** [prisma.securityLog.create({ data })] *)
Definition securityLog_create (row : SecurityLog.t) : M unit :=
  query "securityLog.create"
    (fun p => (Ret tt, with_securityLog (prisma_securityLog p ++ [row]) p)).

(** [prisma.adminAuditLog.create({ data })] *)
Definition adminAuditLog_create (row : AdminAuditLog.t) : M unit :=
  query "adminAuditLog.create"
    (fun p => (Ret tt, with_adminAuditLog (prisma_adminAuditLog p ++ [row]) p)).

(** ** Validation (lib/validations, lib/utils/api.ts)

    A schema maps the parsed body to the validated data or to the list of
    issues ([path], [message]) zod would throw. *)

Definition Issue : Type := (list string * string)%type.

Definition zod_typeof (j : Json) : string :=
  match j with
  | JNull => "null"
  | JBool _ => "boolean"
  | JNum _ => "number"
  | JStr _ => "string"
  | JArr _ => "array"
  | JObj _ => "object"
  end.

(** [z.string()] followed by the checks [(test, message)]. *)
Definition z_string (field : string) (checks : list ((string -> bool) * string))
    (body : Json) : string + list Issue :=
  match jfield field body with
  | Some (JStr s) =>
      match omap (fun c : (string -> bool) * string =>
                    if fst c s then None else Some ([field], snd c)) checks with
      | [] => inl s
      | issues => inr issues
      end
  | Some j => inr [([field], "Expected string, received " ++ zod_typeof j)]
  | None => inr [([field], "Required")]
  end.

(** [z.boolean().optional()] *)
Definition z_boolean_optional (field : string) (body : Json)
    : option bool + list Issue :=
  match jfield field body with
  | Some (JBool b) => inl (Some b)
  | Some j => inr [([field], "Expected boolean, received " ++ zod_typeof j)]
  | None => inl None
  end.

Definition issues_of {A : Type} (r : A + list Issue) : list Issue :=
  match r with inl _ => [] | inr i => i end.

Definition z_object {A : Type} (body : Json) (fields : Outcome A) : Outcome A :=
  match body with
  | JObj _ => fields
  | j => Throw (ZodError [([], "Expected object, received " ++ zod_typeof j)])
  end.

Definition min_length (n : nat) (s : string) : bool := (n <=? String.length s)%nat.

Definition matches (class : ascii -> bool) (s : string) : bool :=
  existsb class (chars s).

Definition password_checks : list ((string -> bool) * string) :=
  [(min_length 8, "Şifre en az 8 karakter olmalıdır");
   (matches is_upper, "Şifre en az bir büyük harf içermelidir");
   (matches is_lower, "Şifre en az bir küçük harf içermelidir");
   (matches is_digit, "Şifre en az bir rakam içermelidir")].

Definition newPassword_checks : list ((string -> bool) * string) :=
  [(min_length 8, "Yeni şifre en az 8 karakter olmalıdır");
   (matches is_upper, "Şifre en az bir büyük harf içermelidir");
   (matches is_lower, "Şifre en az bir küçük harf içermelidir");
   (matches is_digit, "Şifre en az bir rakam içermelidir")].

Module LoginData.
Record t : Type := mk { email : string; password : string; rememberMe : option bool }.
End LoginData.

Module ForgotPasswordData.
Record t : Type := mk { email : string }.
End ForgotPasswordData.

Module ResetPasswordData.
Record t : Type := mk { token : string; password : string }.
End ResetPasswordData.

Module ChangePasswordData.
Record t : Type := mk { currentPassword : string; newPassword : string }.
End ChangePasswordData.

Module AuthUser.
Record t : Type := mk {
  id : string;
  email : string;
  role : UserRole;
  organizationId : string
}.
End AuthUser.

Module Usage.
Record t : Type := mk { exceeded : bool; current : Z; max : Z }.
End Usage.

Module UserInfo.
Record t : Type := mk {
  ip : string;
  browser : string;
  device : string;
  os : string;
  userAgent : string
}.
End UserInfo.

Section Handlers.

Context `{Platform}.

(** *** Schemas *)

Definition loginSchema (body : Json) : Outcome LoginData.t :=
  z_object body
    (let email := z_string "email" [(zod_email, "Geçersiz email adresi")] body in
     let password := z_string "password" [(min_length 1, "Şifre gereklidir")] body in
     let rememberMe := z_boolean_optional "rememberMe" body in
     match email, password, rememberMe with
     | inl e, inl p, inl r => Ret (LoginData.mk e p r)
     | _, _, _ =>
         Throw (ZodError (issues_of email ++ issues_of password ++ issues_of rememberMe))
     end).

Definition forgotPasswordSchema (body : Json) : Outcome ForgotPasswordData.t :=
  z_object body
    (match z_string "email" [(zod_email, "Geçersiz email adresi")] body with
     | inl e => Ret (ForgotPasswordData.mk e)
     | inr issues => Throw (ZodError issues)
     end).

Definition resetPasswordSchema (body : Json) : Outcome ResetPasswordData.t :=
  z_object body
    (let token := z_string "token" [(min_length 1, "Token gereklidir")] body in
     let password := z_string "password" password_checks body in
     match token, password with
     | inl t, inl p => Ret (ResetPasswordData.mk t p)
     | _, _ => Throw (ZodError (issues_of token ++ issues_of password))
     end).

Definition changePasswordSchema (body : Json) : Outcome ChangePasswordData.t :=
  z_object body
    (let currentPassword :=
       z_string "currentPassword" [(min_length 1, "Mevcut şifre gereklidir")] body in
     let newPassword := z_string "newPassword" newPassword_checks body in
     match currentPassword, newPassword with
     | inl c, inl n => Ret (ChangePasswordData.mk c n)
     | _, _ => Throw (ZodError (issues_of currentPassword ++ issues_of newPassword))
     end).

(** [validateRequest(request, schema)]: [inl data] or [inr error]. *)
Definition validateRequest {T : Type} (request : NextRequest.t)
    (schema : Json -> Outcome T) : T + NextResponse.t :=
  let parsed :=
    match NextRequest.json request with
    | Some body => schema body
    | None => Throw (Error "Unexpected token in JSON")
    end in
  match parsed with
  | Ret validatedData => inl validatedData
  | Throw (ZodError errors) =>
      let formattedErrors :=
        map (fun err : Issue =>
               JObj [("field", JStr (String.concat "." (fst err)));
                     ("message", JStr (snd err))]) errors in
      inr (errorResponse "Validation error" 400 (Some (JArr formattedErrors)))
  | Throw _ => inr (errorResponse "Invalid request body" 400 None)
  end.

(** *** Token utilities (lib/utils/jwt.ts) *)

Definition JWT_SECRET : string := or_default env_JWT_SECRET "your-secret-key".

Definition JWT_EXPIRES_IN : string := or_default env_JWT_EXPIRES_IN "7d".

Definition REFRESH_TOKEN_EXPIRES_IN : string :=
  or_default env_REFRESH_TOKEN_EXPIRES_IN "30d".

Definition generateAccessToken (payload : TokenPayload.t) (now : Z) : Outcome string :=
  jwt_sign payload JWT_SECRET JWT_EXPIRES_IN now.

Definition generateRefreshToken : M string :=
  fun w => (Ret (nanoid (seed w) 64), next_seed w).

(** [try { const decoded = verify(token, JWT_SECRET); return decoded }
    catch (error) { return null }] *)
Definition verifyAccessToken (token : string) (now : Z)
    : Outcome (option TokenPayload.t) :=
  catch (andThen (jwt_verify token JWT_SECRET now) (fun decoded => Ret (Some decoded)))
        (fun error => Ret None).

(** [expiresIn.match(/^(\d+)([dhms])$/)]: the digits and the unit. *)
Definition match_expiration (expiresIn : string) : option (list ascii * ascii) :=
  match rev (chars expiresIn) with
  | unit :: (_ :: _) as digits =>
      if forallb is_digit digits
         && existsb (Ascii.eqb unit) (chars "dhms")
      then Some (rev digits, unit)
      else None
  | _ => None
  end.

Definition getTokenExpiration (expiresIn : string) (now : Z) : Outcome Z :=
  match match_expiration expiresIn with
  | None => Throw (Error "Invalid expiration format")
  | Some (digits, unit) =>
      let value := parseInt_digits digits in
      if Ascii.eqb unit "d" then Ret (now + value * 24 * 60 * 60 * 1000)
      else if Ascii.eqb unit "h" then Ret (now + value * 60 * 60 * 1000)
      else if Ascii.eqb unit "m" then Ret (now + value * 60 * 1000)
      else if Ascii.eqb unit "s" then Ret (now + value * 1000)
      else Throw (Error "Invalid time unit")
  end.

Definition getRefreshTokenExpiration (now : Z) : Outcome Z :=
  getTokenExpiration REFRESH_TOKEN_EXPIRES_IN now.

(** *** Client information (lib/utils/userInfo.ts) *)

Definition header (name : string) (request : NextRequest.t) : option string :=
  NextRequest.headers request !! name.

Definition cookie (name : string) (request : NextRequest.t) : option string :=
  NextRequest.cookies request !! name.

Definition getClientIp (request : NextRequest.t) : string :=
  let forwardedFor := header "x-forwarded-for" request in
  let realIp := header "x-real-ip" request in
  let cfConnectingIp := header "cf-connecting-ip" request in
  if negb (falsy forwardedFor) then trim (split_comma_first (default "" forwardedFor))
  else if negb (falsy realIp) then trim (default "" realIp)
  else if negb (falsy cfConnectingIp) then trim (default "" cfConnectingIp)
  else "0.0.0.0".

Definition getUserRegistrationInfo (request : NextRequest.t) : UserInfo.t :=
  let ip := getClientIp request in
  let ua := or_default (header "user-agent" request) "" in
  let result := UAParser ua in
  let browser := or_default (UAResult.browser_name result) "Unknown" in
  let browserVersion := or_default (UAResult.browser_version result) "" in
  let os := or_default (UAResult.os_name result) "Unknown" in
  let osVersion := or_default (UAResult.os_version result) "" in
  let device := or_default (UAResult.device_type result) "desktop" in
  UserInfo.mk ip (trim (browser ++ " " ++ browserVersion)) device
              (trim (os ++ " " ++ osVersion)) ua.

(** *** Shared helpers (lib/utils/api.ts) *)

Definition applyRateLimit (identifier : string) (limit windowMs : Z) (now : Z)
    : M (option NextResponse.t) :=
  fun w =>
    let (allowed, store) := rateLimit identifier limit windowMs now (rateLimitStore w) in
    (Ret (if allowed then None
          else Some (errorResponse "Rate limit exceeded. Please try again later." 429 None)),
     set_rateLimitStore store w).

Definition requireAuth (now : Z) (request : NextRequest.t)
    : M (AuthUser.t + NextResponse.t) :=
  tryCatch
    (let cookieToken := cookie "accessToken" request in
     let authHeader := header "authorization" request in
     let bearerToken :=
       match authHeader with
       | Some h => if startsWith "Bearer " h then Some (substring_from 7 h) else None
       | None => None
       end in
     let token := or_else cookieToken bearerToken in
     if falsy token then
       ret (inr (errorResponse "Unauthorized - No token provided" 401 None))
     else
       let! decoded := lift (jwt_verify (default "" token) JWT_SECRET now) in
       let! user := user_findUnique_id (TokenPayload.userId decoded) in
       match user with
       | Some user =>
           if User.isActive user then
             ret (inl (AuthUser.mk (User.id user) (User.email user) (User.role user)
                                   (User.organizationId user)))
           else
             ret (inr (errorResponse "Unauthorized - User not found or inactive" 401 None))
       | None =>
           ret (inr (errorResponse "Unauthorized - User not found or inactive" 401 None))
       end)
    (fun error => ret (inr (errorResponse "Unauthorized - Invalid token" 401 None))).

(** *** Usage limits and trial (lib/prisma.ts, lib/utils/api.ts) *)

Definition monthDiff (now resetDate : Z) : Z :=
  (getFullYear now - getFullYear resetDate) * 12 + (getMonth now - getMonth resetDate).

Definition checkUsageLimit (organizationId : string) (type : ResourceType) (now : Z)
    : M Usage.t :=
  let! organization := organization_findUnique organizationId in
  match organization with
  | None => throw (Error "Organization not found")
  | Some organization =>
      if bool_decide (type = aiQueries)
         && (monthDiff now (Organization.aiQueriesResetAt organization) >=? 1)
      then
        let! _ := organization_update organizationId
                    (fun o => Organization.set_aiQueriesResetAt now
                                (Organization.set_currentField aiQueries 0 o)) in
        ret (Usage.mk false 0 (Organization.maxAiQueries organization))
      else
        let max := Organization.maxField type organization in
        let current := Organization.currentField type organization in
        ret (Usage.mk (current >=? max) current max)
  end.

(** [data: { [field]: { increment: amount } }] adds to the stored value. *)
Definition incrementUsage (organizationId : string) (type : ResourceType) (amount : Z)
    : M unit :=
  organization_update organizationId
    (fun o => Organization.set_currentField type
                (Organization.currentField type o + amount) o).

Definition decrementUsage (organizationId : string) (type : ResourceType) (amount : Z)
    : M unit :=
  organization_update organizationId
    (fun o => Organization.set_currentField type
                (Organization.currentField type o - amount) o).

Definition checkAndIncrementUsage (organizationId : string) (type : ResourceType)
    (amount : Z) (now : Z) : M (option NextResponse.t) :=
  let! usage := checkUsageLimit organizationId type now in
  if Usage.exceeded usage then
    ret (Some (errorResponse
                 ("Usage limit exceeded. Current: " ++ pretty (Usage.current usage)
                  ++ ", Max: " ++ pretty (Usage.max usage))
                 403 None))
  else
    let! _ := incrementUsage organizationId type amount in
    ret None.

Definition isTrialExpired (organizationId : string) (now : Z) : M bool :=
  let! organization := organization_findUnique organizationId in
  match organization with
  | None => throw (Error "Organization not found")
  | Some organization =>
      if negb (bool_decide (Organization.status organization = TRIAL)) then ret false
      else
        match Organization.trialEndsAt organization with
        | None => ret false
        | Some trialEndsAt => ret (now >? trialEndsAt)
        end
  end.

Definition requireFeature (organizationId : string) (feature : string)
    : M (option NextResponse.t) :=
  let! organization := organization_findUnique organizationId in
  match organization with
  | None => ret (Some (errorResponse "Organization not found" 404 None))
  | Some organization =>
      if bool_decide (Organization.status organization = SUSPENDED)
         || bool_decide (Organization.status organization = CANCELLED)
      then ret (Some (errorResponse "Organization is suspended or cancelled" 403 None))
      else
        let! has := lift (hasFeature (plan_key (Organization.plan organization)) feature) in
        if negb has then
          ret (Some (errorResponse "This feature requires a higher subscription plan"
                                   403 None))
        else ret None
  end.

(** *** bcryptjs and mail, with their calls recorded *)

Definition compare (plain hashed : string) : M bool :=
  let! _ := effect (BcryptCompare plain hashed) in
  ret (bcrypt_compare plain hashed).

Definition hash (plain : string) (rounds : Z) : M string :=
  let! _ := effect (BcryptHash plain rounds) in
  ret (bcrypt_hash plain rounds).

(** Fire and forget: the helper catches its own failures. *)
Definition sendPasswordResetEmail (to name token : string) : M unit :=
  effect (SendPasswordResetEmail to name token).

(** *** POST /api/auth/login *)

Definition MAX_LOGIN_ATTEMPTS : Z := 5.

Definition LOCK_DURATION : Z := 15 * 60 * 1000.

(** [user.lockedUntil && user.lockedUntil > new Date()] *)
Definition isLocked (user : User.t) (now : Z) : bool :=
  match User.lockedUntil user with
  | Some lockedUntil => lockedUntil >? now
  | None => false
  end.

Definition lockedMessage (minutesLeft : Z) : string :=
  "Hesabınız çok fazla başarısız giriş denemesi nedeniyle kilitlendi. "
  ++ pretty minutesLeft ++ " dakika sonra tekrar deneyin.".

Definition authCookie (name value : string) (expires : Z) : Cookie.t :=
  Cookie.mk name value true
            (bool_decide (env_NODE_ENV = Some "production")) "lax" expires "/".

(** Modelled from the spec: the Prisma schema is not among the sources, so
    the columns [userSession.create] leaves out take the defaults the
    specification gives them: a new session row is valid (createSession
    inserts a new valid session row) and its last activity is the instant
    of its creation. *)
Definition newSession (id : string) (now : Z) (userId refreshToken accessToken : string)
    (userInfo : UserInfo.t) (expiresAt : Z) : UserSession.t :=
  UserSession.mk id userId refreshToken accessToken
    (UserInfo.ip userInfo) (UserInfo.userAgent userInfo)
    (UserInfo.browser userInfo) (UserInfo.device userInfo)
    (UserInfo.os userInfo) true expiresAt now.

(** The body of the [try] block, for validated [data]. *)
Definition login_try (now : Z) (request : NextRequest.t) (ip : string)
    (data : LoginData.t) : M NextResponse.t :=
  let! found := user_findUnique_email_include_organization (LoginData.email data) in
  match found with
  | None => ret (errorResponse "Geçersiz email veya şifre" 401 None)
  | Some (user, organization) =>
      if isLocked user now then
        let minutesLeft := ceil_div (default 0 (User.lockedUntil user) - now) 60000 in
        ret (errorResponse (lockedMessage minutesLeft) 403 None)
      else
        let! isPasswordValid := compare (LoginData.password data) (User.password user) in
        if negb isPasswordValid then
          let failedAttempts := User.failedLoginAttempts user + 1 in
          let updates := fun u : User.t =>
            let u := User.set_failedLoginAttempts failedAttempts u in
            if failedAttempts >=? MAX_LOGIN_ATTEMPTS
            then User.set_lockedUntil (Some (now + LOCK_DURATION)) u
            else u in
          let! _ := user_update (User.id user) updates in
          let! _ := securityLog_create
            (SecurityLog.mk "login.failed"
               (if failedAttempts >=? MAX_LOGIN_ATTEMPTS then "high" else "medium")
               (User.id user) (User.email user)
               (JObj [("attempt", JNum failedAttempts);
                      ("locked", JBool (failedAttempts >=? MAX_LOGIN_ATTEMPTS))])
               ip (or_default (header "user-agent" request) "")
               (Some (failedAttempts >=? MAX_LOGIN_ATTEMPTS))) in
          if failedAttempts >=? MAX_LOGIN_ATTEMPTS then
            ret (errorResponse
                   "Çok fazla başarısız giriş denemesi. Hesabınız 15 dakika süreyle kilitlendi."
                   403 None)
          else
            ret (errorResponse
                   ("Geçersiz email veya şifre. "
                    ++ pretty (MAX_LOGIN_ATTEMPTS - failedAttempts)
                    ++ " deneme hakkınız kaldı.")
                   401 None)
        else if negb (User.isActive user) then
          ret (errorResponse
                 "Hesabınız askıya alınmış. Lütfen yöneticinizle iletişime geçin." 403 None)
        else
          match organization with
          | None => throw (TypeError "Cannot read properties of null (reading 'status')")
          | Some organization =>
              if bool_decide (Organization.status organization = SUSPENDED) then
                ret (errorResponse
                       "Organizasyonunuz askıya alınmış. Lütfen faturaları kontrol edin."
                       403 None)
              else if bool_decide (Organization.status organization = CANCELLED) then
                ret (errorResponse "Organizasyonunuz iptal edilmiş." 403 None)
              else
                let! expired := isTrialExpired (User.organizationId user) now in
                if expired then
                  ret (errorResponse
                         "Deneme süreniz dolmuş. Lütfen bir abonelik planı seçin." 403 None)
                else
                  let userInfo := getUserRegistrationInfo request in
                  let! accessToken := lift (generateAccessToken
                    (TokenPayload.mk (User.id user) (User.email user)
                                     (role_key (User.role user))
                                     (User.organizationId user)) now) in
                  let! refreshToken := generateRefreshToken in
                  let! refreshTokenExpires := lift (getRefreshTokenExpiration now) in
                  let! sessionId := (fun w => (Ret (cuid (seed w)), next_seed w)) in
                  let! _ := userSession_create
                    (newSession sessionId now (User.id user) refreshToken accessToken
                       userInfo refreshTokenExpires) in
                  let! _ := user_update (User.id user)
                    (fun u => User.set_lockedUntil None
                                (User.set_failedLoginAttempts 0
                                   (User.set_lastLogin now (UserInfo.ip userInfo)
                                      (UserInfo.browser userInfo)
                                      (UserInfo.device userInfo)
                                      (UserInfo.os userInfo) u))) in
                  let! _ := securityLog_create
                    (SecurityLog.mk "login.success" "low" (User.id user) (User.email user)
                       (JObj [("browser", JStr (UserInfo.browser userInfo));
                              ("device", JStr (UserInfo.device userInfo));
                              ("os", JStr (UserInfo.os userInfo))])
                       (UserInfo.ip userInfo) (UserInfo.userAgent userInfo) None) in
                  let response := NextResponse.json
                    (JObj [("success", JBool true);
                           ("data", JObj [
                              ("accessToken", JStr accessToken);
                              ("refreshToken", JStr refreshToken);
                              ("user", JObj [
                                 ("id", JStr (User.id user));
                                 ("email", JStr (User.email user));
                                 ("firstName", JStr (User.firstName user));
                                 ("lastName", JStr (User.lastName user));
                                 ("role", JStr (role_key (User.role user)));
                                 ("avatar", from_option JStr JNull (User.avatar user));
                                 ("emailVerified", JBool (User.emailVerified user))]);
                              ("organization", JObj [
                                 ("id", JStr (Organization.id organization));
                                 ("name", JStr (Organization.name organization));
                                 ("subdomain", JStr (Organization.subdomain organization));
                                 ("status", JStr (status_key (Organization.status organization)))])])])
                    200 in
                  let! cookieExpires := lift
                    (if bool_decide (LoginData.rememberMe data = Some true)
                     then getTokenExpiration "30d" now
                     else getTokenExpiration "7d" now) in
                  ret (NextResponse.set_cookie
                         (authCookie "refreshToken" refreshToken cookieExpires)
                         (NextResponse.set_cookie
                            (authCookie "accessToken" accessToken cookieExpires)
                            response))
          end
  end.

Definition POST_login (now : Z) (request : NextRequest.t) : M NextResponse.t :=
  let ip := or_default (header "x-forwarded-for" request) "anonymous" in
  let! rateLimitError := applyRateLimit ("login:" ++ ip) 10 (60 * 1000) now in
  match rateLimitError with
  | Some rateLimitError => ret rateLimitError
  | None =>
      match validateRequest request loginSchema with
      | inr error => ret error
      | inl data =>
          tryCatch (login_try now request ip data)
            (fun error =>
               let! _ := console_error "Login error:" error in
               ret (errorResponse "Giriş sırasında bir hata oluştu" 500 None))
      end
  end.

(** *** POST /api/auth/refresh *)

(** [body.refreshToken], when the body parses ([undefined] otherwise: the
    inner [try] swallows the failure) *)
Definition bodyToken (request : NextRequest.t) : option Json :=
  match NextRequest.json request with
  | Some body => jfield "refreshToken" body
  | None => None
  end.

(** [cookieToken || bodyToken] *)
Definition requestRefreshToken (request : NextRequest.t) : option Json :=
  match cookie "refreshToken" request with
  | Some s => if truthy s then Some (JStr s) else bodyToken request
  | None => bodyToken request
  end.

(** [!refreshToken] on a JS value *)
Definition js_falsy (v : option Json) : bool :=
  match v with
  | None | Some JNull | Some (JBool false) => true
  | Some (JNum n) => n =? 0
  | Some (JStr s) => negb (truthy s)
  | Some _ => false
  end.

Definition refresh_try (now : Z) (request : NextRequest.t) : M NextResponse.t :=
  let refreshToken := requestRefreshToken request in
  if js_falsy refreshToken then ret (errorResponse "Refresh token gerekli" 401 None)
  else
    let! found :=
      match refreshToken with
      | Some (JStr refreshToken) => userSession_findUnique_refreshToken refreshToken
      | _ => throw (PrismaError "PrismaClientValidationError")
      end in
    match found with
    | None => ret (errorResponse "Geçersiz refresh token" 401 None)
    | Some (session, user) =>
        if negb (UserSession.isValid session) then
          ret (errorResponse "Session geçersiz. Lütfen tekrar giriş yapın." 401 None)
        else if UserSession.expiresAt session <? now then
          let! _ := userSession_update (UserSession.id session)
                      (UserSession.set_isValid false) in
          ret (errorResponse "Session süresi dolmuş. Lütfen tekrar giriş yapın." 401 None)
        else
          match user with
          | None => throw (TypeError "Cannot read properties of null (reading 'isActive')")
          | Some user =>
              if negb (User.isActive user) then
                ret (errorResponse "Kullanıcı hesabı aktif değil" 401 None)
              else
                let! accessToken := lift (generateAccessToken
                  (TokenPayload.mk (User.id user) (User.email user)
                                   (role_key (User.role user))
                                   (User.organizationId user)) now) in
                let! _ := userSession_update (UserSession.id session)
                            (UserSession.set_access accessToken now) in
                let response := NextResponse.json
                  (JObj [("success", JBool true);
                         ("data", JObj [("accessToken", JStr accessToken)])]) 200 in
                let! expires := lift (getTokenExpiration "7d" now) in
                ret (NextResponse.set_cookie
                       (authCookie "accessToken" accessToken expires) response)
          end
    end.

Definition POST_refresh (now : Z) (request : NextRequest.t) : M NextResponse.t :=
  tryCatch (refresh_try now request)
    (fun error =>
       let! _ := console_error "Refresh token error:" error in
       ret (errorResponse "Token yenileme sırasında bir hata oluştu" 500 None)).

(** *** POST /api/auth/change-password *)

Definition changePassword_try (request : NextRequest.t) (user : AuthUser.t)
    (data : ChangePasswordData.t) : M NextResponse.t :=
  let ipAddress := or_default (header "x-forwarded-for" request) "unknown" in
  let userAgent := or_default (header "user-agent" request) "" in
  let! userDetails := user_findUnique_id (AuthUser.id user) in
  match userDetails with
  | None => ret (errorResponse "Kullanıcı bulunamadı" 404 None)
  | Some userDetails =>
      let! isPasswordValid :=
        compare (ChangePasswordData.currentPassword data) (User.password userDetails) in
      if negb isPasswordValid then
        let! _ := securityLog_create
          (SecurityLog.mk "password.change_failed" "medium" (AuthUser.id user)
             (AuthUser.email user)
             (JObj [("reason", JStr "Invalid current password")])
             ipAddress userAgent None) in
        ret (errorResponse "Mevcut şifre yanlış" 401 None)
      else if String.eqb (ChangePasswordData.currentPassword data)
                         (ChangePasswordData.newPassword data) then
        ret (errorResponse "Yeni şifre mevcut şifre ile aynı olamaz" 400 None)
      else
        let! hashedPassword := hash (ChangePasswordData.newPassword data) 12 in
        let! _ := user_update (AuthUser.id user) (User.set_password hashedPassword) in
        let currentRefreshToken := cookie "refreshToken" request in
        let! _ := userSession_updateMany
          (fun s => String.eqb (UserSession.userId s) (AuthUser.id user)
                    && UserSession.isValid s
                    && negb (String.eqb (UserSession.refreshToken s)
                                        (or_default currentRefreshToken "")))
          (UserSession.set_isValid false) in
        let! _ := securityLog_create
          (SecurityLog.mk "password.changed" "medium" (AuthUser.id user)
             (AuthUser.email user)
             (JObj [("otherSessionsInvalidated", JBool true)])
             ipAddress userAgent None) in
        let! _ := adminAuditLog_create
          (AdminAuditLog.mk (AuthUser.id user) "user.password_change" "User"
             (AuthUser.id user) ipAddress userAgent) in
        ret (successResponse
               (JObj [("message",
                       JStr "Şifreniz başarıyla değiştirildi. Diğer tüm oturumlar sonlandırıldı.")])
               200)
  end.

Definition POST_change_password (now : Z) (request : NextRequest.t) : M NextResponse.t :=
  let! auth := requireAuth now request in
  match auth with
  | inr error => ret error
  | inl user =>
      match validateRequest request changePasswordSchema with
      | inr validationError => ret validationError
      | inl data =>
          tryCatch (changePassword_try request user data)
            (fun error =>
               let! _ := console_error "Change password error:" error in
               ret (errorResponse "Şifre değiştirme sırasında bir hata oluştu" 500 None))
      end
  end.

(** *** POST /api/auth/forgot-password *)

Definition forgotPassword_message : Json :=
  JObj [("message",
         JStr "Eğer bu email adresi kayıtlıysa, şifre sıfırlama linki gönderildi.")].

Definition forgotPassword_try (now : Z) (request : NextRequest.t) (ip : string)
    (data : ForgotPasswordData.t) : M NextResponse.t :=
  let! user := user_findUnique_email (ForgotPasswordData.email data) in
  match user with
  | None => ret (successResponse forgotPassword_message 200)
  | Some user =>
      if negb (User.isActive user) then ret (successResponse forgotPassword_message 200)
      else
        let! resetToken := (fun w => (Ret (nanoid (seed w) 32), next_seed w)) in
        let resetExpires := now + 60 * 60 * 1000 in
        let! _ := user_update (User.id user)
                    (User.set_resetPassword (Some resetToken) (Some resetExpires)) in
        let! _ := sendPasswordResetEmail (User.email user) (User.firstName user)
                    resetToken in
        let! _ := securityLog_create
          (SecurityLog.mk "password.reset_requested" "medium" (User.id user)
             (User.email user) (JObj [("tokenExpires", JNum resetExpires)])
             ip (or_default (header "user-agent" request) "") None) in
        ret (successResponse forgotPassword_message 200)
  end.

Definition POST_forgot_password (now : Z) (request : NextRequest.t) : M NextResponse.t :=
  let ip := or_default (header "x-forwarded-for" request) "anonymous" in
  let! rateLimitError := applyRateLimit ("forgot-password:" ++ ip) 3 (60 * 60 * 1000) now in
  match rateLimitError with
  | Some rateLimitError => ret rateLimitError
  | None =>
      match validateRequest request forgotPasswordSchema with
      | inr error => ret error
      | inl data =>
          tryCatch (forgotPassword_try now request ip data)
            (fun error =>
               let! _ := console_error "Forgot password error:" error in
               ret (successResponse forgotPassword_message 200))
      end
  end.

(** *** POST /api/auth/reset-password *)

Definition resetPassword_try (now : Z) (request : NextRequest.t)
    (data : ResetPasswordData.t) : M NextResponse.t :=
  let! user := user_findFirst
    (fun u => bool_decide (User.resetPasswordToken u = Some (ResetPasswordData.token data))
              && match User.resetPasswordExpires u with
                 | Some e => e >? now
                 | None => false
                 end) in
  match user with
  | None => ret (errorResponse "Geçersiz veya süresi dolmuş token" 400 None)
  | Some user =>
      let! hashedPassword := hash (ResetPasswordData.password data) 12 in
      let! _ := user_update (User.id user)
                  (fun u => User.set_resetPassword None None
                              (User.set_password hashedPassword u)) in
      let! _ := userSession_updateMany
                  (fun s => String.eqb (UserSession.userId s) (User.id user))
                  (UserSession.set_isValid false) in
      let! _ := securityLog_create
        (SecurityLog.mk "password.reset_completed" "medium" (User.id user)
           (User.email user) (JObj [("sessionsInvalidated", JBool true)])
           (or_default (header "x-forwarded-for" request) "unknown")
           (or_default (header "user-agent" request) "") None) in
      ret (successResponse
             (JObj [("message",
                     JStr "Şifreniz başarıyla sıfırlandı. Yeni şifrenizle giriş yapabilirsiniz.")])
             200)
  end.

Definition POST_reset_password (now : Z) (request : NextRequest.t) : M NextResponse.t :=
  match validateRequest request resetPasswordSchema with
  | inr error => ret error
  | inl data =>
      tryCatch (resetPassword_try now request data)
        (fun error =>
           let! _ := console_error "Reset password error:" error in
           ret (errorResponse "Şifre sıfırlama sırasında bir hata oluştu" 500 None))
  end.

(** *** POST /api/auth/logout and DELETE /api/auth/logout/all *)

Definition cleared (message : string) : NextResponse.t :=
  NextResponse.delete_cookie "refreshToken"
    (NextResponse.delete_cookie "accessToken"
       (NextResponse.json
          (JObj [("success", JBool true);
                 ("data", JObj [("message", JStr message)])]) 200)).

Definition POST_logout (now : Z) (request : NextRequest.t) : M NextResponse.t :=
  let! auth := requireAuth now request in
  match auth with
  | inr error => ret error
  | inl user =>
      tryCatch
        (let refreshToken := cookie "refreshToken" request in
         let! _ :=
           if negb (falsy refreshToken) then
             userSession_updateMany
               (fun s => String.eqb (UserSession.userId s) (AuthUser.id user)
                         && String.eqb (UserSession.refreshToken s)
                                       (default "" refreshToken))
               (UserSession.set_isValid false)
           else ret tt in
         ret (cleared "Başarıyla çıkış yapıldı"))
        (fun error =>
           let! _ := console_error "Logout error:" error in
           ret (cleared "Başarıyla çıkış yapıldı"))
  end.

Definition DELETE_logout_all (now : Z) (request : NextRequest.t) : M NextResponse.t :=
  let! auth := requireAuth now request in
  match auth with
  | inr error => ret error
  | inl user =>
      tryCatch
        (let! _ := userSession_updateMany
                     (fun s => String.eqb (UserSession.userId s) (AuthUser.id user)
                               && UserSession.isValid s)
                     (UserSession.set_isValid false) in
         let! _ := securityLog_create
           (SecurityLog.mk "logout.all_devices" "medium" (AuthUser.id user)
              (AuthUser.email user)
              (JObj [("reason", JStr "User initiated logout from all devices")])
              (or_default (header "x-forwarded-for" request) "unknown")
              (or_default (header "user-agent" request) "") None) in
         ret (cleared "Tüm cihazlardan başarıyla çıkış yapıldı"))
        (fun error =>
           let! _ := console_error "Logout all error:" error in
           ret (cleared "Tüm cihazlardan başarıyla çıkış yapıldı"))
  end.

End Handlers.

(** ** Vocabulary of the statements *)

(** A call to the rate limiter, and the run of a list of calls. *)
Module Call.
Record t : Type := mk { key : string; limit : Z; windowMs : Z; now : Z }.
End Call.

(** The number of calls for [key], among [calls] run in order from
    [store], that [rateLimit] allows. *)
Fixpoint allowedCalls (key : string) (calls : list Call.t)
    (store : gmap string RateLimitRecord) : nat :=
  match calls with
  | [] => 0%nat
  | c :: rest =>
      let (allowed, store') :=
        rateLimit (Call.key c) (Call.limit c) (Call.windowMs c) (Call.now c) store in
      ((if allowed && String.eqb (Call.key c) key then 1 else 0)
       + allowedCalls key rest store')%nat
  end.

(** The calls for [key] all use [limit] and arrive no later than
    [deadline]. *)
Definition withinWindow (key : string) (limit deadline : Z) (calls : list Call.t) : Prop :=
  Forall (fun c => Call.key c = key -> Call.limit c = limit /\ Call.now c <= deadline) calls.

(** A call at [now] opens a new window for [key]: there is no record, or
    its reset deadline has passed. *)
Definition newWindow (key : string) (now : Z) (store : gmap string RateLimitRecord)
    : Prop :=
  match store !! key with
  | Some r => resetAt r < now
  | None => True
  end.

(** The feature list of a plan, read off the [features] object. *)
Definition planFeatures (p : SubscriptionPlan) : list string :=
  default [] (features !! plan_key p).

(** A computation that, from every world, either returns [a] or throws. *)
Definition returnsOrThrows {A : Type} (m : M A) (a : A) : Prop :=
  forall w, (exists w', m w = (Ret a, w')) \/ (exists e w', m w = (Throw e, w')).

(** A computation that leaves the view [V] of the tables as it is,
    whatever it returns or throws. *)
Definition preserves {T A : Type} (V : Prisma -> T) (m : M A) : Prop :=
  forall w, V (db (snd (m w))) = V (db w).

(** The lockout fields of the user rows, row by row. *)
Definition lockRows (p : Prisma) : list (string * Z * option Z) :=
  map (fun u => (User.id u, User.failedLoginAttempts u, User.lockedUntil u))
      (prisma_user p).

(** The condition of [updateMany] in change-password: a valid session of
    [userId] whose refresh token is not [current]. *)
Definition otherValidSession (userId current : string) (s : UserSession.t) : bool :=
  String.eqb (UserSession.userId s) userId
  && UserSession.isValid s
  && negb (String.eqb (UserSession.refreshToken s) current).

(** The rows a lookup by e-mail, by refresh token and by organization id
    return. *)
Definition userOf (e : string) (w : World) : option User.t :=
  List.find (user_by_email e) (prisma_user (db w)).

Definition sessionOf (tok : string) (w : World) : option UserSession.t :=
  List.find (session_by_refreshToken tok) (prisma_userSession (db w)).

Definition organizationOf (id : string) (w : World) : option Organization.t :=
  List.find (organization_by_id id) (prisma_organization (db w)).

(** The user row after one more failed password check at [now] (the
    [updates] of the login handler). *)
Definition failStep (now : Z) (u : User.t) : User.t :=
  let failedAttempts := User.failedLoginAttempts u + 1 in
  let u' := User.set_failedLoginAttempts failedAttempts u in
  if failedAttempts >=? MAX_LOGIN_ATTEMPTS
  then User.set_lockedUntil (Some (now + LOCK_DURATION)) u'
  else u'.

(** The world in which the login handler runs its [try] block: the rate
    limiter has counted the request. *)
Definition countedLogin (now : Z) (request : NextRequest.t) (w : World) : World :=
  set_rateLimitStore
    (snd (rateLimit ("login:" ++ or_default (NextRequest.headers request !! "x-forwarded-for")
                                            "anonymous")
                    10 (60 * 1000) now (rateLimitStore w))) w.

Section Attempts.

Context `{Platform}.

(** A login request that the rate limiter and the validation let through. *)
Definition admitted (now : Z) (request : NextRequest.t) (w : World)
    : option LoginData.t :=
  let ip := or_default (header "x-forwarded-for" request) "anonymous" in
  if fst (rateLimit ("login:" ++ ip) 10 (60 * 1000) now (rateLimitStore w)) then
    match validateRequest request loginSchema with
    | inl data => Some data
    | inr _ => None
    end
  else None.

(** A failed login attempt for the account [e] at [now]: the request is
    admitted, the account exists and is not locked at [now], and the
    password does not match.  The result is the world the handler leaves. *)
Definition failedLogin (e : string) (now : Z) (request : NextRequest.t) (w : World)
    : option World :=
  match admitted now request w, userOf e w with
  | Some data, Some user =>
      if String.eqb (LoginData.email data) e
         && negb (isLocked user now)
         && negb (bcrypt_compare (LoginData.password data) (User.password user))
      then Some (snd (POST_login now request w))
      else None
  | _, _ => None
  end.

(** What [isTrialExpired] computes from the row of the organization: the
    status is TRIAL and the trial end, when there is one, is before [now]. *)
Definition trialExpired (o : Organization.t) (now : Z) : bool :=
  bool_decide (Organization.status o = TRIAL)
  && match Organization.trialEndsAt o with
     | Some trialEndsAt => now >? trialEndsAt
     | None => false
     end.

(** The handlers of the authentication core other than login. *)
Definition otherAuthHandlers : list (Z -> NextRequest.t -> M NextResponse.t) :=
  [POST_refresh; POST_change_password; POST_forgot_password; POST_reset_password;
   POST_logout; DELETE_logout_all].

End Attempts.

(** ** A concrete platform and concrete data, for the examples *)

(** Year and month (0 to 11) of a timestamp in UTC. *)
Definition utc_year_month (ms : Z) : Z * Z :=
  let days := ms / 86400000 in
  let z := days + 719468 in
  let era := z / 146097 in
  let doe := z - era * 146097 in
  let yoe := (doe - doe / 1460 + doe / 36524 - doe / 146096) / 365 in
  let doy := doe - (365 * yoe + yoe / 4 - yoe / 100) in
  let mp := (5 * doy + 2) / 153 in
  let m := if mp <? 10 then mp + 3 else mp - 9 in
  (yoe + era * 400 + (if m <=? 2 then 1 else 0), m - 1).

Definition demo_verify (token secret : string) (now : Z) : Outcome TokenPayload.t :=
  if String.prefix "jwt." token
  then Ret (TokenPayload.mk (substring_from 4 token) "" "" "")
  else Throw (JsonWebTokenError "jwt malformed").

Definition demoPlatform : Platform := {|
  env_JWT_SECRET := None;
  env_JWT_EXPIRES_IN := None;
  env_REFRESH_TOKEN_EXPIRES_IN := None;
  env_NODE_ENV := None;
  jwt_sign := fun payload _ _ _ => Ret ("jwt." ++ TokenPayload.userId payload);
  jwt_verify := demo_verify;
  bcrypt_compare := fun plain hashed => String.eqb ("$2a$12$" ++ plain) hashed;
  bcrypt_hash := fun plain _ => "$2a$12$" ++ plain;
  nanoid := fun n _ => "nano-" ++ pretty n;
  cuid := fun n => "cuid-" ++ pretty n;
  UAParser := fun _ => UAResult.mk None None None None None None None;
  getFullYear := fun ms => fst (utc_year_month ms);
  getMonth := fun ms => snd (utc_year_month ms);
  zod_email := fun s => existsb (Ascii.eqb "@") (chars s)
|}.

Definition demoUser (id e pw : string) (active : bool) (failed : Z)
    (locked : option Z) : User.t :=
  User.mk id e ("$2a$12$" ++ pw) "Ada" "Lovelace" DIETITIAN None true "o1" active
          failed locked None None None None None None None.

Definition demoOrganization (status : OrganizationStatus) (currentPatients maxPatients
    currentAiQueries maxAiQueries aiQueriesResetAt : Z) : Organization.t :=
  Organization.mk "o1" "Clinic" "clinic" status FREE None 5 maxPatients 1000
                  maxAiQueries 1 currentPatients 0 currentAiQueries aiQueriesResetAt.

Definition demoSession (id userId tok : string) (valid : bool) (expiresAt : Z)
    : UserSession.t :=
  UserSession.mk id userId tok "jwt.old" "10.0.0.1" "" "Unknown" "desktop" "Unknown"
                 valid expiresAt 0.

Definition demoWorld (us : list User.t) (ss : list UserSession.t)
    (os : list Organization.t) : World :=
  mkWorld (mkPrisma us ss os [] []) ∅ [] 0 [].

Definition loginRequest (e pw : string) : NextRequest.t :=
  NextRequest.mk {[ "x-forwarded-for" := "10.0.0.1" ]} ∅
    (Some (JObj [("email", JStr e); ("password", JStr pw)])).

(** 2024-01-15, 2024-01-31 and 2024-03-01, 00:00 UTC *)
Definition jan15 : Z := 1705276800000.

Definition jan31 : Z := 1706659200000.

Definition mar01 : Z := 1709251200000.

(** One account in one organization, and the worlds after one to five
    failed logins one second apart. *)
Definition ada : User.t := demoUser "u1" "a@b.c" "Secret123" true 0 None.

Definition clinic : Organization.t := demoOrganization ACTIVE 9 10 100 100 jan15.

Definition world0 : World := demoWorld [ada] [] [clinic].

(** The same organization with 10 of 10 patients. *)
Definition clinicFull : Organization.t := demoOrganization ACTIVE 10 10 100 100 jan15.

Definition worldFull : World := demoWorld [ada] [] [clinicFull].

Definition wrongLogin : NextRequest.t := loginRequest "a@b.c" "wrong".

Definition rightLogin : NextRequest.t := loginRequest "a@b.c" "Secret123".

Definition failAt (t : Z) (w : World) : World :=
  snd (@POST_login demoPlatform t wrongLogin w).

Definition world1 : World := failAt 1000 world0.

Definition world2 : World := failAt 2000 world1.

Definition world3 : World := failAt 3000 world2.

Definition world4 : World := failAt 4000 world3.

Definition world5 : World := failAt 5000 world4.

(** The account after three failures and a lock that ended at 500; the
    same account deactivated. *)
Definition worldExpiredLock : World :=
  demoWorld [demoUser "u1" "a@b.c" "Secret123" true 3 (Some 500)] [] [clinic].

Definition worldInactive : World :=
  demoWorld [demoUser "u1" "a@b.c" "Secret123" false 3 None] [] [clinic].

(** Three sessions, two of the first user; the requests of that user. *)
Definition worldSessions : World :=
  demoWorld [ada; demoUser "u2" "b@b.c" "Secret456" true 0 None]
            [demoSession "s1" "u1" "tok-1" true 500;
             demoSession "s2" "u1" "tok-2" true 9000;
             demoSession "s3" "u2" "tok-3" true 9000]
            [clinic].

Definition refreshRequest : NextRequest.t :=
  NextRequest.mk ∅ {[ "refreshToken" := "tok-1" ]} None.

Definition changePasswordRequest : NextRequest.t :=
  NextRequest.mk ∅
    (<["accessToken" := "jwt.u1"]> {[ "refreshToken" := "tok-1" ]})
    (Some (JObj [("currentPassword", JStr "Secret123");
                 ("newPassword", JStr "NewSecret1")])).

Definition forgotRequest : NextRequest.t :=
  NextRequest.mk ∅ ∅ (Some (JObj [("email", JStr "a@b.c")])).

(** * More of the code: the helpers and handlers around the claims *)

(** ** JavaScript numbers of the pagination helpers

    The numbers these helpers compute are integers, [NaN] (from
    [parseInt]) or an infinity (from an overflow or a division by zero).
    [Int z] is a finite double with the integer value [z]: the double is
    [z] itself while the magnitude stays below 2^53 and the nearest double
    beyond, and from 2^1024 - 2^970 on the operations give an infinity. *)

Inductive JsNumber : Type :=
| Int (z : Z)
| NaN
| Infinity (negative : bool).

(** [Math.max(a, b)] and [Math.min(a, b)] *)
Definition math_max (a b : JsNumber) : JsNumber :=
  match a, b with
  | NaN, _ | _, NaN => NaN
  | Infinity false, _ | _, Infinity false => Infinity false
  | Infinity true, x | x, Infinity true => x
  | Int x, Int y => Int (Z.max x y)
  end.

Definition math_min (a b : JsNumber) : JsNumber :=
  match a, b with
  | NaN, _ | _, NaN => NaN
  | Infinity true, _ | _, Infinity true => Infinity true
  | Infinity false, x | x, Infinity false => x
  | Int x, Int y => Int (Z.min x y)
  end.

(** The double of an integer result. *)
Definition of_integer (z : Z) : JsNumber :=
  if 2 ^ 1024 - 2 ^ 970 <=? Z.abs z then Infinity (z <? 0) else Int z.

(** [a - b] *)
Definition js_sub (a b : JsNumber) : JsNumber :=
  match a, b with
  | NaN, _ | _, NaN => NaN
  | Int x, Int y => of_integer (x - y)
  | Infinity s, Int _ => Infinity s
  | Int _, Infinity s => Infinity (negb s)
  | Infinity s, Infinity t => if Bool.eqb s t then NaN else Infinity s
  end.

(** [a * b] *)
Definition js_mul (a b : JsNumber) : JsNumber :=
  match a, b with
  | NaN, _ | _, NaN => NaN
  | Int x, Int y => of_integer (x * y)
  | Infinity s, Int y | Int y, Infinity s =>
      if y =? 0 then NaN else Infinity (xorb s (y <? 0))
  | Infinity s, Infinity t => Infinity (xorb s t)
  end.

(** [a < b] *)
Definition js_lt (a b : JsNumber) : bool :=
  match a, b with
  | NaN, _ | _, NaN => false
  | Int x, Int y => x <? y
  | Infinity true, Infinity true => false
  | Infinity true, _ => true
  | _, Infinity true => false
  | Infinity false, _ => false
  | Int _, Infinity false => true
  end.

(** [Math.ceil(a / b)] *)
Definition math_ceil_div (a b : JsNumber) : JsNumber :=
  match a, b with
  | NaN, _ | _, NaN => NaN
  | Int x, Int y =>
      if y =? 0 then
        if x =? 0 then NaN else Infinity (x <? 0)
      else Int (ceil_div x y)
  | Int _, Infinity _ => Int 0
  | Infinity s, Int y => Infinity (xorb s (y <? 0))
  | Infinity _, Infinity _ => NaN
  end.

(** ** White space of JavaScript

    Strings hold the UTF-8 bytes of the text.  The white space and line
    terminators that [parseInt] skips and that [\s] matches are the ASCII
    ones and U+00A0, U+1680, U+2000 to U+200A, U+2028, U+2029, U+202F,
    U+205F, U+3000 and U+FEFF; [js_space_length] is the number of bytes of
    such a character at the head of the text, 0 when there is none. *)
Definition js_space_length (l : list ascii) : nat :=
  match map (fun c => Z.of_nat (nat_of_ascii c)) (firstn 3 l) with
  | c :: rest =>
      if (c =? 32) || ((9 <=? c) && (c <=? 13)) then 1%nat
      else
        match c, rest with
        | 194, 160 :: _ => 2%nat
        | 225, [154; 128] => 3%nat
        | 226, [128; d] =>
            if ((128 <=? d) && (d <=? 138)) || (d =? 168) || (d =? 169) || (d =? 175)
            then 3%nat else 0%nat
        | 226, [129; 159] => 3%nat
        | 227, [128; 128] => 3%nat
        | 239, [187; 191] => 3%nat
        | _, _ => 0%nat
        end
  | [] => 0%nat
  end.

(** The text after its leading white space; [fuel] bounds the number of
    characters skipped, and the length of the text is enough. *)
Fixpoint js_drop_spaces_from (fuel : nat) (l : list ascii) : list ascii :=
  match fuel with
  | O => l
  | S fuel =>
      match js_space_length l with
      | O => l
      | k => js_drop_spaces_from fuel (skipn k l)
      end
  end.

Definition js_drop_spaces (l : list ascii) : list ascii :=
  js_drop_spaces_from (length l) l.

(** [s.replace(/[\s…]/g, '')]: the text without its white space and
    without the characters of [others]. *)
Fixpoint remove_spaces_and_from (fuel : nat) (others : ascii -> bool) (l : list ascii)
    : list ascii :=
  match fuel with
  | O => l
  | S fuel =>
      match l with
      | [] => []
      | c :: l' =>
          match js_space_length l with
          | O =>
              if others c then remove_spaces_and_from fuel others l'
              else c :: remove_spaces_and_from fuel others l'
          | S k => remove_spaces_and_from fuel others (skipn k l')
          end
      end
  end.

Definition remove_spaces_and (others : ascii -> bool) (l : list ascii) : list ascii :=
  remove_spaces_and_from (length l) others l.

(** [parseInt(s)]: leading white space, a sign, an optional [0x] prefix,
    then the longest run of digits of the radix; [NaN] without a digit,
    an infinity beyond the largest double. *)
Definition digit_value (radix : Z) (c : ascii) : option Z :=
  let n := Z.of_nat (nat_of_ascii c) in
  let v := if is_digit c then Some (n - 48)
           else if is_lower c then Some (n - 97 + 10)
           else if is_upper c then Some (n - 65 + 10)
           else None in
  match v with
  | Some d => if d <? radix then Some d else None
  | None => None
  end.

Fixpoint digits_prefix (radix : Z) (l : list ascii) : list Z :=
  match l with
  | c :: l' =>
      match digit_value radix c with
      | Some d => d :: digits_prefix radix l'
      | None => []
      end
  | [] => []
  end.

Definition parseInt (s : string) : JsNumber :=
  let l := js_drop_spaces (chars s) in
  let '(negative, l) :=
    match l with
    | c :: r =>
        if Ascii.eqb c "-" then (true, r)
        else if Ascii.eqb c "+" then (false, r)
        else (false, l)
    | [] => (false, l)
    end in
  let '(radix, l) :=
    match l with
    | z :: x :: r =>
        if Ascii.eqb z "0" && (Ascii.eqb x "x" || Ascii.eqb x "X") then (16, r)
        else (10, l)
    | _ => (10, l)
    end in
  match digits_prefix radix l with
  | [] => NaN
  | ds =>
      let value := fold_left (fun acc d => acc * radix + d) ds 0 in
      of_integer (if negative then - value else value)
  end.

(** ** Pagination (lib/utils/api.ts) *)

Module PaginationParams.
Record t : Type := mk { page : JsNumber; limit : JsNumber; skip : JsNumber }.
End PaginationParams.

(** [URLSearchParams] as the list of its pairs; [get] returns the first
    value of a name. *)
Definition getPaginationParams (searchParams : list (string * string))
    : PaginationParams.t :=
  let page :=
    math_max (Int 1) (parseInt (or_default (assoc "page" searchParams) "1")) in
  let limit :=
    math_min (Int 100)
      (math_max (Int 1) (parseInt (or_default (assoc "limit" searchParams) "10"))) in
  let skip := js_mul (js_sub page (Int 1)) limit in
  PaginationParams.mk page limit skip.

Module Paginated.
Record t (T : Type) : Type := mk {
  data : list T;
  page : JsNumber;
  limit : JsNumber;
  total : JsNumber;
  totalPages : JsNumber;
  hasMore : bool
}.
Arguments mk {T} _ _ _ _ _ _.
Arguments data {T} _.
Arguments page {T} _.
Arguments limit {T} _.
Arguments total {T} _.
Arguments totalPages {T} _.
Arguments hasMore {T} _.
End Paginated.

Definition paginateResults {T : Type} (data : list T) (total : JsNumber)
    (params : PaginationParams.t) : Paginated.t T :=
  Paginated.mk data (PaginationParams.page params) (PaginationParams.limit params) total
    (math_ceil_div total (PaginationParams.limit params))
    (js_lt (js_mul (PaginationParams.page params) (PaginationParams.limit params)) total).

(** ** Role and tenant checks (lib/utils/api.ts) *)

(** [allowedRoles.includes(user.role)] decides. *)
Definition requireRole (user : AuthUser.t) (allowedRoles : list UserRole)
    : option NextResponse.t :=
  if negb (existsb (fun r => bool_decide (r = AuthUser.role user)) allowedRoles)
  then Some (errorResponse "Forbidden - Insufficient permissions" 403 None)
  else None.

Definition requireOrganizationAccess (userId organizationId : string) : M bool :=
  let! user := user_findUnique_id userId in
  match user with
  | None => ret false
  | Some user =>
      if bool_decide (User.role user = SUPER_ADMIN) then ret true
      else ret (String.eqb (User.organizationId user) organizationId)
  end.

(** ** GET /api/auth/reset-password/verify

    [token] is [searchParams.get('token')] of the request URL. *)
Definition GET_reset_password_verify (now : Z) (token : option string)
    : M NextResponse.t :=
  if falsy token then ret (errorResponse "Token gerekli" 400 None)
  else
    tryCatch
      (let! user := user_findFirst
         (fun u => bool_decide (User.resetPasswordToken u = Some (default "" token))
                   && match User.resetPasswordExpires u with
                      | Some e => e >? now
                      | None => false
                      end) in
       match user with
       | None => ret (errorResponse "Geçersiz veya süresi dolmuş token" 400 None)
       | Some user =>
           ret (successResponse
                  (JObj [("valid", JBool true); ("email", JStr (User.email user))]) 200)
       end)
      (fun error =>
         let! _ := console_error "Verify reset token error:" error in
         ret (errorResponse "Token doğrulama sırasında bir hata oluştu" 500 None)).

(** ** The route wrapper (lib/utils/api.ts) *)

Module ApiRouteOptions.
Record t : Type := mk {
  requireAuth : bool;
  allowedRoles : option (list UserRole);
  (** [{ limit, windowMs }] *)
  rateLimit : option (Z * Z)
}.
End ApiRouteOptions.

Section Wrapper.

Context `{Platform}.

(** [error.message] of a thrown value. *)
Variable exn_message : Exn -> string.

(** [error.code] of a thrown value: only the store's errors carry one. *)
Definition exn_code (e : Exn) : option string :=
  match e with
  | PrismaError code => Some code
  | _ => None
  end.

(** The [catch] block of [withApiRoute]; none of the thrown values has a
    [statusCode], so [error.statusCode || 500] is 500. *)
Definition apiErrorResponse (error : Exn) : NextResponse.t :=
  if bool_decide (exn_code error = Some "P2002") then
    errorResponse "A record with this value already exists" 409 None
  else if bool_decide (exn_code error = Some "P2025") then
    errorResponse "Record not found" 404 None
  else
    errorResponse (or_default (Some (exn_message error)) "Internal server error") 500 None.

(** [withApiRoute(handler, options)(request, context)]; the handler
    receives the request, [context.params] and the user. *)
Definition withApiRoute
    (handler : NextRequest.t -> Json -> option AuthUser.t -> M NextResponse.t)
    (options : ApiRouteOptions.t) (now : Z) (request : NextRequest.t) (params : Json)
    : M NextResponse.t :=
  tryCatch
    (let! rateLimitError :=
       match ApiRouteOptions.rateLimit options with
       | Some (limit, windowMs) =>
           let identifier := or_default (header "x-forwarded-for" request) "anonymous" in
           applyRateLimit identifier limit windowMs now
       | None => ret None
       end in
     match rateLimitError with
     | Some rateLimitError => ret rateLimitError
     | None =>
         if ApiRouteOptions.requireAuth options then
           let! authResult := requireAuth now request in
           match authResult with
           | inr error => ret error
           | inl user =>
               match ApiRouteOptions.allowedRoles options with
               | Some (r :: rs) =>
                   match requireRole user (r :: rs) with
                   | Some roleError => ret roleError
                   | None => handler request params (Some user)
                   end
               | _ => handler request params (Some user)
               end
           end
         else handler request params None
     end)
    (fun error =>
       let! _ := console_error "API Error:" error in
       ret (apiErrorResponse error)).

End Wrapper.

(** ** Validators of lib/utils/userInfo.ts *)

Definition digit_of (c : ascii) : Z := Z.of_nat (nat_of_ascii c) - 48.

(** [tcKimlikNo.replace(/[\s-]/g, '')] *)
Definition tcClean (tcKimlikNo : string) : list ascii :=
  remove_spaces_and (fun c => Ascii.eqb c "-") (chars tcKimlikNo).

(** [%] is the remainder that takes the sign of the dividend. *)
Definition validateTcKimlikNo (tcKimlikNo : string) : bool :=
  let tc := tcClean tcKimlikNo in
  if negb ((length tc =? 11)%nat && forallb is_digit tc) then false
  else if match tc with c :: _ => Ascii.eqb c "0" | [] => false end then false
  else
    let digits := map digit_of tc in
    let digit i := nth i digits 0 in
    let sum10 := fold_left Z.add (firstn 10 digits) 0 in
    if negb (Z.rem sum10 10 =? digit 10%nat) then false
    else
      let oddSum := (digit 0%nat + digit 2%nat + digit 4%nat + digit 6%nat
                     + digit 8%nat) * 7 in
      let evenSum := digit 1%nat + digit 3%nat + digit 5%nat + digit 7%nat in
      let digit10 := Z.rem (oddSum - evenSum) 10 in
      if (digit10 <? 0) || negb (digit10 =? digit 9%nat) then false
      else true.

(** [phone.replace(/[\s\-()]/g, '')] *)
Definition phoneClean (phone : string) : list ascii :=
  remove_spaces_and
    (fun c => Ascii.eqb c "-" || Ascii.eqb c "(" || Ascii.eqb c ")") (chars phone).

Definition is_nonzero_digit (c : ascii) : bool :=
  let n := nat_of_ascii c in (49 <=? n)%nat && (n <=? 57)%nat.

(** [/^[1-9]\d{9}$/], [/^0[1-9]\d{9}$/], [/^90[1-9]\d{9}$/] and
    [/^\+90[1-9]\d{9}$/] *)
Definition national (l : list ascii) : bool :=
  match l with
  | c :: rest => is_nonzero_digit c && (length rest =? 9)%nat && forallb is_digit rest
  | [] => false
  end.

Definition trunk (l : list ascii) : bool :=
  match l with
  | z :: rest => Ascii.eqb z "0" && national rest
  | [] => false
  end.

Definition country (l : list ascii) : bool :=
  match l with
  | n :: z :: rest => Ascii.eqb n "9" && Ascii.eqb z "0" && national rest
  | _ => false
  end.

Definition international (l : list ascii) : bool :=
  match l with
  | p :: rest => Ascii.eqb p "+" && country rest
  | [] => false
  end.

Definition validateTurkishPhone (phone : string) : bool :=
  let cleaned := phoneClean phone in
  existsb (fun pattern : list ascii -> bool => pattern cleaned)
          [international; country; trunk; national].

Definition formatTurkishPhone (phone : string) : string :=
  let cleaned := phoneClean phone in
  if international cleaned then string_of_list_ascii cleaned
  else
    let number :=
      match cleaned with
      | n :: z :: rest =>
          if Ascii.eqb n "9" && Ascii.eqb z "0" then rest
          else if Ascii.eqb n "0" then z :: rest
          else cleaned
      | [z] => if Ascii.eqb z "0" then [] else cleaned
      | [] => cleaned
      end in
    string_of_list_ascii (chars "+90" ++ number).

(** ** Vocabulary of the further statements *)

(** The milliseconds of a unit letter of [getTokenExpiration]. *)
Definition unit_ms (unit : ascii) : option Z :=
  if Ascii.eqb unit "d" then Some (24 * 60 * 60 * 1000)
  else if Ascii.eqb unit "h" then Some (60 * 60 * 1000)
  else if Ascii.eqb unit "m" then Some (60 * 1000)
  else if Ascii.eqb unit "s" then Some 1000
  else None.

(** The largest time value a [Date] holds, in milliseconds. *)
Definition maxDate : Z := 8640000000000000.

(** The calls of a run that are for [key]. *)
Definition callsFor (key : string) (calls : list Call.t) : list Call.t :=
  List.filter (fun c => String.eqb (Call.key c) key) calls.

(** The token [requireAuth] reads: the [accessToken] cookie, or else the
    bearer token of the [authorization] header. *)
Definition accessTokenOf (request : NextRequest.t) : option string :=
  or_else (NextRequest.cookies request !! "accessToken")
    match NextRequest.headers request !! "authorization" with
    | Some h => if startsWith "Bearer " h then Some (substring_from 7 h) else None
    | None => None
    end.

(** The identity [requireAuth] hands to a handler for a user row. *)
Definition authUserOf (u : User.t) : AuthUser.t :=
  AuthUser.mk (User.id u) (User.email u) (User.role u) (User.organizationId u).

(** What identifies a session and bounds its life, row by row: the columns
    a refresh must not touch. *)
Definition sessionKeys (p : Prisma) : list (string * string * string * Z) :=
  map (fun s => (UserSession.id s, UserSession.userId s, UserSession.refreshToken s,
                 UserSession.expiresAt s))
      (prisma_userSession p).

(** The condition of [updateMany] in logout: the session of [userId] with
    the refresh token of the cookie. *)
Definition sessionOfCookie (userId refreshToken : string) (s : UserSession.t) : bool :=
  String.eqb (UserSession.userId s) userId
  && String.eqb (UserSession.refreshToken s) refreshToken.

(** The condition of [findFirst] in reset-password and in its [verify]
    route: the row holds the token, and its expiry lies after [now]. *)
Definition resetCandidate (token : string) (now : Z) (u : User.t) : bool :=
  bool_decide (User.resetPasswordToken u = Some token)
  && match User.resetPasswordExpires u with
     | Some e => e >? now
     | None => false
     end.

Definition resetUserOf (token : string) (now : Z) (w : World) : option User.t :=
  List.find (resetCandidate token now) (prisma_user (db w)).

(** A cleaned number that starts with the country code 90. *)
Definition startsWith90 (l : list ascii) : bool :=
  match l with
  | n :: z :: _ => Ascii.eqb n "9" && Ascii.eqb z "0"
  | _ => false
  end.

(** ** Concrete data for the further examples *)

(** The organization on a trial that ended on 2024-01-15. *)
Definition trialClinic : Organization.t :=
  Organization.mk "o1" "Clinic" "clinic" TRIAL FREE (Some jan15) 5 10 1000 100 1 9 0 100
                  jan15.

Definition worldTrial : World := demoWorld [ada] [] [trialClinic].

(** The account holding a reset token that expires at 5000, beside a
    second account, with the sessions of both. *)
Definition adaReset : User.t := User.set_resetPassword (Some "reset-1") (Some 5000) ada.

Definition worldReset : World :=
  demoWorld [adaReset; demoUser "u2" "b@b.c" "Secret456" true 0 None]
            [demoSession "s1" "u1" "tok-1" true 9000;
             demoSession "s3" "u2" "tok-3" true 9000]
            [clinic].

Definition resetRequest (token : string) : NextRequest.t :=
  NextRequest.mk ∅ ∅
    (Some (JObj [("token", JStr token); ("password", JStr "NewSecret1")])).

(** A request with the access token of the first user and nothing else,
    and one without any token. *)
Definition tokenRequest : NextRequest.t :=
  NextRequest.mk ∅ {[ "accessToken" := "jwt.u1" ]} None.

Definition anonymousRequest : NextRequest.t := NextRequest.mk ∅ ∅ None.

(** A world whose rate limiter has counted one call of an anonymous
    client in the window that ends at 60000. *)
Definition worldCounted : World :=
  mkWorld (db worldSessions) {[ "anonymous" := {| count := 1; resetAt := 60000 |} ]}
          [] 0 [].

(** Route handlers: one that answers, one whose store call finds no row. *)
Definition okHandler (request : NextRequest.t) (params : Json) (user : option AuthUser.t)
    : M NextResponse.t :=
  ret (successResponse JNull 200).

Definition missingRowHandler (request : NextRequest.t) (params : Json)
    (user : option AuthUser.t) : M NextResponse.t :=
  throw (PrismaError "P2025").

Definition demo_message (e : Exn) : string :=
  match e with
  | PrismaError code => "Invalid prisma invocation: " ++ code
  | _ => "error"
  end.

(** * Properties *)

(** ** The embedding on small inputs *)

Example getTokenExpiration_days : getTokenExpiration "7d" 1000 = Ret 604801000.
Proof. reflexivity. Qed.

Example getTokenExpiration_seconds : getTokenExpiration "90s" 0 = Ret 90000.
Proof. reflexivity. Qed.

Example getTokenExpiration_no_digits :
  getTokenExpiration "d" 0 = Throw (Error "Invalid expiration format").
Proof. reflexivity. Qed.

Example getTokenExpiration_bad_unit :
  getTokenExpiration "7w" 0 = Throw (Error "Invalid expiration format").
Proof. reflexivity. Qed.

Example ceil_div_minutes :
  ceil_div 899000 60000 = 15 /\ ceil_div 900000 60000 = 15 /\ ceil_div 1 60000 = 1.
Proof. repeat split; reflexivity. Qed.

Example getClientIp_first_hop :
  getClientIp (NextRequest.mk {[ "x-forwarded-for" := "10.0.0.1, 172.16.0.9" ]} ∅ None)
  = "10.0.0.1".
Proof. vm_compute. reflexivity. Qed.

Example loginSchema_missing_password :
  validateRequest
    (NextRequest.mk ∅ ∅ (Some (JObj [("email", JStr "a@b.c")])))
    (@loginSchema demoPlatform)
  = inr (errorResponse "Validation error" 400
           (Some (JArr [JObj [("field", JStr "password");
                              ("message", JStr "Required")]]))).
Proof. vm_compute. reflexivity. Qed.

Example first_wrong_password :
  fst (@POST_login demoPlatform 1000 wrongLogin world0)
  = Ret (errorResponse "Geçersiz email veya şifre. 4 deneme hakkınız kaldı." 401 None)
  /\ userOf "a@b.c" world1 = Some (demoUser "u1" "a@b.c" "Secret123" true 1 None).
Proof. split; vm_compute; reflexivity. Qed.

Example fifth_wrong_password :
  fst (@POST_login demoPlatform 5000 wrongLogin world4)
  = Ret (errorResponse
           "Çok fazla başarısız giriş denemesi. Hesabınız 15 dakika süreyle kilitlendi."
           403 None)
  /\ userOf "a@b.c" world5
     = Some (demoUser "u1" "a@b.c" "Secret123" true 5 (Some 905000)).
Proof. split; vm_compute; reflexivity. Qed.

Example monthDiff_january_to_march : @monthDiff demoPlatform mar01 jan15 = 2.
Proof. reflexivity. Qed.

(** ** Entitlement *)

Lemma features_get_plan (p : SubscriptionPlan) :
  features_get (plan_key p) = PArray (planFeatures p).
Proof. destruct p; vm_compute; reflexivity. Qed.

Lemma features_unknown (plan : string) :
  (forall p, plan <> plan_key p) -> features !! plan = None.
Proof.
  intros Hne. unfold features.
  rewrite !lookup_insert_ne, lookup_empty; [reflexivity | | | | ];
    intros Heq; symmetry in Heq.
  - exact (Hne ENTERPRISE Heq).
  - exact (Hne PROFESSIONAL Heq).
  - exact (Hne STARTER Heq).
  - exact (Hne FREE Heq).
Qed.

Lemma includes_true (xs : list string) (x : string) :
  includes xs x = true <-> In x xs.
Proof.
  unfold includes. rewrite existsb_exists. split.
  - intros (y & Hy & Heq). apply String.eqb_eq in Heq. subst. exact Hy.
  - intros Hin. exists x. split; [exact Hin | apply String.eqb_refl].
Qed.

Lemma includes_false (xs : list string) (x : string) :
  ~ In x xs -> includes xs x = false.
Proof.
  intros Hn. destruct (includes xs x) eqn:E; [| reflexivity].
  apply includes_true in E. contradiction.
Qed.

Lemma planFeatures_mono (p q : SubscriptionPlan) (x : string) :
  (plan_rank p <= plan_rank q)%nat -> In x (planFeatures p) -> In x (planFeatures q).
Proof.
  destruct p, q; simpl; intros Hle; try lia;
    vm_compute; intros Hin; tauto.
Qed.




(** ** Rate limiter *)

Lemma rateLimit_new (key : string) (limit windowMs now : Z)
    (store : gmap string RateLimitRecord) :
  newWindow key now store ->
  rateLimit key limit windowMs now store
  = (true, <[key := {| count := 1; resetAt := now + windowMs |}]> store).
Proof.
  unfold newWindow, rateLimit. destruct (store !! key) as [r |]; [| reflexivity].
  intros Hlt. apply Z.ltb_lt in Hlt. rewrite Hlt. reflexivity.
Qed.

Lemma rateLimit_open (key : string) (limit windowMs now : Z)
    (store : gmap string RateLimitRecord) (r : RateLimitRecord) :
  store !! key = Some r -> now <= resetAt r ->
  rateLimit key limit windowMs now store
  = if count r >=? limit then (false, store)
    else (true, <[key := {| count := count r + 1; resetAt := resetAt r |}]> store).
Proof.
  intros Hr Hle. unfold rateLimit. rewrite Hr.
  assert ((resetAt r <? now) = false) as -> by (apply Z.ltb_ge; lia).
  reflexivity.
Qed.

Lemma rateLimit_other (k key : string) (limit windowMs now : Z)
    (store : gmap string RateLimitRecord) :
  k <> key ->
  snd (rateLimit k limit windowMs now store) !! key = store !! key.
Proof.
  intros Hne. unfold rateLimit.
  destruct (store !! k) as [r |]; simpl.
  - destruct (resetAt r <? now); simpl; [apply lookup_insert_ne; exact Hne |].
    destruct (count r >=? limit); simpl; [reflexivity |].
    apply lookup_insert_ne; exact Hne.
  - apply lookup_insert_ne; exact Hne.
Qed.

(** While the window with deadline [deadline] is open and the record
    counts [count r <= limit], at most [limit - count r] more calls pass. *)
Lemma allowedCalls_open (key : string) (limit deadline : Z) (calls : list Call.t) :
  forall (store : gmap string RateLimitRecord) (r : RateLimitRecord),
    store !! key = Some r -> resetAt r = deadline -> count r <= limit ->
    withinWindow key limit deadline calls ->
    Z.of_nat (allowedCalls key calls store) <= limit - count r.
Proof.
  induction calls as [| c rest IH]; intros store r Hr Hd Hc Hw; simpl.
  - lia.
  - apply Forall_cons in Hw as [Hc0 Hrest].
    destruct (String.eqb_spec (Call.key c) key) as [Heq | Hne].
    + destruct (Hc0 Heq) as [Hlim Hnow]. rewrite Heq, Hlim.
      rewrite (rateLimit_open key limit _ _ store r Hr) by lia.
      destruct (count r >=? limit) eqn:E; simpl.
      * specialize (IH store r Hr Hd Hc Hrest). lia.
      * rewrite Z.geb_leb in E. apply Z.leb_gt in E.
        specialize (IH (<[key := {| count := count r + 1; resetAt := resetAt r |}]> store)
                       {| count := count r + 1; resetAt := resetAt r |}).
        rewrite lookup_insert_eq in IH.
        specialize (IH eq_refl Hd ltac:(simpl; lia) Hrest). simpl in IH. lia.
    + pose proof (rateLimit_other (Call.key c) key (Call.limit c) (Call.windowMs c)
                                  (Call.now c) store Hne) as Hoth.
      destruct (rateLimit (Call.key c) (Call.limit c) (Call.windowMs c) (Call.now c) store)
        as [allowed store'] eqn:E. simpl in Hoth.
      rewrite andb_false_r. simpl.
      apply (IH store' r); [congruence | assumption | assumption | assumption].
Qed.




(** ** Rows and lookups *)

Lemma find_updateWhere {A : Type} (p : A -> bool) (data : A -> A) (rows : list A) :
  (forall r, p (data r) = p r) ->
  List.find p (updateWhere p data rows) = data <$> List.find p rows.
Proof.
  intros Hp. induction rows as [| r rows IH]; simpl; [reflexivity |].
  destruct (p r) eqn:E.
  - rewrite Hp, E. reflexivity.
  - rewrite E. exact IH.
Qed.

Lemma find_updateWhere_other {A : Type} (p q : A -> bool) (data : A -> A)
    (rows : list A) :
  (forall r, p (data r) = p r) ->
  List.find p (updateWhere q data rows)
  = (fun r => if q r then data r else r) <$> List.find p rows.
Proof.
  intros Hp. induction rows as [| r rows IH]; simpl; [reflexivity |].
  assert (p (if q r then data r else r) = p r) as -> by (destruct (q r); auto).
  destruct (p r); [reflexivity | exact IH].
Qed.

Lemma find_existsb {A : Type} (p : A -> bool) (rows : list A) (r : A) :
  List.find p rows = Some r -> existsb p rows = true.
Proof.
  intros Hf. apply existsb_exists. exists r.
  apply find_some in Hf. exact Hf.
Qed.

Lemma updateWhere_lookup {A : Type} (p : A -> bool) (data : A -> A) (rows : list A)
    (i : nat) :
  updateWhere p data rows !! i
  = (fun r => if p r then data r else r) <$> rows !! i.
Proof. unfold updateWhere. apply list_lookup_fmap. Qed.

Section Properties.

Context `{Platform}.

(** ** Token verification *)

(** C10.  [verifyAccessToken] returns for every token and never throws:
    it returns the decoded payload when [verify] returns it, and [null]
    when [verify] throws, as it does for a malformed, a wrongly signed
    and an expired token. *)
Theorem verifyAccessToken_total (token : string) (now : Z) :
  (exists decoded,
      jwt_verify token JWT_SECRET now = Ret decoded
      /\ verifyAccessToken token now = Ret (Some decoded))
  \/ (exists error,
         jwt_verify token JWT_SECRET now = Throw error
         /\ verifyAccessToken token now = Ret None).
Proof.
  unfold verifyAccessToken, catch, andThen.
  destruct (jwt_verify token JWT_SECRET now) as [decoded | error].
  - left. exists decoded. split; reflexivity.
  - right. exists error. split; reflexivity.
Qed.

(** ** Usage limits *)

Lemma query_healthy {A : Type} (call : string) (op : Prisma -> Outcome A * Prisma)
    (w : World) :
  faults w = [] ->
  query call op w
  = (fst (op (db w)), set_db (snd (op (db w))) (log_effect (Query call) w)).
Proof.
  intros Hf. unfold query. simpl. rewrite Hf. destruct (op (db w)). reflexivity.
Qed.

Lemma organization_findUnique_healthy (id : string) (w : World) :
  faults w = [] ->
  organization_findUnique id w
  = (Ret (organizationOf id w),
     set_db (db w) (log_effect (Query "organization.findUnique") w)).
Proof.
  intros Hf. unfold organization_findUnique. rewrite query_healthy by exact Hf.
  reflexivity.
Qed.

Lemma organization_update_healthy (id : string) (data : Organization.t -> Organization.t)
    (w : World) (o : Organization.t) :
  faults w = [] -> organizationOf id w = Some o ->
  organization_update id data w
  = (Ret tt,
     set_db (with_organization
               (updateWhere (organization_by_id id) data (prisma_organization (db w)))
               (db w))
            (log_effect (Query "organization.update") w)).
Proof.
  intros Hf Ho. unfold organization_update. rewrite query_healthy by exact Hf.
  rewrite (find_existsb _ _ _ Ho). reflexivity.
Qed.

(** C6.  For [aiQueries], when the month of [now] is at least one calendar
    month after the month of the stored [aiQueriesResetAt],
    [checkUsageLimit] sets [currentAiQueries] to 0 and [aiQueriesResetAt]
    to [now] and returns [exceeded = false], [current = 0] (and the
    organization's [maxAiQueries]); it makes two calls to the store, the
    first read and the update, and does not read the counter again. *)
Theorem checkUsageLimit_monthly_reset (organizationId : string) (now : Z) (w : World)
    (o : Organization.t) :
  faults w = [] ->
  organizationOf organizationId w = Some o ->
  1 <= monthDiff now (Organization.aiQueriesResetAt o) ->
  exists w' o',
    checkUsageLimit organizationId aiQueries now w
    = (Ret (Usage.mk false 0 (Organization.maxAiQueries o)), w')
    /\ organizationOf organizationId w' = Some o'
    /\ o' = Organization.set_aiQueriesResetAt now
              (Organization.set_currentField aiQueries 0 o)
    /\ Organization.currentAiQueries o' = 0
    /\ Organization.aiQueriesResetAt o' = now
    /\ effects w' = (effects w ++ [Query "organization.findUnique";
                                   Query "organization.update"])%list.
Proof.
  intros Hf Ho Hm.
  unfold checkUsageLimit, bind.
  rewrite organization_findUnique_healthy by exact Hf. rewrite Ho.
  assert ((monthDiff now (Organization.aiQueriesResetAt o) >=? 1) = true) as ->
    by (rewrite Z.geb_leb; apply Z.leb_le; exact Hm).
  rewrite bool_decide_eq_true_2 by reflexivity. cbn [andb]. cbv beta iota.
  erewrite organization_update_healthy; [| exact Hf | exact Ho].
  eexists. eexists. split; [reflexivity |].
  split.
  { unfold organizationOf. simpl. rewrite find_updateWhere by reflexivity.
    unfold organizationOf in Ho. rewrite Ho. reflexivity. }
  split; [reflexivity |]. split; [reflexivity |]. split; [reflexivity |].
  simpl. rewrite <- app_assoc. reflexivity.
Qed.

Lemma checkUsageLimit_plain (organizationId : string) (type : ResourceType) (now : Z)
    (w : World) (o : Organization.t) :
  faults w = [] ->
  organizationOf organizationId w = Some o ->
  bool_decide (type = aiQueries)
  && (monthDiff now (Organization.aiQueriesResetAt o) >=? 1) = false ->
  checkUsageLimit organizationId type now w
  = (Ret (Usage.mk (Organization.currentField type o >=? Organization.maxField type o)
                   (Organization.currentField type o) (Organization.maxField type o)),
     set_db (db w) (log_effect (Query "organization.findUnique") w)).
Proof.
  intros Hf Ho Hr. unfold checkUsageLimit, bind.
  rewrite organization_findUnique_healthy by exact Hf. rewrite Ho, Hr. reflexivity.
Qed.

Lemma checkUsageLimit_reset (organizationId : string) (now : Z) (w : World)
    (o : Organization.t) :
  faults w = [] ->
  organizationOf organizationId w = Some o ->
  (monthDiff now (Organization.aiQueriesResetAt o) >=? 1) = true ->
  checkUsageLimit organizationId aiQueries now w
  = (Ret (Usage.mk false 0 (Organization.maxAiQueries o)),
     set_db (with_organization
               (updateWhere (organization_by_id organizationId)
                  (fun o => Organization.set_aiQueriesResetAt now
                              (Organization.set_currentField aiQueries 0 o))
                  (prisma_organization (db w)))
               (db w))
            (log_effect (Query "organization.update")
               (set_db (db w) (log_effect (Query "organization.findUnique") w)))).
Proof.
  intros Hf Ho Hm. unfold checkUsageLimit, bind.
  rewrite organization_findUnique_healthy by exact Hf. rewrite Ho, Hm.
  rewrite bool_decide_eq_true_2 by reflexivity. cbn [andb]. cbv beta iota.
  erewrite organization_update_healthy; [| exact Hf | exact Ho]. reflexivity.
Qed.

Lemma currentField_set (type : ResourceType) (v : Z) (o : Organization.t) :
  Organization.currentField type (Organization.set_currentField type v o) = v.
Proof. destruct type; reflexivity. Qed.

Lemma maxField_set (type type' : ResourceType) (v : Z) (o : Organization.t) :
  Organization.maxField type (Organization.set_currentField type' v o)
  = Organization.maxField type o.
Proof. destruct type; reflexivity. Qed.

(** C4, as amended.  When [checkUsageLimit] does not take the monthly reset
    of [aiQueries]: called with the counter at or above [max],
    [checkAndIncrementUsage] answers 403 and leaves the tables as they
    are; called with the counter below [max], it passes and adds exactly
    [amount] to the counter, which stays at or below [max] whenever
    [amount <= max - current] (so for the default amount 1).  When the
    monthly reset applies, the call passes, the counter becomes [amount]
    and [aiQueriesResetAt] becomes [now]. *)
Theorem checkAndIncrementUsage_effect (organizationId : string) (type : ResourceType)
    (amount now : Z) (w : World) (o : Organization.t) :
  faults w = [] ->
  organizationOf organizationId w = Some o ->
  let current := Organization.currentField type o in
  let max := Organization.maxField type o in
  let reset := bool_decide (type = aiQueries)
               && (monthDiff now (Organization.aiQueriesResetAt o) >=? 1) in
  (reset = false -> max <= current ->
   exists w' response,
     checkAndIncrementUsage organizationId type amount now w = (Ret (Some response), w')
     /\ NextResponse.status response = 403
     /\ db w' = db w)
  /\ (reset = false -> current < max ->
      exists w' o',
        checkAndIncrementUsage organizationId type amount now w = (Ret None, w')
        /\ organizationOf organizationId w' = Some o'
        /\ o' = Organization.set_currentField type (current + amount) o
        /\ Organization.currentField type o' = current + amount
        /\ (amount <= max - current ->
            Organization.currentField type o' <= Organization.maxField type o'))
  /\ (reset = true ->
      exists w' o',
        checkAndIncrementUsage organizationId type amount now w = (Ret None, w')
        /\ organizationOf organizationId w' = Some o'
        /\ Organization.currentField type o' = amount
        /\ Organization.aiQueriesResetAt o' = now).
Proof.
  intros Hf Ho current max reset. subst current max reset.
  split; [| split].
  - intros Hr Hge. unfold checkAndIncrementUsage, bind.
    rewrite (checkUsageLimit_plain _ _ _ _ o Hf Ho Hr). cbn [Usage.exceeded].
    assert ((Organization.currentField type o >=? Organization.maxField type o) = true)
      as -> by (rewrite Z.geb_leb; apply Z.leb_le; exact Hge).
    eexists. eexists. split; [reflexivity |]. split; reflexivity.
  - intros Hr Hlt. unfold checkAndIncrementUsage, bind.
    rewrite (checkUsageLimit_plain _ _ _ _ o Hf Ho Hr). cbn [Usage.exceeded].
    assert ((Organization.currentField type o >=? Organization.maxField type o) = false)
      as -> by (rewrite Z.geb_leb; apply Z.leb_gt; exact Hlt).
    unfold incrementUsage.
    erewrite organization_update_healthy; [| exact Hf | exact Ho].
    eexists. eexists. split; [reflexivity |].
    split.
    { unfold organizationOf. simpl. rewrite find_updateWhere by reflexivity.
      unfold organizationOf in Ho. rewrite Ho. reflexivity. }
    split; [reflexivity |].
    split; [apply currentField_set |].
    intros Ha. rewrite currentField_set, maxField_set. lia.
  - intros Hr. apply andb_true_iff in Hr as [Ht Hm].
    apply bool_decide_eq_true_1 in Ht. subst type.
    unfold checkAndIncrementUsage, bind.
    rewrite (checkUsageLimit_reset _ _ _ o Hf Ho Hm). cbn [Usage.exceeded].
    unfold incrementUsage.
    erewrite organization_update_healthy; [| exact Hf |].
    2:{ unfold organizationOf. simpl. rewrite find_updateWhere by reflexivity.
        unfold organizationOf in Ho. rewrite Ho. reflexivity. }
    eexists. eexists. split; [reflexivity |].
    split.
    { unfold organizationOf. simpl. rewrite !find_updateWhere by reflexivity.
      unfold organizationOf in Ho. rewrite Ho. reflexivity. }
    split; simpl; [lia | reflexivity].
Qed.

(** ** Refresh *)

Lemma userSession_findUnique_healthy (tok : string) (w : World) :
  faults w = [] ->
  userSession_findUnique_refreshToken tok w
  = (Ret (match sessionOf tok w with
          | Some s => Some (s, List.find (user_by_id (UserSession.userId s))
                                         (prisma_user (db w)))
          | None => None
          end),
     set_db (db w) (log_effect (Query "userSession.findUnique") w)).
Proof.
  intros Hf. unfold userSession_findUnique_refreshToken.
  rewrite query_healthy by exact Hf. reflexivity.
Qed.

Lemma userSession_update_healthy (id : string) (data : UserSession.t -> UserSession.t)
    (w : World) :
  faults w = [] ->
  existsb (session_by_id id) (prisma_userSession (db w)) = true ->
  userSession_update id data w
  = (Ret tt,
     set_db (with_userSession
               (updateWhere (session_by_id id) data (prisma_userSession (db w)))
               (db w))
            (log_effect (Query "userSession.update") w)).
Proof.
  intros Hf He. unfold userSession_update. rewrite query_healthy by exact Hf.
  rewrite He. reflexivity.
Qed.

Lemma js_falsy_token (tok : string) : tok <> "" -> js_falsy (Some (JStr tok)) = false.
Proof.
  intros Hne. simpl. unfold truthy. rewrite negb_involutive.
  apply String.eqb_neq. exact Hne.
Qed.

Lemma set_isValid_id (s : UserSession.t) :
  UserSession.isValid s = false -> UserSession.set_isValid false s = s.
Proof. destruct s; simpl; intros ->; reflexivity. Qed.

(** A refresh with the token of a session that is not valid is refused at
    the validity check, after the one lookup. *)
Lemma refresh_invalid_session (now : Z) (request : NextRequest.t) (tok : string)
    (w : World) (s : UserSession.t) :
  faults w = [] ->
  requestRefreshToken request = Some (JStr tok) -> tok <> "" ->
  sessionOf tok w = Some s ->
  UserSession.isValid s = false ->
  POST_refresh now request w
  = (Ret (errorResponse "Session geçersiz. Lütfen tekrar giriş yapın." 401 None),
     set_db (db w) (log_effect (Query "userSession.findUnique") w)).
Proof.
  intros Hf Ht Hne Hs Hv. unfold POST_refresh, tryCatch, refresh_try.
  rewrite Ht, (js_falsy_token tok Hne). unfold bind.
  rewrite userSession_findUnique_healthy by exact Hf.
  rewrite Hs, Hv. reflexivity.
Qed.

(** A refresh with the token of a valid session that has expired marks the
    session invalid and is refused. *)
Lemma refresh_expired_valid_session (now : Z) (request : NextRequest.t) (tok : string)
    (w : World) (s : UserSession.t) :
  faults w = [] ->
  requestRefreshToken request = Some (JStr tok) -> tok <> "" ->
  sessionOf tok w = Some s ->
  UserSession.isValid s = true ->
  UserSession.expiresAt s < now ->
  POST_refresh now request w
  = (Ret (errorResponse "Session süresi dolmuş. Lütfen tekrar giriş yapın." 401 None),
     set_db (with_userSession
               (updateWhere (session_by_id (UserSession.id s))
                  (UserSession.set_isValid false) (prisma_userSession (db w)))
               (db w))
            (log_effect (Query "userSession.update")
               (set_db (db w) (log_effect (Query "userSession.findUnique") w)))).
Proof.
  intros Hf Ht Hne Hs Hv He. unfold POST_refresh, tryCatch, refresh_try.
  rewrite Ht, (js_falsy_token tok Hne). unfold bind.
  rewrite userSession_findUnique_healthy by exact Hf.
  rewrite Hs, Hv. cbn [negb]. cbv beta iota.
  assert ((UserSession.expiresAt s <? now) = true) as -> by (apply Z.ltb_lt; exact He).
  rewrite userSession_update_healthy; [reflexivity | exact Hf |].
  simpl. apply find_some in Hs. apply existsb_exists. exists s.
  split; [apply Hs |]. unfold session_by_id. apply String.eqb_refl.
Qed.

(** C3.  For a session whose [expiresAt] is in the past, a refresh with
    its (non-empty) refresh token answers 401 and leaves the session with
    [isValid = false]; a second refresh with the same token, at any later
    instant, answers 401 at the validity check after one lookup and
    changes nothing in the tables. *)
Theorem refresh_expired_session (now now' : Z) (request : NextRequest.t) (tok : string)
    (w : World) (s : UserSession.t) :
  faults w = [] ->
  requestRefreshToken request = Some (JStr tok) -> tok <> "" ->
  sessionOf tok w = Some s ->
  UserSession.expiresAt s < now ->
  exists r1 w1 w2,
    POST_refresh now request w = (Ret r1, w1)
    /\ NextResponse.status r1 = 401
    /\ sessionOf tok w1 = Some (UserSession.set_isValid false s)
    /\ UserSession.isValid (UserSession.set_isValid false s) = false
    /\ POST_refresh now' request w1
       = (Ret (errorResponse "Session geçersiz. Lütfen tekrar giriş yapın." 401 None), w2)
    /\ db w2 = db w1
    /\ effects w2 = (effects w1 ++ [Query "userSession.findUnique"])%list.
Proof.
  intros Hf Ht Hne Hs He.
  destruct (UserSession.isValid s) eqn:Hv.
  - eexists. eexists. eexists.
    split; [apply (refresh_expired_valid_session now request tok w s); assumption |].
    split; [reflexivity |].
    assert (sessionOf tok
              (set_db (with_userSession
                         (updateWhere (session_by_id (UserSession.id s))
                            (UserSession.set_isValid false) (prisma_userSession (db w)))
                         (db w))
                      (log_effect (Query "userSession.update")
                         (set_db (db w) (log_effect (Query "userSession.findUnique") w))))
            = Some (UserSession.set_isValid false s)) as Hs1.
    { unfold sessionOf. simpl. rewrite find_updateWhere_other by reflexivity.
      unfold sessionOf in Hs. rewrite Hs. simpl.
      unfold session_by_id. rewrite String.eqb_refl. reflexivity. }
    split; [exact Hs1 |]. split; [reflexivity |].
    split; [apply (refresh_invalid_session now' request tok _ (UserSession.set_isValid false s));
      [exact Hf | exact Ht | exact Hne | exact Hs1 | reflexivity] |].
    split; reflexivity.
  - eexists. eexists. eexists.
    split; [apply (refresh_invalid_session now request tok w s); assumption |].
    split; [reflexivity |].
    rewrite (set_isValid_id s Hv).
    split; [exact Hs |]. split; [exact Hv |].
    split; [apply (refresh_invalid_session now' request tok _ s);
      [exact Hf | exact Ht | exact Hne | exact Hs | exact Hv] |].
    split; reflexivity.
Qed.

(** ** Forgot password *)

Lemma returnsOrThrows_ret {A : Type} (a : A) : returnsOrThrows (ret a) a.
Proof. intros w. left. exists w. reflexivity. Qed.

Lemma returnsOrThrows_bind {A B : Type} (m : M A) (k : A -> M B) (b : B) :
  (forall a, returnsOrThrows (k a) b) -> returnsOrThrows (bind m k) b.
Proof.
  intros Hk w. unfold bind. destruct (m w) as [[a | e] w'].
  - apply Hk.
  - right. exists e, w'. reflexivity.
Qed.

Lemma tryCatch_returns {A : Type} (m : M A) (h : Exn -> M A) (a : A) :
  returnsOrThrows m a ->
  (forall e w, exists w', h e w = (Ret a, w')) ->
  forall w, exists w', tryCatch m h w = (Ret a, w').
Proof.
  intros Hm Hh w. unfold tryCatch.
  destruct (Hm w) as [(w' & ->) | (e & w' & ->)].
  - exists w'. reflexivity.
  - apply Hh.
Qed.

Lemma forgotPassword_try_generic (now : Z) (request : NextRequest.t) (ip : string)
    (data : ForgotPasswordData.t) :
  returnsOrThrows (forgotPassword_try now request ip data)
                  (successResponse forgotPassword_message 200).
Proof.
  unfold forgotPassword_try.
  apply returnsOrThrows_bind. intros [user |]; [| apply returnsOrThrows_ret].
  destruct (negb (User.isActive user)); [apply returnsOrThrows_ret |].
  repeat (apply returnsOrThrows_bind; intros ?).
  apply returnsOrThrows_ret.
Qed.

Lemma POST_forgot_password_admitted (now : Z) (request : NextRequest.t) (w : World)
    (data : ForgotPasswordData.t) :
  fst (rateLimit ("forgot-password:"
                  ++ or_default (header "x-forwarded-for" request) "anonymous")
                 3 (60 * 60 * 1000) now (rateLimitStore w)) = true ->
  validateRequest request forgotPasswordSchema = inl data ->
  exists w', POST_forgot_password now request w
             = (Ret (successResponse forgotPassword_message 200), w').
Proof.
  intros Hr Hv. unfold POST_forgot_password, bind, applyRateLimit.
  destruct (rateLimit _ _ _ _ _) as [allowed store]. simpl in Hr. subst allowed.
  rewrite Hv.
  apply tryCatch_returns; [apply forgotPassword_try_generic |].
  intros e w0. eexists. reflexivity.
Qed.

(** C8.  A forgot-password request that passes the rate limiter and the
    validation is answered with the one generic success response,
    whatever the store holds and whichever store call fails: two runs
    from any two worlds (the e-mail registered in one and not in the
    other, the user active or not, the store failing or not) give the
    same response. *)
Theorem forgot_password_generic_response (now : Z) (request : NextRequest.t)
    (w1 w2 : World) (data : ForgotPasswordData.t) :
  fst (rateLimit ("forgot-password:"
                  ++ or_default (header "x-forwarded-for" request) "anonymous")
                 3 (60 * 60 * 1000) now (rateLimitStore w1)) = true ->
  fst (rateLimit ("forgot-password:"
                  ++ or_default (header "x-forwarded-for" request) "anonymous")
                 3 (60 * 60 * 1000) now (rateLimitStore w2)) = true ->
  validateRequest request forgotPasswordSchema = inl data ->
  fst (POST_forgot_password now request w1)
  = Ret (successResponse forgotPassword_message 200)
  /\ fst (POST_forgot_password now request w2)
     = fst (POST_forgot_password now request w1).
Proof.
  intros H1 H2 Hv.
  destruct (POST_forgot_password_admitted now request w1 data H1 Hv) as (w1' & ->).
  destruct (POST_forgot_password_admitted now request w2 data H2 Hv) as (w2' & ->).
  split; reflexivity.
Qed.

(** ** Views of the tables that a computation preserves *)

Lemma preserves_ret {T A : Type} (V : Prisma -> T) (a : A) : preserves V (ret a).
Proof. intros w. reflexivity. Qed.

Lemma preserves_throw {T A : Type} (V : Prisma -> T) (e : Exn) :
  preserves V (@throw A e).
Proof. intros w. reflexivity. Qed.

Lemma preserves_lift {T A : Type} (V : Prisma -> T) (o : Outcome A) :
  preserves V (lift o).
Proof. intros w. reflexivity. Qed.

Lemma preserves_effect {T : Type} (V : Prisma -> T) (e : Effect) :
  preserves V (effect e).
Proof. intros w. reflexivity. Qed.

Lemma preserves_bind {T A B : Type} (V : Prisma -> T) (m : M A) (k : A -> M B) :
  preserves V m -> (forall a, preserves V (k a)) -> preserves V (bind m k).
Proof.
  intros Hm Hk w. unfold bind. specialize (Hm w).
  destruct (m w) as [[a | e] w1]; simpl in *.
  - rewrite Hk. exact Hm.
  - exact Hm.
Qed.

Lemma preserves_tryCatch {T A : Type} (V : Prisma -> T) (m : M A) (h : Exn -> M A) :
  preserves V m -> (forall e, preserves V (h e)) -> preserves V (tryCatch m h).
Proof.
  intros Hm Hh w. unfold tryCatch. specialize (Hm w).
  destruct (m w) as [[a | e] w1]; simpl in *.
  - exact Hm.
  - rewrite Hh. exact Hm.
Qed.

Lemma preserves_query {T A : Type} (V : Prisma -> T) (call : string)
    (op : Prisma -> Outcome A * Prisma) :
  (forall p, V (snd (op p)) = V p) -> preserves V (query call op).
Proof.
  intros Hop w. unfold query. simpl.
  destruct (faults w) as [| [|] rest]; simpl; try reflexivity;
    specialize (Hop (db w)); destruct (op (db w)); exact Hop.
Qed.

Lemma preserves_seed {T A : Type} (V : Prisma -> T) (f : nat -> A) :
  preserves V (fun w => (Ret (f (seed w)), next_seed w)).
Proof. intros w. reflexivity. Qed.

Lemma preserves_applyRateLimit {T : Type} (V : Prisma -> T) (identifier : string)
    (limit windowMs now : Z) :
  preserves V (applyRateLimit identifier limit windowMs now).
Proof. intros w. unfold applyRateLimit. destruct (rateLimit _ _ _ _ _). reflexivity. Qed.

Lemma preserves_compare {T : Type} (V : Prisma -> T) (plain hashed : string) :
  preserves V (compare plain hashed).
Proof. intros w. reflexivity. Qed.

Lemma preserves_hash {T : Type} (V : Prisma -> T) (plain : string) (rounds : Z) :
  preserves V (hash plain rounds).
Proof. intros w. reflexivity. Qed.

(** Reads preserve every view. *)

Lemma preserves_user_findUnique_id {T : Type} (V : Prisma -> T) (id : string) :
  preserves V (user_findUnique_id id).
Proof. apply preserves_query. reflexivity. Qed.

Lemma preserves_user_findUnique_email {T : Type} (V : Prisma -> T) (e : string) :
  preserves V (user_findUnique_email e).
Proof. apply preserves_query. reflexivity. Qed.

Lemma preserves_user_findUnique_include {T : Type} (V : Prisma -> T) (e : string) :
  preserves V (user_findUnique_email_include_organization e).
Proof. apply preserves_query. reflexivity. Qed.

Lemma preserves_user_findFirst {T : Type} (V : Prisma -> T) (f : User.t -> bool) :
  preserves V (user_findFirst f).
Proof. apply preserves_query. reflexivity. Qed.

Lemma preserves_userSession_findUnique {T : Type} (V : Prisma -> T) (tok : string) :
  preserves V (userSession_findUnique_refreshToken tok).
Proof. apply preserves_query. reflexivity. Qed.

Lemma preserves_organization_findUnique {T : Type} (V : Prisma -> T) (id : string) :
  preserves V (organization_findUnique id).
Proof. apply preserves_query. reflexivity. Qed.

Lemma preserves_requireAuth {T : Type} (V : Prisma -> T) (now : Z)
    (request : NextRequest.t) :
  preserves V (requireAuth now request).
Proof.
  unfold requireAuth. apply preserves_tryCatch; [| intros e; apply preserves_ret].
  destruct (falsy _); [apply preserves_ret |].
  apply preserves_bind; [apply preserves_lift | intros decoded].
  apply preserves_bind; [apply preserves_user_findUnique_id | intros [user |]].
  - destruct (User.isActive user); apply preserves_ret.
  - apply preserves_ret.
Qed.

(** Writes to the other tables preserve the session table. *)

Lemma sessions_user_update (id : string) (data : User.t -> User.t) :
  preserves prisma_userSession (user_update id data).
Proof.
  apply preserves_query. intros p. destruct (existsb _ _); reflexivity.
Qed.

Lemma sessions_securityLog_create (row : SecurityLog.t) :
  preserves prisma_userSession (securityLog_create row).
Proof. apply preserves_query. reflexivity. Qed.

Lemma sessions_adminAuditLog_create (row : AdminAuditLog.t) :
  preserves prisma_userSession (adminAuditLog_create row).
Proof. apply preserves_query. reflexivity. Qed.

(** Writes that preserve the lockout fields. *)

Lemma lockRows_updateWhere (f : User.t -> bool) (data : User.t -> User.t)
    (p : Prisma) :
  (forall u, (User.id (data u), User.failedLoginAttempts (data u),
              User.lockedUntil (data u))
             = (User.id u, User.failedLoginAttempts u, User.lockedUntil u)) ->
  lockRows (with_user (updateWhere f data (prisma_user p)) p) = lockRows p.
Proof.
  intros Hd. unfold lockRows, updateWhere. simpl. rewrite map_map.
  apply map_ext. intros u. destruct (f u); [apply Hd | reflexivity].
Qed.

Lemma locks_user_update (id : string) (data : User.t -> User.t) :
  (forall u, (User.id (data u), User.failedLoginAttempts (data u),
              User.lockedUntil (data u))
             = (User.id u, User.failedLoginAttempts u, User.lockedUntil u)) ->
  preserves lockRows (user_update id data).
Proof.
  intros Hd. apply preserves_query. intros p. destruct (existsb _ _); simpl.
  - apply lockRows_updateWhere. exact Hd.
  - reflexivity.
Qed.

Lemma locks_userSession_update (id : string) (data : UserSession.t -> UserSession.t) :
  preserves lockRows (userSession_update id data).
Proof. apply preserves_query. intros p. destruct (existsb _ _); reflexivity. Qed.

Lemma locks_userSession_updateMany (f : UserSession.t -> bool)
    (data : UserSession.t -> UserSession.t) :
  preserves lockRows (userSession_updateMany f data).
Proof. apply preserves_query. reflexivity. Qed.

Lemma locks_userSession_create (row : UserSession.t) :
  preserves lockRows (userSession_create row).
Proof. apply preserves_query. reflexivity. Qed.

Lemma locks_securityLog_create (row : SecurityLog.t) :
  preserves lockRows (securityLog_create row).
Proof. apply preserves_query. reflexivity. Qed.

Lemma locks_adminAuditLog_create (row : AdminAuditLog.t) :
  preserves lockRows (adminAuditLog_create row).
Proof. apply preserves_query. reflexivity. Qed.

Lemma locks_organization_update (id : string) (data : Organization.t -> Organization.t) :
  preserves lockRows (organization_update id data).
Proof. apply preserves_query. intros p. destruct (existsb _ _); reflexivity. Qed.

(** ** Inversion of a run that returns *)

Lemma bind_ret_inv {A B : Type} (m : M A) (k : A -> M B) (w w2 : World) (b : B) :
  bind m k w = (Ret b, w2) ->
  exists a w1, m w = (Ret a, w1) /\ k a w1 = (Ret b, w2).
Proof.
  unfold bind. destruct (m w) as [[a | e] w1]; intros Hk.
  - exists a, w1. split; [reflexivity | exact Hk].
  - discriminate Hk.
Qed.

Lemma preserves_run {T A : Type} (V : Prisma -> T) (m : M A) (w w1 : World)
    (o : Outcome A) :
  preserves V m -> m w = (o, w1) -> V (db w1) = V (db w).
Proof. intros Hm Hr. specialize (Hm w). rewrite Hr in Hm. exact Hm. Qed.

Lemma query_ret_inv {A : Type} (call : string) (op : Prisma -> Outcome A * Prisma)
    (w w1 : World) (a : A) :
  query call op w = (Ret a, w1) -> op (db w) = (Ret a, db w1).
Proof.
  unfold query. simpl.
  destruct (faults w) as [| [|] rest]; [| discriminate |];
    destruct (op (db w)) as [r p]; intros Hq; injection Hq as -> <-; reflexivity.
Qed.

Lemma ret_inv {A : Type} (a b : A) (w w' : World) :
  ret a w = (Ret b, w') -> a = b /\ w = w'.
Proof. unfold ret. intros Hr. injection Hr as -> ->. split; reflexivity. Qed.

Lemma validateRequest_error_status {T : Type} (request : NextRequest.t)
    (schema : Json -> Outcome T) (r : NextResponse.t) :
  validateRequest request schema = inr r -> NextResponse.status r = 400.
Proof.
  unfold validateRequest.
  destruct (match NextRequest.json request with
            | Some body => schema body
            | None => Throw (Error "Unexpected token in JSON")
            end) as [v | []]; intros Hr; try discriminate Hr;
    injection Hr as <-; reflexivity.
Qed.

(** ** Change password *)

Lemma changePassword_try_success (request : NextRequest.t) (user : AuthUser.t)
    (data : ChangePasswordData.t) (w w' : World) (response : NextResponse.t) :
  changePassword_try request user data w = (Ret response, w') ->
  NextResponse.status response = 200 ->
  prisma_userSession (db w')
  = updateWhere
      (otherValidSession (AuthUser.id user)
                         (or_default (cookie "refreshToken" request) ""))
      (UserSession.set_isValid false) (prisma_userSession (db w)).
Proof.
  unfold changePassword_try. intros Hrun Hs.
  apply bind_ret_inv in Hrun as (userDetails & w1 & H1 & Hrun).
  apply (preserves_run prisma_userSession) in H1;
    [| apply preserves_user_findUnique_id].
  destruct userDetails as [userDetails |];
    [| apply ret_inv in Hrun as [<- _]; discriminate Hs].
  apply bind_ret_inv in Hrun as (valid & w2 & H2 & Hrun).
  apply (preserves_run prisma_userSession) in H2; [| apply preserves_compare].
  destruct valid; cbn [negb] in Hrun.
  2:{ apply bind_ret_inv in Hrun as (? & ? & _ & Hrun).
      apply ret_inv in Hrun as [<- _]. discriminate Hs. }
  destruct (String.eqb _ _);
    [apply ret_inv in Hrun as [<- _]; discriminate Hs |].
  apply bind_ret_inv in Hrun as (hashed & w3 & H3 & Hrun).
  apply (preserves_run prisma_userSession) in H3; [| apply preserves_hash].
  apply bind_ret_inv in Hrun as (? & w4 & H4 & Hrun).
  apply (preserves_run prisma_userSession) in H4; [| apply sessions_user_update].
  apply bind_ret_inv in Hrun as (? & w5 & H5 & Hrun).
  apply query_ret_inv in H5. simpl in H5. injection H5 as _ H5.
  apply bind_ret_inv in Hrun as (? & w6 & H6 & Hrun).
  apply (preserves_run prisma_userSession) in H6;
    [| apply sessions_securityLog_create].
  apply bind_ret_inv in Hrun as (? & w7 & H7 & Hrun).
  apply (preserves_run prisma_userSession) in H7;
    [| apply sessions_adminAuditLog_create].
  apply ret_inv in Hrun as [_ <-].
  rewrite H7, H6, <- H5. simpl. rewrite H4, H3, H2, H1. reflexivity.
Qed.

(** C7.  After a successful change-password request of the authenticated
    user [user], every session of that user that was valid and whose
    refresh token differs from the requester's [refreshToken] cookie is
    invalid and otherwise as before, and every other session, in
    particular the one matching the cookie, is exactly as before (a valid
    one stays valid).  The cookie value is the empty string when the
    cookie is absent. *)
Theorem change_password_sessions (now : Z) (request : NextRequest.t) (w w0 w' : World)
    (user : AuthUser.t) (response : NextResponse.t) (i : nat) (s : UserSession.t) :
  requireAuth now request w = (Ret (inl user), w0) ->
  POST_change_password now request w = (Ret response, w') ->
  NextResponse.status response = 200 ->
  prisma_userSession (db w) !! i = Some s ->
  let current := or_default (cookie "refreshToken" request) "" in
  exists s',
    prisma_userSession (db w') !! i = Some s'
    /\ (UserSession.userId s = AuthUser.id user ->
        UserSession.isValid s = true ->
        UserSession.refreshToken s <> current ->
        s' = UserSession.set_isValid false s /\ UserSession.isValid s' = false)
    /\ (UserSession.refreshToken s = current -> s' = s)
    /\ (UserSession.userId s <> AuthUser.id user -> s' = s)
    /\ (UserSession.isValid s = false -> s' = s).
Proof.
  intros Hauth Hrun Hs Hi current.
  unfold POST_change_password in Hrun.
  apply bind_ret_inv in Hrun as (auth & w1 & H1 & Hrun).
  rewrite Hauth in H1. injection H1 as <- <-.
  destruct (validateRequest request changePasswordSchema) as [data | error] eqn:Hv.
  2:{ apply ret_inv in Hrun as [<- _].
      apply validateRequest_error_status in Hv. rewrite Hv in Hs. discriminate Hs. }
  unfold tryCatch in Hrun.
  destruct (changePassword_try request user data w0) as [[r | e] w2] eqn:Htry.
  2:{ apply bind_ret_inv in Hrun as (? & ? & _ & Hrun).
      apply ret_inv in Hrun as [<- _]. discriminate Hs. }
  injection Hrun as -> ->.
  pose proof (changePassword_try_success _ _ _ _ _ _ Htry Hs) as Hsessions.
  apply (preserves_run prisma_userSession) in Hauth; [| apply preserves_requireAuth].
  rewrite Hauth in Hsessions.
  rewrite Hsessions, updateWhere_lookup, Hi. simpl.
  eexists. split; [reflexivity |].
  unfold otherValidSession. fold current.
  split.
  { intros Hu Hval Hne. rewrite Hu, String.eqb_refl, Hval.
    apply String.eqb_neq in Hne. rewrite Hne. split; reflexivity. }
  split.
  { intros Heq. rewrite Heq, String.eqb_refl, andb_false_r. reflexivity. }
  split.
  { intros Hne. apply String.eqb_neq in Hne. rewrite Hne. reflexivity. }
  intros Hval. rewrite Hval, andb_false_r. reflexivity.
Qed.

(** ** Login: the lockout guard *)

Lemma user_findUnique_include_healthy (e : string) (w : World) :
  faults w = [] ->
  user_findUnique_email_include_organization e w
  = (Ret (match userOf e w with
          | Some u => Some (u, organizationOf (User.organizationId u) w)
          | None => None
          end),
     set_db (db w) (log_effect (Query "user.findUnique") w)).
Proof.
  intros Hf. unfold user_findUnique_email_include_organization.
  rewrite query_healthy by exact Hf. reflexivity.
Qed.

Lemma user_update_healthy (id : string) (data : User.t -> User.t) (w : World) :
  faults w = [] ->
  existsb (user_by_id id) (prisma_user (db w)) = true ->
  user_update id data w
  = (Ret tt,
     set_db (with_user (updateWhere (user_by_id id) data (prisma_user (db w))) (db w))
            (log_effect (Query "user.update") w)).
Proof.
  intros Hf He. unfold user_update. rewrite query_healthy by exact Hf.
  rewrite He. reflexivity.
Qed.

Lemma securityLog_create_healthy (row : SecurityLog.t) (w : World) :
  faults w = [] ->
  securityLog_create row w
  = (Ret tt,
     set_db (with_securityLog (prisma_securityLog (db w) ++ [row]) (db w))
            (log_effect (Query "securityLog.create") w)).
Proof.
  intros Hf. unfold securityLog_create. rewrite query_healthy by exact Hf. reflexivity.
Qed.

Lemma userOf_exists (e : string) (w : World) (u : User.t) :
  userOf e w = Some u -> existsb (user_by_id (User.id u)) (prisma_user (db w)) = true.
Proof.
  intros Hu. apply find_some in Hu as [Hin _]. apply existsb_exists.
  exists u. split; [exact Hin | apply String.eqb_refl].
Qed.

Lemma POST_login_admitted (now : Z) (request : NextRequest.t) (w : World)
    (data : LoginData.t) :
  admitted now request w = Some data ->
  POST_login now request w
  = tryCatch
      (login_try now request
                 (or_default (header "x-forwarded-for" request) "anonymous") data)
      (fun error =>
         let! _ := console_error "Login error:" error in
         ret (errorResponse "Giriş sırasında bir hata oluştu" 500 None))
      (countedLogin now request w).
Proof.
  unfold admitted, POST_login, countedLogin, bind, applyRateLimit, header.
  destruct (rateLimit _ _ _ _ _) as [allowed store]. simpl.
  destruct allowed; [| discriminate].
  destruct (validateRequest request loginSchema) as [d | r]; [| discriminate].
  intros Hd. injection Hd as ->. reflexivity.
Qed.

(** A request for a locked account is refused after the one lookup. *)
Lemma login_try_locked (now : Z) (request : NextRequest.t) (ip : string)
    (data : LoginData.t) (w : World) (u : User.t) (lockedUntil : Z) :
  faults w = [] ->
  userOf (LoginData.email data) w = Some u ->
  User.lockedUntil u = Some lockedUntil ->
  now < lockedUntil ->
  login_try now request ip data w
  = (Ret (errorResponse (lockedMessage (ceil_div (lockedUntil - now) 60000)) 403 None),
     set_db (db w) (log_effect (Query "user.findUnique") w)).
Proof.
  intros Hf Hu Hl Hlt. unfold login_try, bind.
  rewrite user_findUnique_include_healthy by exact Hf. rewrite Hu.
  unfold isLocked. rewrite Hl.
  assert ((lockedUntil >? now) = true) as -> by (rewrite Z.gtb_ltb; apply Z.ltb_lt; exact Hlt).
  reflexivity.
Qed.

(** A wrong password for an account that is not locked: the row takes one
    [failStep]. *)
Lemma login_try_wrong_password (now : Z) (request : NextRequest.t) (ip : string)
    (data : LoginData.t) (w : World) (u : User.t) :
  faults w = [] ->
  userOf (LoginData.email data) w = Some u ->
  isLocked u now = false ->
  bcrypt_compare (LoginData.password data) (User.password u) = false ->
  exists response w',
    login_try now request ip data w = (Ret response, w')
    /\ faults w' = []
    /\ prisma_user (db w')
       = updateWhere (user_by_id (User.id u))
           (fun r => failStep now
                       (User.set_failedLoginAttempts (User.failedLoginAttempts u) r))
           (prisma_user (db w)).
Proof.
  intros Hf Hu Hl Hc. unfold login_try, bind.
  rewrite user_findUnique_include_healthy by exact Hf. rewrite Hu, Hl.
  unfold compare, bind, effect, ret. rewrite Hc. cbn [negb]. cbv beta iota.
  rewrite user_update_healthy; [| exact Hf | eapply userOf_exists; exact Hu].
  rewrite securityLog_create_healthy by exact Hf.
  destruct (User.failedLoginAttempts u + 1 >=? MAX_LOGIN_ATTEMPTS) eqn:E;
    (eexists; eexists; split; [reflexivity |]; split; [exact Hf |]);
    simpl; unfold failStep; simpl; rewrite E; reflexivity.
Qed.

Lemma failStep_counter (now : Z) (u : User.t) :
  User.failedLoginAttempts (failStep now u) = User.failedLoginAttempts u + 1.
Proof. unfold failStep. destruct (_ >=? MAX_LOGIN_ATTEMPTS); reflexivity. Qed.

Lemma failStep_unlocked (now : Z) (u : User.t) :
  User.failedLoginAttempts u + 1 < MAX_LOGIN_ATTEMPTS ->
  User.lockedUntil (failStep now u) = User.lockedUntil u.
Proof.
  unfold failStep. intros Hlt.
  assert ((User.failedLoginAttempts u + 1 >=? MAX_LOGIN_ATTEMPTS) = false) as ->
    by (rewrite Z.geb_leb; apply Z.leb_gt; exact Hlt).
  reflexivity.
Qed.

Lemma failStep_locked (now : Z) (u : User.t) :
  MAX_LOGIN_ATTEMPTS <= User.failedLoginAttempts u + 1 ->
  User.lockedUntil (failStep now u) = Some (now + LOCK_DURATION).
Proof.
  unfold failStep. intros Hle.
  assert ((User.failedLoginAttempts u + 1 >=? MAX_LOGIN_ATTEMPTS) = true) as ->
    by (rewrite Z.geb_leb; apply Z.leb_le; exact Hle).
  reflexivity.
Qed.

Lemma failStep_same_counter (now : Z) (u : User.t) :
  failStep now (User.set_failedLoginAttempts (User.failedLoginAttempts u) u)
  = failStep now u.
Proof. destruct u. reflexivity. Qed.

(** One failed attempt moves the account one [failStep] on. *)
Lemma failedLogin_step (e : string) (now : Z) (request : NextRequest.t) (w w' : World)
    (u : User.t) :
  faults w = [] -> userOf e w = Some u ->
  failedLogin e now request w = Some w' ->
  faults w' = [] /\ userOf e w' = Some (failStep now u) /\ isLocked u now = false.
Proof.
  intros Hf Hu Hstep. unfold failedLogin in Hstep.
  destruct (admitted now request w) as [data |] eqn:Ha; [| discriminate Hstep].
  rewrite Hu in Hstep.
  destruct (String.eqb (LoginData.email data) e) eqn:He; [| discriminate Hstep].
  destruct (isLocked u now) eqn:Hl; [discriminate Hstep |].
  destruct (bcrypt_compare (LoginData.password data) (User.password u)) eqn:Hc;
    [discriminate Hstep |].
  simpl in Hstep. injection Hstep as <-.
  apply String.eqb_eq in He. subst e.
  rewrite (POST_login_admitted now request w data Ha). unfold tryCatch.
  destruct (login_try_wrong_password now request
              (or_default (header "x-forwarded-for" request) "anonymous") data
              (countedLogin now request w) u Hf Hu Hl Hc)
    as (response & w1 & Hrun & Hf1 & Hrows).
  rewrite Hrun. simpl. split; [exact Hf1 |]. split; [| reflexivity].
  unfold userOf. rewrite Hrows.
  rewrite find_updateWhere_other
    by (intros r; unfold failStep; destruct (_ >=? MAX_LOGIN_ATTEMPTS); reflexivity).
  unfold userOf in Hu. simpl. rewrite Hu. simpl.
  unfold user_by_id. rewrite String.eqb_refl. rewrite failStep_same_counter. reflexivity.
Qed.


(** ** Login: success *)

Lemma isTrialExpired_healthy (organizationId : string) (now : Z) (w : World)
    (o : Organization.t) :
  faults w = [] ->
  organizationOf organizationId w = Some o ->
  isTrialExpired organizationId now w
  = (Ret (trialExpired o now),
     set_db (db w) (log_effect (Query "organization.findUnique") w)).
Proof.
  intros Hf Ho. unfold isTrialExpired, bind, trialExpired.
  rewrite organization_findUnique_healthy by exact Hf. rewrite Ho.
  destruct (bool_decide (Organization.status o = TRIAL)); simpl; [| reflexivity].
  destruct (Organization.trialEndsAt o); reflexivity.
Qed.

Lemma userSession_create_healthy (row : UserSession.t) (w : World) :
  faults w = [] ->
  userSession_create row w
  = (Ret tt,
     set_db (with_userSession (prisma_userSession (db w) ++ [row]) (db w))
            (log_effect (Query "userSession.create") w)).
Proof.
  intros Hf. unfold userSession_create. rewrite query_healthy by exact Hf. reflexivity.
Qed.

Lemma cookieExpires_returns (rememberMe : option bool) (now : Z) :
  exists expires,
    (if bool_decide (rememberMe = Some true)
     then getTokenExpiration "30d" now
     else getTokenExpiration "7d" now) = Ret expires.
Proof. destruct (bool_decide _); eexists; reflexivity. Qed.

(** The row after a successful login. *)
Lemma login_try_success (now : Z) (request : NextRequest.t) (ip : string)
    (data : LoginData.t) (w : World) (u : User.t) (o : Organization.t)
    (accessToken : string) (expires : Z) :
  faults w = [] ->
  userOf (LoginData.email data) w = Some u ->
  organizationOf (User.organizationId u) w = Some o ->
  isLocked u now = false ->
  bcrypt_compare (LoginData.password data) (User.password u) = true ->
  User.isActive u = true ->
  Organization.status o <> SUSPENDED ->
  Organization.status o <> CANCELLED ->
  trialExpired o now = false ->
  generateAccessToken
    (TokenPayload.mk (User.id u) (User.email u) (role_key (User.role u))
                     (User.organizationId u)) now = Ret accessToken ->
  getRefreshTokenExpiration now = Ret expires ->
  exists response w',
    login_try now request ip data w = (Ret response, w')
    /\ NextResponse.status response = 200
    /\ prisma_user (db w')
       = updateWhere (user_by_id (User.id u))
           (fun r => User.set_lockedUntil None
                       (User.set_failedLoginAttempts 0
                          (User.set_lastLogin now
                             (UserInfo.ip (getUserRegistrationInfo request))
                             (UserInfo.browser (getUserRegistrationInfo request))
                             (UserInfo.device (getUserRegistrationInfo request))
                             (UserInfo.os (getUserRegistrationInfo request)) r)))
           (prisma_user (db w)).
Proof.
  intros Hf Hu Ho Hl Hc Ha Hsus Hcan Htrial Hsign Hexp.
  unfold login_try, bind.
  rewrite user_findUnique_include_healthy by exact Hf. rewrite Hu, Ho, Hl.
  unfold compare, bind, effect, ret. rewrite Hc, Ha. cbn [negb]. cbv beta iota.
  rewrite (bool_decide_eq_false_2 _ Hsus), (bool_decide_eq_false_2 _ Hcan).
  rewrite (isTrialExpired_healthy _ now _ o) by (first [exact Hf | exact Ho]).
  rewrite Htrial. unfold lift. rewrite Hsign. unfold generateRefreshToken.
  cbv beta iota. rewrite Hexp. cbv beta iota.
  rewrite userSession_create_healthy by exact Hf.
  rewrite user_update_healthy; [| exact Hf | eapply userOf_exists; exact Hu].
  rewrite securityLog_create_healthy by exact Hf.
  destruct (cookieExpires_returns (LoginData.rememberMe data) now) as (cookieExpires & ->).
  eexists. eexists. split; [reflexivity |]. split; reflexivity.
Qed.

(** ** Login: what a login that does not succeed does to the user rows *)

Lemma login_try_users (now : Z) (request : NextRequest.t) (ip : string)
    (data : LoginData.t) (w w' : World) (outcome : Outcome NextResponse.t) :
  faults w = [] ->
  login_try now request ip data w = (outcome, w') ->
  prisma_user (db w') = prisma_user (db w)
  \/ (exists u,
         userOf (LoginData.email data) w = Some u
         /\ prisma_user (db w')
            = updateWhere (user_by_id (User.id u))
                (fun r => failStep now
                            (User.set_failedLoginAttempts (User.failedLoginAttempts u) r))
                (prisma_user (db w)))
  \/ (exists response, outcome = Ret response /\ NextResponse.status response = 200).
Proof.
  intros Hf. unfold login_try, bind.
  rewrite user_findUnique_include_healthy by exact Hf.
  destruct (userOf (LoginData.email data) w) as [u |] eqn:Hu;
    [| intros Hr; injection Hr as <- <-; left; reflexivity].
  destruct (isLocked u now) eqn:Hl;
    [intros Hr; injection Hr as <- <-; left; reflexivity |].
  unfold compare, bind, effect, ret.
  destruct (bcrypt_compare (LoginData.password data) (User.password u)) eqn:Hc;
    cbn [negb]; cbv beta iota.
  2:{ rewrite user_update_healthy; [| exact Hf | eapply userOf_exists; exact Hu].
      rewrite securityLog_create_healthy by exact Hf.
      destruct (User.failedLoginAttempts u + 1 >=? MAX_LOGIN_ATTEMPTS) eqn:E;
        intros Hr; injection Hr as <- <-; right; left; exists u;
        (split; [reflexivity |]); simpl; unfold failStep; simpl;
        rewrite E; reflexivity. }
  destruct (User.isActive u); cbn [negb];
    [| intros Hr; injection Hr as <- <-; left; reflexivity].
  destruct (organizationOf (User.organizationId u) w) as [o |] eqn:Ho;
    [| intros Hr; injection Hr as <- <-; left; reflexivity].
  destruct (bool_decide (Organization.status o = SUSPENDED));
    [intros Hr; injection Hr as <- <-; left; reflexivity |].
  destruct (bool_decide (Organization.status o = CANCELLED));
    [intros Hr; injection Hr as <- <-; left; reflexivity |].
  rewrite (isTrialExpired_healthy _ now _ o) by (first [exact Hf | exact Ho]).
  destruct (trialExpired o now);
    [intros Hr; injection Hr as <- <-; left; reflexivity |].
  unfold lift.
  destruct (generateAccessToken _ now) as [accessToken | e];
    [| intros Hr; injection Hr as <- <-; left; reflexivity].
  unfold generateRefreshToken. cbv beta iota.
  destruct (getRefreshTokenExpiration now) as [expires | e];
    [| intros Hr; injection Hr as <- <-; left; reflexivity].
  cbv beta iota.
  rewrite userSession_create_healthy by exact Hf.
  rewrite user_update_healthy; [| exact Hf | eapply userOf_exists; exact Hu].
  rewrite securityLog_create_healthy by exact Hf.
  destruct (cookieExpires_returns (LoginData.rememberMe data) now) as (cookieExpires & ->).
  intros Hr. injection Hr as <- <-. right. right. eexists. split; reflexivity.
Qed.

Lemma POST_login_not_success (now : Z) (request : NextRequest.t) (w w' : World)
    (response : NextResponse.t) :
  faults w = [] ->
  POST_login now request w = (Ret response, w') ->
  NextResponse.status response <> 200 ->
  prisma_user (db w') = prisma_user (db w)
  \/ (exists data u,
         admitted now request w = Some data
         /\ userOf (LoginData.email data) w = Some u
         /\ prisma_user (db w')
            = updateWhere (user_by_id (User.id u))
                (fun r => failStep now
                            (User.set_failedLoginAttempts (User.failedLoginAttempts u) r))
                (prisma_user (db w))).
Proof.
  intros Hf Hrun Hs.
  destruct (admitted now request w) as [data |] eqn:Ha.
  - rewrite (POST_login_admitted now request w data Ha) in Hrun.
    unfold tryCatch in Hrun.
    destruct (login_try now request _ data (countedLogin now request w))
      as [[r | e] w1] eqn:Htry;
      apply login_try_users in Htry; try exact Hf;
      destruct Htry as [Hsame | [(u & Hu & Hrows) | (r' & Hr' & Hs')]].
    + injection Hrun as <- <-. left. exact Hsame.
    + injection Hrun as <- <-. right. exists data, u. auto.
    + injection Hrun as <- <-. injection Hr' as <-. contradiction.
    + injection Hrun as <- <-. left. exact Hsame.
    + injection Hrun as <- <-. right. exists data, u. auto.
    + discriminate Hr'.
  - left. unfold admitted in Ha. unfold POST_login, bind, applyRateLimit, header in Hrun.
    destruct (rateLimit _ _ _ _ _) as [[|] store]; simpl in Ha, Hrun.
    + destruct (validateRequest request loginSchema); [discriminate Ha |].
      injection Hrun as <- <-. reflexivity.
    + injection Hrun as <- <-. reflexivity.
Qed.

(** ** The other handlers leave the lockout fields alone *)

Ltac keeps :=
  repeat first
    [ solve [intros ?w; reflexivity]
    | apply preserves_applyRateLimit
    | apply preserves_requireAuth
    | apply preserves_user_findUnique_id
    | apply preserves_user_findUnique_email
    | apply preserves_user_findFirst
    | apply preserves_userSession_findUnique
    | apply locks_user_update; intros ?u; reflexivity
    | apply locks_userSession_update
    | apply locks_userSession_updateMany
    | apply locks_securityLog_create
    | apply locks_adminAuditLog_create
    | apply preserves_bind; [| intros ?a]
    | apply preserves_tryCatch; [| intros ?e]
    | match goal with
      | |- preserves _ (match ?x with _ => _ end) => destruct x
      end
    | progress cbv zeta ].

Lemma otherAuthHandlers_keep_locks (now : Z) (request : NextRequest.t) :
  Forall (fun h : Z -> NextRequest.t -> M NextResponse.t =>
            preserves lockRows (h now request)) otherAuthHandlers.
Proof.
  unfold otherAuthHandlers. repeat apply Forall_cons_2; [| | | | | | apply Forall_nil_2].
  - unfold POST_refresh, refresh_try. keeps.
  - unfold POST_change_password, changePassword_try. keeps.
  - unfold POST_forgot_password, forgotPassword_try. keeps.
  - unfold POST_reset_password, resetPassword_try. keeps.
  - unfold POST_logout. keeps.
  - unfold DELETE_logout_all. keeps.
Qed.


End Properties.

(** ** The properties on concrete data *)

Lemma verify_demo_token :
  @verifyAccessToken demoPlatform "jwt.u1" 0
  = Ret (Some (TokenPayload.mk "u1" "" "" ""))
  /\ @verifyAccessToken demoPlatform "garbage" 0 = Ret None.
Proof. split; reflexivity. Qed.




Lemma refresh_expired_session_witness :
  exists r1 w1 w2,
    @POST_refresh demoPlatform 1000 refreshRequest worldSessions = (Ret r1, w1)
    /\ NextResponse.status r1 = 401
    /\ sessionOf "tok-1" w1 = Some (demoSession "s1" "u1" "tok-1" false 500)
    /\ @POST_refresh demoPlatform 2000 refreshRequest w1
       = (Ret (errorResponse "Session geçersiz. Lütfen tekrar giriş yapın." 401 None), w2)
    /\ db w2 = db w1.
Proof.
  destruct (@refresh_expired_session demoPlatform 1000 2000 refreshRequest "tok-1"
              worldSessions (demoSession "s1" "u1" "tok-1" true 500))
    as (r1 & w1 & w2 & H1 & Hs & Hsess & _ & H2 & Hdb & _);
    try (vm_compute; reflexivity); try (vm_compute; lia); try discriminate.
  exists r1, w1, w2. repeat split; assumption.
Defined.

Lemma checkAndIncrementUsage_effect_witness :
  (exists w' response,
      @checkAndIncrementUsage demoPlatform "o1" patients 1 jan31 worldFull
      = (Ret (Some response), w')
      /\ NextResponse.status response = 403
      /\ db w' = db worldFull)
  /\ (exists w' o',
        @checkAndIncrementUsage demoPlatform "o1" patients 1 jan31 world0 = (Ret None, w')
        /\ organizationOf "o1" w' = Some o'
        /\ Organization.currentPatients o' = 10
        /\ Organization.currentPatients o' <= Organization.maxPatients o')
  /\ (exists w' o',
        @checkAndIncrementUsage demoPlatform "o1" aiQueries 1 mar01 world0 = (Ret None, w')
        /\ organizationOf "o1" w' = Some o'
        /\ Organization.currentAiQueries o' = 1
        /\ Organization.aiQueriesResetAt o' = mar01).
Proof.
  destruct (@checkAndIncrementUsage_effect demoPlatform "o1" patients 1 jan31 worldFull
              clinicFull) as (Hfull & _ & _); try (vm_compute; reflexivity).
  destruct (@checkAndIncrementUsage_effect demoPlatform "o1" patients 1 jan31 world0 clinic)
    as (_ & Hbelow & _); try (vm_compute; reflexivity).
  destruct (@checkAndIncrementUsage_effect demoPlatform "o1" aiQueries 1 mar01 world0 clinic)
    as (_ & _ & Hreset); try (vm_compute; reflexivity).
  split; [| split].
  - apply Hfull; [vm_compute; reflexivity | vm_compute; discriminate].
  - destruct Hbelow as (w' & o' & Hrun & Ho & _ & Hc & Hle);
      try (vm_compute; reflexivity).
    exists w', o'. split; [exact Hrun |]. split; [exact Ho |].
    split; [exact Hc |]. apply Hle. vm_compute. discriminate.
  - apply Hreset. vm_compute. reflexivity.
Defined.

(** C4, as stated, fails twice.  With [currentAiQueries = maxAiQueries =
    100] and a reset date in an earlier month the call passes, and the
    counter becomes 1 instead of staying 100; with 9 of 10 patients and
    [amount = 5] the call passes and drives the counter to 14, above
    the maximum of 10. *)
Lemma checkAndIncrementUsage_passes_at_max_and_overshoots :
  Organization.currentAiQueries clinic = Organization.maxAiQueries clinic
  /\ fst (@checkAndIncrementUsage demoPlatform "o1" aiQueries 1 mar01 world0) = Ret None
  /\ (Organization.currentAiQueries
        <$> organizationOf "o1"
              (snd (@checkAndIncrementUsage demoPlatform "o1" aiQueries 1 mar01 world0)))
     = Some 1
  /\ fst (@checkAndIncrementUsage demoPlatform "o1" patients 5 jan31 world0) = Ret None
  /\ ((fun o => (Organization.currentPatients o, Organization.maxPatients o))
        <$> organizationOf "o1"
              (snd (@checkAndIncrementUsage demoPlatform "o1" patients 5 jan31 world0)))
     = Some (14, 10).
Proof. repeat split; vm_compute; reflexivity. Qed.

Lemma checkUsageLimit_monthly_reset_witness :
  exists w' o',
    @checkUsageLimit demoPlatform "o1" aiQueries mar01 world0
    = (Ret (Usage.mk false 0 100), w')
    /\ organizationOf "o1" w' = Some o'
    /\ Organization.currentAiQueries o' = 0
    /\ Organization.aiQueriesResetAt o' = mar01
    /\ effects w' = [Query "organization.findUnique"; Query "organization.update"].
Proof.
  destruct (@checkUsageLimit_monthly_reset demoPlatform "o1" mar01 world0 clinic)
    as (w' & o' & Hrun & Ho & _ & Hc & Hr & He);
    try (vm_compute; reflexivity); try (vm_compute; discriminate).
  exists w', o'. repeat split; assumption.
Defined.

Lemma change_password_sessions_witness :
  exists response w' s0 s1,
    @POST_change_password demoPlatform 1000 changePasswordRequest worldSessions
    = (Ret response, w')
    /\ NextResponse.status response = 200
    /\ prisma_userSession (db w') !! 0%nat = Some s0
    /\ s0 = demoSession "s1" "u1" "tok-1" true 500
    /\ prisma_userSession (db w') !! 1%nat = Some s1
    /\ s1 = demoSession "s2" "u1" "tok-2" false 9000.
Proof.
  pose (run := @POST_change_password demoPlatform 1000 changePasswordRequest worldSessions).
  assert (exists response w', run = (Ret response, w')
                              /\ NextResponse.status response = 200)
    as (response & w' & Hrun & Hs).
  { eexists. eexists. split; vm_compute; reflexivity. }
  destruct (@change_password_sessions demoPlatform 1000 changePasswordRequest
              worldSessions
              (snd (@requireAuth demoPlatform 1000 changePasswordRequest worldSessions))
              w' (AuthUser.mk "u1" "a@b.c" DIETITIAN "o1") response 0%nat
              (demoSession "s1" "u1" "tok-1" true 500))
    as (s0 & H0 & _ & Hcurrent & _); try (vm_compute; reflexivity); try assumption.
  destruct (@change_password_sessions demoPlatform 1000 changePasswordRequest
              worldSessions
              (snd (@requireAuth demoPlatform 1000 changePasswordRequest worldSessions))
              w' (AuthUser.mk "u1" "a@b.c" DIETITIAN "o1") response 1%nat
              (demoSession "s2" "u1" "tok-2" true 9000))
    as (s1 & H1 & Hother & _); try (vm_compute; reflexivity); try assumption.
  exists response, w', s0, s1. split; [exact Hrun |]. split; [exact Hs |].
  split; [exact H0 |]. split; [apply Hcurrent; vm_compute; reflexivity |].
  split; [exact H1 |].
  apply Hother; try reflexivity. vm_compute. discriminate.
Defined.

Lemma forgot_password_generic_response_witness :
  fst (@POST_forgot_password demoPlatform 1000 forgotRequest world0)
  = Ret (successResponse forgotPassword_message 200)
  /\ fst (@POST_forgot_password demoPlatform 1000 forgotRequest (demoWorld [] [] []))
     = fst (@POST_forgot_password demoPlatform 1000 forgotRequest world0)
  /\ userOf "a@b.c" world0 = Some ada
  /\ userOf "a@b.c" (demoWorld [] [] []) = None.
Proof.
  destruct (@forgot_password_generic_response demoPlatform 1000 forgotRequest world0
              (demoWorld [] [] []) (ForgotPasswordData.mk "a@b.c"))
    as [Hgen Hsame]; try (vm_compute; reflexivity).
  split; [exact Hgen |]. split; [exact Hsame |]. split; reflexivity.
Defined.

(** * Further properties of the code *)

(** ** Token expiry *)

Lemma parseInt_digits_acc (l : list ascii) (acc : Z) :
  0 <= acc -> forallb is_digit l = true ->
  0 <= fold_left (fun a c => a * 10 + (Z.of_nat (nat_of_ascii c) - 48)) l acc.
Proof.
  revert acc. induction l as [| c l IH]; intros acc Hacc Hd; simpl in *; [exact Hacc |].
  apply andb_true_iff in Hd as [Hc Hl]. apply IH; [| exact Hl].
  unfold is_digit in Hc. apply andb_true_iff in Hc as [Hlo _].
  apply Nat.leb_le in Hlo. lia.
Qed.

Lemma parseInt_digits_nonneg (l : list ascii) :
  forallb is_digit l = true -> 0 <= parseInt_digits l.
Proof. intros Hd. unfold parseInt_digits. apply parseInt_digits_acc; [lia | exact Hd]. Qed.

Lemma forallb_rev {A : Type} (f : A -> bool) (l : list A) :
  forallb f (rev l) = forallb f l.
Proof.
  induction l as [| a l IH]; simpl; [reflexivity |].
  rewrite forallb_app, IH. simpl. rewrite andb_true_r. apply andb_comm.
Qed.

Lemma unit_ms_dhms (unit : ascii) :
  existsb (Ascii.eqb unit) (chars "dhms") = true <-> exists ms, unit_ms unit = Some ms.
Proof.
  unfold unit_ms. simpl.
  destruct (Ascii.eqb unit "d"); [split; eauto |].
  destruct (Ascii.eqb unit "h"); [split; eauto |].
  destruct (Ascii.eqb unit "m"); [split; eauto |].
  destruct (Ascii.eqb unit "s"); [split; eauto |].
  simpl. split; [discriminate | intros [ms Hms]; discriminate].
Qed.

Lemma match_expiration_some (expiresIn : string) (digits : list ascii) (unit : ascii) :
  match_expiration expiresIn = Some (digits, unit) <->
  chars expiresIn = (digits ++ [unit])%list /\ digits <> []
  /\ forallb is_digit digits = true
  /\ existsb (Ascii.eqb unit) (chars "dhms") = true.
Proof.
  unfold match_expiration. split.
  - destruct (rev (chars expiresIn)) as [| u [| d ds]] eqn:E; try discriminate.
    destruct (forallb is_digit (d :: ds) && existsb (Ascii.eqb u) (chars "dhms")) eqn:C;
      [| discriminate].
    intros Hm. injection Hm as <- <-.
    apply andb_true_iff in C as [Cd Cu].
    assert (chars expiresIn = (rev (d :: ds) ++ [u])%list) as Hc.
    { rewrite <- (rev_involutive (chars expiresIn)), E. reflexivity. }
    split; [exact Hc |]. split.
    + intros Hn. destruct (rev ds); discriminate Hn.
    + split; [| exact Cu].
      pose proof (forallb_rev is_digit (d :: ds)) as Hrev.
      rewrite Cd in Hrev. exact Hrev.
  - intros (Hc & Hne & Hd & Hu). rewrite Hc, rev_app_distr. cbn [rev app].
    destruct (rev digits) as [| d ds] eqn:E.
    + exfalso. apply Hne. rewrite <- (rev_involutive digits), E. reflexivity.
    + assert (forallb is_digit (d :: ds) = true) as Hd'
        by (rewrite <- E, forallb_rev; exact Hd).
      rewrite Hd', Hu. cbn [andb]. rewrite <- E, rev_involutive. reflexivity.
Qed.

(** X1.  [getTokenExpiration] returns exactly for one or more decimal
    digits followed by one of d, h, m, s, and throws "Invalid expiration
    format" on every other input (the "Invalid time unit" branch is never
    reached).  For such an input, from a [now] that is not negative and
    while the result stays a valid date, the result is [now] plus the
    number times the milliseconds of the unit, so never before [now]. *)
Theorem getTokenExpiration_format (expiresIn : string) (now : Z) :
  (forall digits unit ms,
      chars expiresIn = (digits ++ [unit])%list -> digits <> [] ->
      forallb is_digit digits = true -> unit_ms unit = Some ms ->
      0 <= now -> now + parseInt_digits digits * ms <= maxDate ->
      getTokenExpiration expiresIn now = Ret (now + parseInt_digits digits * ms)
      /\ now <= now + parseInt_digits digits * ms)
  /\ ((exists expires, getTokenExpiration expiresIn now = Ret expires)
      <-> exists digits unit ms,
            chars expiresIn = (digits ++ [unit])%list /\ digits <> []
            /\ forallb is_digit digits = true /\ unit_ms unit = Some ms)
  /\ (forall error,
        getTokenExpiration expiresIn now = Throw error ->
        error = Error "Invalid expiration format").
Proof.
  assert (forall digits unit,
             match_expiration expiresIn = Some (digits, unit) ->
             exists ms, unit_ms unit = Some ms
                        /\ getTokenExpiration expiresIn now
                           = Ret (now + parseInt_digits digits * ms)) as Hrun.
  { intros digits unit Hm. unfold getTokenExpiration. rewrite Hm.
    apply match_expiration_some in Hm as (_ & _ & _ & Hu).
    apply unit_ms_dhms in Hu as [ms Hms]. exists ms. split; [exact Hms |].
    unfold unit_ms in Hms.
    destruct (Ascii.eqb unit "d"); [injection Hms as <-; f_equal; lia |].
    destruct (Ascii.eqb unit "h"); [injection Hms as <-; f_equal; lia |].
    destruct (Ascii.eqb unit "m"); [injection Hms as <-; f_equal; lia |].
    destruct (Ascii.eqb unit "s"); [injection Hms as <-; f_equal; lia |].
    discriminate Hms. }
  assert (forall digits unit ms,
             chars expiresIn = (digits ++ [unit])%list -> digits <> [] ->
             forallb is_digit digits = true -> unit_ms unit = Some ms ->
             getTokenExpiration expiresIn now
             = Ret (now + parseInt_digits digits * ms)) as Hshape.
  { intros digits unit ms Hc Hne Hd Hu.
    assert (match_expiration expiresIn = Some (digits, unit)) as Hm.
    { apply match_expiration_some. repeat split; try assumption.
      apply unit_ms_dhms. exists ms. exact Hu. }
    destruct (Hrun digits unit Hm) as (ms' & Hms' & Hr).
    rewrite Hu in Hms'. injection Hms' as <-. exact Hr. }
  split; [| split].
  - intros digits unit ms Hc Hne Hd Hu _ _.
    split; [apply (Hshape digits unit ms); assumption |].
    pose proof (parseInt_digits_nonneg digits Hd) as Hn.
    assert (0 < ms) as Hpos.
    { unfold unit_ms in Hu.
      repeat (destruct (Ascii.eqb unit _); [injection Hu as <-; lia |]).
      discriminate Hu. }
    nia.
  - split.
    + intros [expires Hr].
      destruct (match_expiration expiresIn) as [[digits unit] |] eqn:Hm.
      * destruct (Hrun digits unit eq_refl) as (ms & Hms & _).
        apply match_expiration_some in Hm as (Hc & Hne & Hd & Hu).
        exists digits, unit, ms. repeat split; assumption.
      * unfold getTokenExpiration in Hr. rewrite Hm in Hr. discriminate Hr.
    + intros (digits & unit & ms & Hc & Hne & Hd & Hu).
      eexists. apply (Hshape digits unit ms); assumption.
  - intros error Hr.
    destruct (match_expiration expiresIn) as [[digits unit] |] eqn:Hm.
    + destruct (Hrun digits unit eq_refl) as (ms & _ & Hr').
      rewrite Hr' in Hr. discriminate Hr.
    + unfold getTokenExpiration in Hr. rewrite Hm in Hr. injection Hr as <-. reflexivity.
Qed.

(** ** Pagination *)

Lemma of_integer_small (z : Z) : Z.abs z < 2 ^ 53 -> of_integer z = Int z.
Proof.
  intros Hz. unfold of_integer.
  assert (2 ^ 53 < 2 ^ 1024 - 2 ^ 970) as Hbig by (vm_compute; reflexivity).
  destruct (Z.leb_spec (2 ^ 1024 - 2 ^ 970) (Z.abs z)) as [Hle | Hlt]; [lia | reflexivity].
Qed.

Lemma of_integer_cases (z : Z) :
  of_integer z = Int z \/ (of_integer z = Infinity (z <? 0)).
Proof. unfold of_integer. destruct (_ <=? _); [right | left]; reflexivity. Qed.

Lemma parseInt_cases (s : string) :
  parseInt s = NaN \/ (exists negative, parseInt s = Infinity negative)
  \/ exists n, parseInt s = Int n.
Proof.
  unfold parseInt.
  destruct (match js_drop_spaces (chars s) with
            | [] => (false, js_drop_spaces (chars s))
            | c :: r =>
                if Ascii.eqb c "-" then (true, r)
                else if Ascii.eqb c "+" then (false, r)
                else (false, js_drop_spaces (chars s))
            end) as [negative l].
  destruct (match l with
            | z :: x :: r =>
                if Ascii.eqb z "0" && (Ascii.eqb x "x" || Ascii.eqb x "X")
                then (16, r) else (10, l)
            | _ => (10, l)
            end) as [radix l'].
  destruct (digits_prefix radix l'); [left; reflexivity |].
  right.
  match goal with |- context [of_integer ?v] => destruct (of_integer_cases v) as [-> | ->] end;
    [right | left]; eexists; reflexivity.
Qed.

(** X2.  Whatever the query string holds, [getPaginationParams] gives a
    page that is [NaN], an integer of at least 1 or, for a number beyond
    the largest double, plus infinity, and a limit that is [NaN] or between
    1 and 100; when both are integers (the page below 2^46, so that the
    product is exact), [skip] is [(page - 1) * limit] and is not negative.
    A missing or empty parameter counts as page 1 and limit 10; a value
    [parseInt] cannot read makes the field [NaN], not the default. *)
Theorem getPaginationParams_bounds (searchParams : list (string * string)) :
  let params := getPaginationParams searchParams in
  (PaginationParams.page params = NaN
   \/ PaginationParams.page params = Infinity false
   \/ exists n, PaginationParams.page params = Int n /\ 1 <= n)
  /\ (PaginationParams.limit params = NaN
      \/ exists l, PaginationParams.limit params = Int l /\ 1 <= l <= 100)
  /\ (forall n l,
        PaginationParams.page params = Int n ->
        PaginationParams.limit params = Int l ->
        n < 2 ^ 46 ->
        PaginationParams.skip params = Int ((n - 1) * l) /\ 0 <= (n - 1) * l)
  /\ (or_default (assoc "page" searchParams) "" = "" ->
      PaginationParams.page params = Int 1)
  /\ (or_default (assoc "limit" searchParams) "" = "" ->
      PaginationParams.limit params = Int 10)
  /\ (parseInt (or_default (assoc "page" searchParams) "1") = NaN ->
      PaginationParams.page params = NaN /\ PaginationParams.skip params = NaN).
Proof.
  intros params. subst params. unfold getPaginationParams.
  cbn [PaginationParams.page PaginationParams.limit PaginationParams.skip].
  set (p := parseInt (or_default (assoc "page" searchParams) "1")).
  set (l := parseInt (or_default (assoc "limit" searchParams) "10")).
  assert (p = NaN \/ (exists negative, p = Infinity negative) \/ exists n, p = Int n)
    as Hp by apply parseInt_cases.
  assert (l = NaN \/ (exists negative, l = Infinity negative) \/ exists n, l = Int n)
    as Hl by apply parseInt_cases.
  assert (forall d, or_default (assoc "page" searchParams) "" = "" ->
                    or_default (assoc "page" searchParams) d = d) as Hdp.
  { intros d. unfold or_default, truthy.
    destruct (assoc "page" searchParams) as [v |]; [| reflexivity].
    destruct (String.eqb_spec v ""); simpl; [reflexivity | contradiction]. }
  assert (forall d, or_default (assoc "limit" searchParams) "" = "" ->
                    or_default (assoc "limit" searchParams) d = d) as Hdl.
  { intros d. unfold or_default, truthy.
    destruct (assoc "limit" searchParams) as [v |]; [| reflexivity].
    destruct (String.eqb_spec v ""); simpl; [reflexivity | contradiction]. }
  assert (2 ^ 46 * 100 < 2 ^ 53) as Hrange by (vm_compute; reflexivity).
  assert (0 < 2 ^ 46) as Hpos by (vm_compute; reflexivity).
  split; [| split; [| split; [| split; [| split]]]].
  - destruct Hp as [-> | [[[|] ->] | [n ->]]].
    + left. reflexivity.
    + right. right. exists 1. split; [reflexivity | lia].
    + right. left. reflexivity.
    + right. right. exists (Z.max 1 n). split; [reflexivity | lia].
  - destruct Hl as [-> | [[[|] ->] | [n ->]]].
    + left. reflexivity.
    + right. exists 1. split; [reflexivity | lia].
    + right. exists 100. split; [reflexivity | lia].
    + right. exists (Z.min 100 (Z.max 1 n)). split; [reflexivity | lia].
  - intros n b Hn Hb Hsmall.
    assert (1 <= n) as Hn1.
    { destruct Hp as [-> | [[[|] ->] | [a ->]]]; cbn in Hn; try discriminate Hn;
        injection Hn as <-; lia. }
    assert (1 <= b <= 100) as Hb1.
    { destruct Hl as [-> | [[[|] ->] | [a ->]]]; cbn in Hb; try discriminate Hb;
        injection Hb as <-; lia. }
    rewrite Hn, Hb. cbn [js_sub js_mul].
    rewrite (of_integer_small (n - 1)) by lia. cbn [js_mul].
    rewrite (of_integer_small ((n - 1) * b)) by nia.
    split; [reflexivity | nia].
  - intros He. subst p. rewrite (Hdp "1" He). reflexivity.
  - intros He. subst l. rewrite (Hdl "10" He). reflexivity.
  - intros Hnan. rewrite Hnan. split; reflexivity.
Qed.

(** X3.  For a page and a limit of at least 1 and a total that is not
    negative, all three and the product of page and limit below 2^53,
    [paginateResults] reports the number of pages [k] with
    [(k - 1) * limit < total <= k * limit] (0 pages for no rows), and
    [hasMore] is true exactly when the page is before the last one; the
    rows are passed through. *)
Theorem paginateResults_pages {T : Type} (data : list T) (page limit total : Z) :
  1 <= page -> 1 <= limit -> 0 <= total ->
  page * limit < 2 ^ 53 -> total < 2 ^ 53 ->
  let result :=
    paginateResults data (Int total)
      (PaginationParams.mk (Int page) (Int limit) (Int ((page - 1) * limit))) in
  exists k,
    Paginated.totalPages result = Int k
    /\ (k - 1) * limit < total <= k * limit
    /\ (Paginated.hasMore result = true <-> page < k)
    /\ Paginated.data result = data.
Proof.
  intros Hp Hl Ht Hexact _ result. subst result. unfold paginateResults.
  cbn [PaginationParams.page PaginationParams.limit Paginated.totalPages
       Paginated.hasMore Paginated.data math_ceil_div js_mul].
  rewrite (of_integer_small (page * limit)) by nia. cbn [js_lt].
  assert ((limit =? 0) = false) as -> by (apply Z.eqb_neq; lia).
  exists (ceil_div total limit). split; [reflexivity |].
  unfold ceil_div.
  pose proof (Z.div_mod (- total) limit ltac:(lia)) as Hdm.
  pose proof (Z.mod_pos_bound (- total) limit ltac:(lia)) as Hb.
  set (q := (- total) / limit) in *. set (r := (- total) mod limit) in *.
  split; [nia |]. split; [| reflexivity].
  rewrite Z.ltb_lt. split; intros Hlt; nia.
Qed.

(** ** Rate limiter: keys do not interfere *)

Lemma allowedCalls_lookup (key : string) (calls : list Call.t) :
  forall store1 store2 : gmap string RateLimitRecord,
    store1 !! key = store2 !! key ->
    allowedCalls key calls store1 = allowedCalls key (callsFor key calls) store2.
Proof.
  induction calls as [| c rest IH]; intros store1 store2 Hs; [reflexivity |].
  destruct (String.eqb_spec (Call.key c) key) as [Heq | Hne].
  - assert (callsFor key (c :: rest) = c :: callsFor key rest) as ->
      by (unfold callsFor; simpl; rewrite Heq, String.eqb_refl; reflexivity).
    simpl. rewrite Heq.
    assert (forall s1 s2 : gmap string RateLimitRecord,
               s1 !! key = s2 !! key ->
               fst (rateLimit key (Call.limit c) (Call.windowMs c) (Call.now c) s1)
               = fst (rateLimit key (Call.limit c) (Call.windowMs c) (Call.now c) s2)
               /\ snd (rateLimit key (Call.limit c) (Call.windowMs c) (Call.now c) s1)
                  !! key
                  = snd (rateLimit key (Call.limit c) (Call.windowMs c) (Call.now c) s2)
                    !! key) as Hstep.
    { intros s1 s2 H12. unfold rateLimit. rewrite H12.
      destruct (s2 !! key) as [r |] eqn:E; simpl.
      - destruct (resetAt r <? Call.now c); simpl;
          [rewrite !lookup_insert_eq; split; reflexivity |].
        destruct (count r >=? Call.limit c); simpl;
          [split; [reflexivity | congruence] |].
        rewrite !lookup_insert_eq. split; reflexivity.
      - rewrite !lookup_insert_eq. split; reflexivity. }
    destruct (Hstep store1 store2 Hs) as [Hfst Hsnd].
    destruct (rateLimit key (Call.limit c) (Call.windowMs c) (Call.now c) store1)
      as [a1 s1'].
    destruct (rateLimit key (Call.limit c) (Call.windowMs c) (Call.now c) store2)
      as [a2 s2'].
    simpl in Hfst, Hsnd. subst a2. rewrite (IH s1' s2' Hsnd). reflexivity.
  - assert (callsFor key (c :: rest) = callsFor key rest) as ->.
    { unfold callsFor. simpl.
      destruct (String.eqb_spec (Call.key c) key); [contradiction | reflexivity]. }
    simpl.
    pose proof (rateLimit_other (Call.key c) key (Call.limit c) (Call.windowMs c)
                                (Call.now c) store1 Hne) as Hoth.
    destruct (rateLimit (Call.key c) (Call.limit c) (Call.windowMs c) (Call.now c) store1)
      as [a1 s1']. simpl in Hoth.
    destruct (String.eqb_spec (Call.key c) key); [contradiction |].
    rewrite andb_false_r. simpl. apply IH. congruence.
Qed.

(** X4.  The calls the rate limiter allows for a key do not depend on the
    calls made for other keys: a run allows as many calls for [key] as the
    run of its calls for [key] alone. *)
Theorem rateLimit_keys_independent (key : string) (calls : list Call.t)
    (store : gmap string RateLimitRecord) :
  allowedCalls key calls store = allowedCalls key (callsFor key calls) store.
Proof. apply allowedCalls_lookup. reflexivity. Qed.

Section MoreProperties.

Context `{Platform}.

(** ** Tenant, trial and feature checks *)

Lemma user_findUnique_id_healthy (id : string) (w : World) :
  faults w = [] ->
  user_findUnique_id id w
  = (Ret (List.find (user_by_id id) (prisma_user (db w))),
     set_db (db w) (log_effect (Query "user.findUnique") w)).
Proof.
  intros Hf. unfold user_findUnique_id. rewrite query_healthy by exact Hf. reflexivity.
Qed.

(** X5.  [requireOrganizationAccess] grants access only to a user that
    exists and is a SUPER_ADMIN or a member of the organization, whatever
    the store does; when the store answers, it decides exactly that (an
    unknown user and a member of another organization are refused) and
    writes nothing. *)
Theorem requireOrganizationAccess_tenant (userId organizationId : string) (w : World) :
  (forall w',
      requireOrganizationAccess userId organizationId w = (Ret true, w') ->
      exists u,
        List.find (user_by_id userId) (prisma_user (db w)) = Some u
        /\ (User.role u = SUPER_ADMIN \/ User.organizationId u = organizationId))
  /\ (faults w = [] ->
      exists w',
        requireOrganizationAccess userId organizationId w
        = (Ret match List.find (user_by_id userId) (prisma_user (db w)) with
               | Some u => bool_decide (User.role u = SUPER_ADMIN)
                           || String.eqb (User.organizationId u) organizationId
               | None => false
               end, w')
        /\ db w' = db w).
Proof.
  split.
  - intros w' Hrun. unfold requireOrganizationAccess in Hrun.
    apply bind_ret_inv in Hrun as (found & w1 & Hq & Hrun).
    apply query_ret_inv in Hq. simpl in Hq. injection Hq as <- _.
    destruct (List.find (user_by_id userId) (prisma_user (db w))) as [u |];
      [| apply ret_inv in Hrun as [Hb _]; discriminate Hb].
    exists u. split; [reflexivity |].
    destruct (bool_decide (User.role u = SUPER_ADMIN)) eqn:E.
    + left. apply bool_decide_eq_true_1 in E. exact E.
    + apply ret_inv in Hrun as [Hb _]. right. apply String.eqb_eq. exact Hb.
  - intros Hf. unfold requireOrganizationAccess, bind.
    rewrite user_findUnique_id_healthy by exact Hf.
    destruct (List.find (user_by_id userId) (prisma_user (db w))) as [u |];
      [| eexists; split; reflexivity].
    destruct (bool_decide (User.role u = SUPER_ADMIN)); eexists; split; reflexivity.
Qed.

(** X6.  With the store answering, [isTrialExpired] throws "Organization
    not found" for an unknown organization, and for a known one returns
    true exactly when the status is TRIAL and a trial end is stored and
    lies before [now]; so it is false for every other status whatever
    [trialEndsAt] holds, and false for a trial without an end.  It writes
    nothing. *)
Theorem isTrialExpired_decides (organizationId : string) (now : Z) (w : World) :
  faults w = [] ->
  (organizationOf organizationId w = None ->
   exists w', isTrialExpired organizationId now w
              = (Throw (Error "Organization not found"), w')
              /\ db w' = db w)
  /\ (forall o,
        organizationOf organizationId w = Some o ->
        exists expired w',
          isTrialExpired organizationId now w = (Ret expired, w')
          /\ db w' = db w
          /\ (expired = true <->
              Organization.status o = TRIAL
              /\ exists trialEndsAt,
                   Organization.trialEndsAt o = Some trialEndsAt
                   /\ trialEndsAt < now)).
Proof.
  intros Hf. split.
  - intros Ho. unfold isTrialExpired, bind.
    rewrite organization_findUnique_healthy by exact Hf. rewrite Ho.
    eexists. split; reflexivity.
  - intros o Ho. rewrite (isTrialExpired_healthy organizationId now w o Hf Ho).
    eexists. eexists. split; [reflexivity |]. split; [reflexivity |].
    unfold trialExpired. split.
    + intros Hb. apply andb_true_iff in Hb as [Hs Ht].
      apply bool_decide_eq_true_1 in Hs. split; [exact Hs |].
      destruct (Organization.trialEndsAt o) as [t |]; [| discriminate Ht].
      exists t. split; [reflexivity |]. rewrite Z.gtb_ltb in Ht.
      apply Z.ltb_lt. exact Ht.
    + intros (Hs & t & Ht & Hlt). rewrite Ht.
      rewrite bool_decide_eq_true_2 by exact Hs. simpl.
      rewrite Z.gtb_ltb. apply Z.ltb_lt. exact Hlt.
Qed.

(** X7.  With the store answering, [requireFeature] answers 404 for an
    unknown organization and 403 for a SUSPENDED or CANCELLED one, even on
    a plan that has the feature; otherwise it passes exactly when the
    feature is in the list of the plan and answers 403 when it is not.  It
    never throws, and it does not look at the trial end. *)
Theorem requireFeature_decides (organizationId feature : string) (w : World) :
  faults w = [] ->
  exists result w',
    requireFeature organizationId feature w = (Ret result, w')
    /\ db w' = db w
    /\ match organizationOf organizationId w with
       | None => result = Some (errorResponse "Organization not found" 404 None)
       | Some o =>
           if bool_decide (Organization.status o = SUSPENDED)
              || bool_decide (Organization.status o = CANCELLED)
           then result
                = Some (errorResponse "Organization is suspended or cancelled" 403 None)
           else
             (In feature (planFeatures (Organization.plan o)) -> result = None)
             /\ (~ In feature (planFeatures (Organization.plan o)) ->
                 result
                 = Some (errorResponse
                           "This feature requires a higher subscription plan" 403 None))
       end.
Proof.
  intros Hf. unfold requireFeature, bind.
  rewrite organization_findUnique_healthy by exact Hf.
  destruct (organizationOf organizationId w) as [o |];
    [| eexists; eexists; split; [reflexivity |]; split; reflexivity].
  destruct (bool_decide (Organization.status o = SUSPENDED)
            || bool_decide (Organization.status o = CANCELLED));
    [eexists; eexists; split; [reflexivity |]; split; reflexivity |].
  unfold lift, hasFeature. rewrite features_get_plan. rewrite orb_false_r.
  destruct (includes (planFeatures (Organization.plan o)) feature) eqn:E; simpl.
  - apply includes_true in E.
    eexists. eexists. split; [reflexivity |]. split; [reflexivity |].
    split; [reflexivity | contradiction].
  - eexists. eexists. split; [reflexivity |]. split; [reflexivity |].
    split; [| reflexivity].
    intros Hin. apply includes_true in Hin. rewrite Hin in E. discriminate E.
Qed.

(** ** Usage counters *)

Lemma updateWhere_twice {A : Type} (f : A -> bool) (d1 d2 : A -> A) (rows : list A) :
  (forall r, f (d1 r) = f r) ->
  updateWhere f d2 (updateWhere f d1 rows)
  = updateWhere f (fun r => d2 (d1 r)) rows.
Proof.
  intros Hf. unfold updateWhere. rewrite map_map. apply map_ext. intros r.
  destruct (f r) eqn:E; [rewrite Hf, E | rewrite E]; reflexivity.
Qed.

Lemma updateWhere_id {A : Type} (f : A -> bool) (d : A -> A) (rows : list A) :
  (forall r, d r = r) -> updateWhere f d rows = rows.
Proof.
  intros Hd. unfold updateWhere. rewrite <- (map_id rows) at 2.
  apply map_ext. intros r. destruct (f r); [apply Hd | reflexivity].
Qed.

Lemma set_currentField_back (type : ResourceType) (amount : Z) (o : Organization.t) :
  Organization.set_currentField type
    (Organization.currentField type
       (Organization.set_currentField type (Organization.currentField type o + amount) o)
     - amount)
    (Organization.set_currentField type (Organization.currentField type o + amount) o)
  = o.
Proof.
  destruct o, type; cbv [Organization.set_currentField Organization.currentField];
    cbn; f_equal; repeat case_decide; first [congruence | lia].
Qed.

(** X8.  For the three resources that [decrementUsage] takes (users,
    patients, storage), with the store answering and the organization
    present, [incrementUsage] followed by [decrementUsage] of the same
    amount puts every row of the organization table back as it was;
    [decrementUsage] alone subtracts the amount without a floor (a counter
    at 0 becomes negative); and both throw P2025, writing nothing, when
    the organization does not exist. *)
Theorem usage_increment_decrement (organizationId : string) (type : ResourceType)
    (amount : Z) (w : World) :
  type <> aiQueries ->
  faults w = [] ->
  (forall o,
      organizationOf organizationId w = Some o ->
      (exists w1 w2,
          incrementUsage organizationId type amount w = (Ret tt, w1)
          /\ decrementUsage organizationId type amount w1 = (Ret tt, w2)
          /\ prisma_organization (db w2) = prisma_organization (db w))
      /\ (exists w1 o1,
             decrementUsage organizationId type amount w = (Ret tt, w1)
             /\ organizationOf organizationId w1 = Some o1
             /\ Organization.currentField type o1
                = Organization.currentField type o - amount))
  /\ (organizationOf organizationId w = None ->
      exists w1 w2,
        incrementUsage organizationId type amount w = (Throw (PrismaError "P2025"), w1)
        /\ decrementUsage organizationId type amount w = (Throw (PrismaError "P2025"), w2)
        /\ db w1 = db w /\ db w2 = db w).
Proof.
  intros _ Hf. split.
  - intros o Ho. split.
    + unfold incrementUsage, decrementUsage.
      erewrite organization_update_healthy; [| exact Hf | exact Ho].
      eexists. eexists. split; [reflexivity |].
      erewrite organization_update_healthy; [| exact Hf |].
      2:{ unfold organizationOf. simpl. rewrite find_updateWhere by reflexivity.
          unfold organizationOf in Ho. rewrite Ho. reflexivity. }
      split; [reflexivity |]. simpl.
      rewrite updateWhere_twice by reflexivity.
      apply updateWhere_id. intros r. apply set_currentField_back.
    + unfold decrementUsage.
      erewrite organization_update_healthy; [| exact Hf | exact Ho].
      eexists. eexists. split; [reflexivity |]. split.
      * unfold organizationOf. simpl. rewrite find_updateWhere by reflexivity.
        unfold organizationOf in Ho. rewrite Ho. reflexivity.
      * apply currentField_set.
  - intros Ho. unfold incrementUsage, decrementUsage, organization_update.
    rewrite !query_healthy by exact Hf.
    assert (existsb (organization_by_id organizationId) (prisma_organization (db w))
            = false) as ->.
    { destruct (existsb _ _) eqn:E; [| reflexivity].
      apply existsb_exists in E as (o & Hin & Ho').
      unfold organizationOf in Ho.
      apply (find_none _ _ Ho) in Hin. rewrite Hin in Ho'. discriminate Ho'. }
    eexists. eexists. repeat split; reflexivity.
Qed.

(** ** Authentication of a request *)

Lemma requireAuth_cases (now : Z) (request : NextRequest.t) (w : World) :
  (exists error w',
      requireAuth now request w = (Ret (inr error), w')
      /\ NextResponse.status error = 401 /\ db w' = db w)
  \/ (exists token decoded u w',
         requireAuth now request w = (Ret (inl (authUserOf u)), w')
         /\ db w' = db w
         /\ accessTokenOf request = Some token /\ token <> ""
         /\ jwt_verify token JWT_SECRET now = Ret decoded
         /\ List.find (user_by_id (TokenPayload.userId decoded)) (prisma_user (db w))
            = Some u
         /\ User.isActive u = true).
Proof.
  unfold requireAuth, tryCatch, cookie, header.
  fold (accessTokenOf request).
  destruct (accessTokenOf request) as [token |] eqn:Etoken; cbn [falsy];
    [| left; eexists; eexists; split; [reflexivity |]; split; reflexivity].
  destruct (truthy token) eqn:Etruthy; cbn [negb];
    [| left; eexists; eexists; split; [reflexivity |]; split; reflexivity].
  assert (token <> "") as Hne.
  { intros ->. discriminate Etruthy. }
  unfold bind, lift. unfold default, from_option, id.
  destruct (jwt_verify token JWT_SECRET now) as [decoded | e] eqn:Everify;
    [| left; eexists; eexists; split; [reflexivity |]; split; reflexivity].
  unfold user_findUnique_id, query.
  destruct (faults (log_effect (Query "user.findUnique") w)) as [| [|] rest] eqn:Ef;
    cbn [fst snd];
    try (left; eexists; eexists; split; [reflexivity |]; split; reflexivity).
  - cbn [db log_effect].
    destruct (List.find (user_by_id (TokenPayload.userId decoded)) (prisma_user (db w)))
      as [u |] eqn:Eu;
      [| left; eexists; eexists; split; [reflexivity |]; split; reflexivity].
    destruct (User.isActive u) eqn:Ea;
      [| left; eexists; eexists; split; [reflexivity |]; split; reflexivity].
    right. exists token, decoded, u. eexists.
    split; [reflexivity |]. repeat split; try assumption; reflexivity.
  - cbn [db log_effect].
    destruct (List.find (user_by_id (TokenPayload.userId decoded)) (prisma_user (db w)))
      as [u |] eqn:Eu;
      [| left; eexists; eexists; split; [reflexivity |]; split; reflexivity].
    destruct (User.isActive u) eqn:Ea;
      [| left; eexists; eexists; split; [reflexivity |]; split; reflexivity].
    right. exists token, decoded, u. eexists.
    split; [reflexivity |]. repeat split; try assumption; reflexivity.
Qed.

(** X9.  [requireAuth] never throws and never writes to the tables,
    whatever the store does.  It returns a user only when the request
    carries a non-empty token (the cookie first, the bearer header
    otherwise) that [verify] accepts and whose user id is that of a stored,
    active user, and the identity it returns is read from that row; every
    refusal is a 401. *)
Theorem requireAuth_sound (now : Z) (request : NextRequest.t) (w : World) :
  (exists result w', requireAuth now request w = (Ret result, w') /\ db w' = db w)
  /\ (forall user w',
        requireAuth now request w = (Ret (inl user), w') ->
        exists token decoded u,
          accessTokenOf request = Some token /\ token <> ""
          /\ jwt_verify token JWT_SECRET now = Ret decoded
          /\ List.find (user_by_id (TokenPayload.userId decoded)) (prisma_user (db w))
             = Some u
          /\ User.isActive u = true
          /\ user = authUserOf u)
  /\ (forall error w',
        requireAuth now request w = (Ret (inr error), w') ->
        NextResponse.status error = 401).
Proof.
  destruct (requireAuth_cases now request w)
    as [(error & w1 & Hrun & Hs & Hdb)
       | (token & decoded & u & w1 & Hrun & Hdb & Ht & Hne & Hv & Hu & Ha)].
  - split; [exists (inr error), w1; split; assumption |].
    split.
    + intros user w' Hr. rewrite Hrun in Hr. discriminate Hr.
    + intros error' w' Hr. rewrite Hrun in Hr. injection Hr as <- _. exact Hs.
  - split; [exists (inl (authUserOf u)), w1; split; assumption |].
    split.
    + intros user w' Hr. rewrite Hrun in Hr. injection Hr as <- _.
      exists token, decoded, u. repeat split; assumption.
    + intros error' w' Hr. rewrite Hrun in Hr. discriminate Hr.
Qed.

End MoreProperties.

(** ** The route wrapper *)

Section WrapperProperties.

Context `{Platform}.

Variable exn_message : Exn -> string.

Lemma set_rateLimitStore_same (w : World) : set_rateLimitStore (rateLimitStore w) w = w.
Proof. destruct w. reflexivity. Qed.

Lemma rateLimit_refused_store (key : string) (limit windowMs now : Z)
    (store : gmap string RateLimitRecord) :
  fst (rateLimit key limit windowMs now store) = false ->
  rateLimit key limit windowMs now store = (false, store).
Proof.
  unfold rateLimit. destruct (store !! key) as [r |]; [| discriminate].
  destruct (_ <? _); [discriminate |].
  destruct (_ >=? _); [reflexivity | discriminate].
Qed.



End WrapperProperties.

Section AuthProperties.

Context `{Platform}.

(** ** Login: the answers around the password check *)

Ltac run_login Hadm :=
  rewrite (POST_login_admitted _ _ _ _ Hadm); unfold tryCatch.

(** X12.  With the store answering, an admitted login for an e-mail that
    no user has is answered 401 with the message that names neither the
    e-mail nor the password as the cause; the handler makes the one lookup
    and nothing else: no password comparison, no write. *)
Theorem login_unknown_email (now : Z) (request : NextRequest.t) (w : World)
    (data : LoginData.t) :
  faults w = [] ->
  admitted now request w = Some data ->
  userOf (LoginData.email data) w = None ->
  exists w',
    POST_login now request w
    = (Ret (errorResponse "Geçersiz email veya şifre" 401 None), w')
    /\ db w' = db w
    /\ effects w' = (effects w ++ [Query "user.findUnique"])%list.
Proof.
  intros Hf Hadm Hu. run_login Hadm.
  unfold login_try, bind.
  rewrite user_findUnique_include_healthy by exact Hf.
  change (userOf (LoginData.email data) (countedLogin now request w))
    with (userOf (LoginData.email data) w).
  rewrite Hu. eexists. split; [reflexivity |]. split; reflexivity.
Qed.

(** X13.  With the store answering, an admitted login with the correct
    password for an account that is not locked is still refused with 403
    when the user is inactive, or the organization is SUSPENDED or
    CANCELLED, or its trial has expired; the tables are left as they were:
    no session is created, the failure counter is not reset and nothing is
    logged. *)
Theorem login_refused_after_password (now : Z) (request : NextRequest.t) (w : World)
    (data : LoginData.t) (u : User.t) :
  faults w = [] ->
  admitted now request w = Some data ->
  userOf (LoginData.email data) w = Some u ->
  isLocked u now = false ->
  bcrypt_compare (LoginData.password data) (User.password u) = true ->
  (User.isActive u = false
   \/ exists o,
        organizationOf (User.organizationId u) w = Some o
        /\ (Organization.status o = SUSPENDED
            \/ Organization.status o = CANCELLED
            \/ trialExpired o now = true)) ->
  exists response w',
    POST_login now request w = (Ret response, w')
    /\ NextResponse.status response = 403
    /\ db w' = db w.
Proof.
  intros Hf Hadm Hu Hl Hc Hwhy. run_login Hadm.
  unfold login_try, bind.
  rewrite user_findUnique_include_healthy by exact Hf.
  change (userOf (LoginData.email data) (countedLogin now request w))
    with (userOf (LoginData.email data) w).
  rewrite Hu, Hl. unfold compare, bind, effect, ret. rewrite Hc. cbn [negb]. cbv beta iota.
  destruct (User.isActive u) eqn:Ha; cbn [negb];
    [| eexists; eexists; split; [reflexivity |]; split; reflexivity].
  destruct Hwhy as [Hin | (o & Ho & Hwhy)]; [discriminate Hin |].
  change (organizationOf (User.organizationId u) (countedLogin now request w))
    with (organizationOf (User.organizationId u) w).
  rewrite Ho.
  destruct (bool_decide (Organization.status o = SUSPENDED)) eqn:Es;
    [eexists; eexists; split; [reflexivity |]; split; reflexivity |].
  destruct (bool_decide (Organization.status o = CANCELLED)) eqn:Ec;
    [eexists; eexists; split; [reflexivity |]; split; reflexivity |].
  apply bool_decide_eq_false_1 in Es. apply bool_decide_eq_false_1 in Ec.
  destruct Hwhy as [Hs | [Hs | Ht]]; [contradiction | contradiction |].
  rewrite (isTrialExpired_healthy _ now _ o) by (first [exact Hf | exact Ho]).
  rewrite Ht. eexists. eexists. split; [reflexivity |]. split; reflexivity.
Qed.

(** X14.  With the store answering, an admitted login with a wrong
    password for an account that is not locked answers 401 with the number
    of attempts left while the counter stays below five, and 403 with the
    lock message otherwise; so an account whose lock has run out but whose
    counter still stands at four or more is locked again by one wrong
    password.  One row is added to the security log, with severity high
    exactly when the account gets locked, and no session row changes. *)
Theorem login_wrong_password_report (now : Z) (request : NextRequest.t) (w : World)
    (data : LoginData.t) (u : User.t) :
  faults w = [] ->
  admitted now request w = Some data ->
  userOf (LoginData.email data) w = Some u ->
  isLocked u now = false ->
  bcrypt_compare (LoginData.password data) (User.password u) = false ->
  let failedAttempts := User.failedLoginAttempts u + 1 in
  exists w' row,
    POST_login now request w
    = (Ret (if failedAttempts >=? MAX_LOGIN_ATTEMPTS
            then errorResponse
                   "Çok fazla başarısız giriş denemesi. Hesabınız 15 dakika süreyle kilitlendi."
                   403 None
            else errorResponse
                   ("Geçersiz email veya şifre. "
                    ++ pretty (MAX_LOGIN_ATTEMPTS - failedAttempts)
                    ++ " deneme hakkınız kaldı.")
                   401 None), w')
    /\ prisma_securityLog (db w') = (prisma_securityLog (db w) ++ [row])%list
    /\ SecurityLog.event row = "login.failed"
    /\ SecurityLog.userId row = User.id u
    /\ SecurityLog.severity row
       = (if failedAttempts >=? MAX_LOGIN_ATTEMPTS then "high" else "medium")
    /\ prisma_userSession (db w') = prisma_userSession (db w).
Proof.
  intros Hf Hadm Hu Hl Hc failedAttempts. run_login Hadm.
  unfold login_try, bind.
  rewrite user_findUnique_include_healthy by exact Hf.
  change (userOf (LoginData.email data) (countedLogin now request w))
    with (userOf (LoginData.email data) w).
  rewrite Hu, Hl. unfold compare, bind, effect, ret. rewrite Hc. cbn [negb]. cbv beta iota.
  rewrite user_update_healthy; [| exact Hf | eapply userOf_exists; exact Hu].
  rewrite securityLog_create_healthy by exact Hf.
  fold failedAttempts.
  destruct (failedAttempts >=? MAX_LOGIN_ATTEMPTS) eqn:E;
    eexists; eexists; (split; [reflexivity |]); repeat split; reflexivity.
Qed.


(** ** Refresh *)


Lemma sessionKeys_updateWhere (f : UserSession.t -> bool)
    (data : UserSession.t -> UserSession.t) (p : Prisma) :
  (forall s, (UserSession.id (data s), UserSession.userId (data s),
              UserSession.refreshToken (data s), UserSession.expiresAt (data s))
             = (UserSession.id s, UserSession.userId s, UserSession.refreshToken s,
                UserSession.expiresAt s)) ->
  sessionKeys (with_userSession (updateWhere f data (prisma_userSession p)) p)
  = sessionKeys p.
Proof.
  intros Hd. unfold sessionKeys, updateWhere. simpl. rewrite map_map.
  apply map_ext. intros s. destruct (f s); [apply Hd | reflexivity].
Qed.

(** The tables as a refresh must leave them: everything but the access
    token, the validity and the last activity of the sessions. *)
Lemma refresh_preserves (now : Z) (request : NextRequest.t) :
  preserves (fun p => (prisma_user p, sessionKeys p, prisma_organization p,
                       prisma_securityLog p, prisma_adminAuditLog p))
            (POST_refresh now request).
Proof.
  assert (forall id data,
             (forall s, (UserSession.id (data s), UserSession.userId (data s),
                         UserSession.refreshToken (data s), UserSession.expiresAt (data s))
                        = (UserSession.id s, UserSession.userId s,
                           UserSession.refreshToken s, UserSession.expiresAt s)) ->
             preserves (fun p => (prisma_user p, sessionKeys p, prisma_organization p,
                                  prisma_securityLog p, prisma_adminAuditLog p))
                       (userSession_update id data)) as Hupdate.
  { intros id data Hd. apply preserves_query. intros p.
    destruct (existsb _ _); [| reflexivity]. cbn [snd].
    rewrite sessionKeys_updateWhere by exact Hd. reflexivity. }
  unfold POST_refresh, refresh_try.
  repeat first
    [ solve [intros ?w; reflexivity]
    | apply preserves_userSession_findUnique
    | apply Hupdate; intros ?s; reflexivity
    | apply preserves_bind; [| intros ?a]
    | apply preserves_tryCatch; [| intros ?e]
    | match goal with
      | |- preserves _ (match ?x with _ => _ end) => destruct x
      end
    | progress cbv zeta ].
Qed.

(** X17.  Whatever the request and whatever the store does, the refresh
    handler returns a response (it never throws) and leaves every user,
    organization and log row as it was; of the session rows it changes
    neither the id, the owner, the refresh token nor the expiry, and it
    neither adds nor removes one. *)
Theorem refresh_frame (now : Z) (request : NextRequest.t) (w : World) :
  exists response w',
    POST_refresh now request w = (Ret response, w')
    /\ prisma_user (db w') = prisma_user (db w)
    /\ sessionKeys (db w') = sessionKeys (db w)
    /\ prisma_organization (db w') = prisma_organization (db w)
    /\ prisma_securityLog (db w') = prisma_securityLog (db w)
    /\ prisma_adminAuditLog (db w') = prisma_adminAuditLog (db w).
Proof.
  pose proof (refresh_preserves now request w) as Hkeep.
  assert (exists response w', POST_refresh now request w = (Ret response, w'))
    as (response & w' & Hrun).
  { unfold POST_refresh, tryCatch.
    destruct (refresh_try now request w) as [[r | e] w1]; eexists; eexists; reflexivity. }
  rewrite Hrun in Hkeep. cbn [snd] in Hkeep.
  exists response, w'. split; [exact Hrun |].
  injection Hkeep as -> -> -> -> ->. repeat split; reflexivity.
Qed.

(** ** Logout *)

Lemma requireAuth_healthy (now : Z) (request : NextRequest.t) (w : World) :
  faults w = [] ->
  faults (snd (requireAuth now request w)) = []
  /\ forall w',
       faults w' = [] -> prisma_user (db w') = prisma_user (db w) ->
       fst (requireAuth now request w') = fst (requireAuth now request w).
Proof.
  intros Hf. unfold requireAuth, tryCatch.
  match goal with |- context [falsy ?t] => destruct (falsy t) end;
    [split; [exact Hf | intros w' _ _; reflexivity] |].
  unfold bind, lift.
  match goal with |- context [jwt_verify ?t ?k now] =>
    destruct (jwt_verify t k now) as [decoded | e] end;
    [| split; [exact Hf | intros w' _ _; reflexivity]].
  rewrite user_findUnique_id_healthy by exact Hf. split.
  - destruct (List.find _ _) as [u |]; [destruct (User.isActive u) |]; exact Hf.
  - intros w' Hf' Husers. rewrite user_findUnique_id_healthy by exact Hf'.
    rewrite Husers.
    destruct (List.find _ _) as [u |]; [destruct (User.isActive u) |]; reflexivity.
Qed.


(** X19.  With the store answering, after logout from all devices a
    refresh with the token of any session of that user is refused with
    401, at any later instant, and the sessions of the other users are as
    they were; but the request that carried the access token is still
    authenticated afterwards: logging out does not revoke the access
    token. *)
Theorem logout_all_then_refresh (now now' : Z) (request request' : NextRequest.t)
    (tok : string) (w w0 : World) (user : AuthUser.t) (s : UserSession.t) :
  faults w = [] ->
  requireAuth now request w = (Ret (inl user), w0) ->
  requestRefreshToken request' = Some (JStr tok) -> tok <> "" ->
  sessionOf tok w = Some s ->
  UserSession.userId s = AuthUser.id user ->
  exists w1 w2 w3,
    DELETE_logout_all now request w
    = (Ret (cleared "Tüm cihazlardan başarıyla çıkış yapıldı"), w1)
    /\ prisma_userSession (db w1)
       = updateWhere (fun r => String.eqb (UserSession.userId r) (AuthUser.id user)
                               && UserSession.isValid r)
           (UserSession.set_isValid false) (prisma_userSession (db w))
    /\ POST_refresh now' request' w1
       = (Ret (errorResponse "Session geçersiz. Lütfen tekrar giriş yapın." 401 None), w2)
    /\ db w2 = db w1
    /\ requireAuth now request w1 = (Ret (inl user), w3).
Proof.
  intros Hf Hauth Htok Hne Hs Hown.
  pose proof (preserves_run (fun p => p) _ _ _ _
                (preserves_requireAuth _ now request) Hauth) as Hdb.
  cbv beta in Hdb.
  destruct (requireAuth_healthy now request w Hf) as [Hf0 Hsame].
  rewrite Hauth in Hf0. cbn [snd] in Hf0.
  assert (exists w1,
             DELETE_logout_all now request w
             = (Ret (cleared "Tüm cihazlardan başarıyla çıkış yapıldı"), w1)
             /\ faults w1 = []
             /\ prisma_user (db w1) = prisma_user (db w)
             /\ prisma_userSession (db w1)
                = updateWhere (fun r => String.eqb (UserSession.userId r) (AuthUser.id user)
                                        && UserSession.isValid r)
                    (UserSession.set_isValid false) (prisma_userSession (db w)))
    as (w1 & Hrun & Hf1 & Husers & Hsessions).
  { unfold DELETE_logout_all, bind. rewrite Hauth. unfold tryCatch, bind.
    unfold userSession_updateMany. rewrite query_healthy by exact Hf0. cbn [fst snd].
    rewrite securityLog_create_healthy by exact Hf0. cbn [ret].
    eexists. split; [reflexivity |]. split; [exact Hf0 |].
    cbn [db set_db log_effect prisma_user prisma_userSession with_userSession
         with_securityLog].
    rewrite Hdb. split; reflexivity. }
  assert (exists s', sessionOf tok w1 = Some s' /\ UserSession.isValid s' = false)
    as (s' & Hs' & Hinvalid).
  { unfold sessionOf. rewrite Hsessions.
    rewrite find_updateWhere_other by (intros r; reflexivity).
    unfold sessionOf in Hs. rewrite Hs. cbn [fmap option_fmap option_map].
    eexists. split; [reflexivity |].
    rewrite Hown, String.eqb_refl. cbn [andb].
    destruct (UserSession.isValid s) eqn:Ev; [reflexivity | exact Ev]. }
  pose proof (refresh_invalid_session now' request' tok w1 s' Hf1 Htok Hne Hs' Hinvalid)
    as Hrefresh.
  pose proof (Hsame w1 Hf1 Husers) as Hfst.
  destruct (requireAuth now request w1) as [r3 w3] eqn:Hrun3.
  rewrite Hauth in Hfst. cbn [fst] in Hfst. subst r3.
  eexists w1, _, w3. split; [exact Hrun |]. split; [exact Hsessions |].
  split; [exact Hrefresh |]. split; [reflexivity | exact Hrun3].
Qed.

(** ** Password reset *)

Lemma user_findFirst_healthy (f : User.t -> bool) (w : World) :
  faults w = [] ->
  user_findFirst f w
  = (Ret (List.find f (prisma_user (db w))),
     set_db (db w) (log_effect (Query "user.findFirst") w)).
Proof.
  intros Hf. unfold user_findFirst. rewrite query_healthy by exact Hf. reflexivity.
Qed.

Lemma userSession_updateMany_healthy (f : UserSession.t -> bool)
    (data : UserSession.t -> UserSession.t) (w : World) :
  faults w = [] ->
  userSession_updateMany f data w
  = (Ret tt,
     set_db (with_userSession (updateWhere f data (prisma_userSession (db w))) (db w))
            (log_effect (Query "userSession.updateMany") w)).
Proof.
  intros Hf. unfold userSession_updateMany. rewrite query_healthy by exact Hf.
  reflexivity.
Qed.

Lemma find_in_exists {A : Type} (f : A -> bool) (id_ : A -> bool) (rows : list A) (r : A) :
  List.find f rows = Some r -> (forall x, f x = true -> id_ x = true) ->
  existsb id_ rows = true.
Proof.
  intros Hr Hid. apply find_some in Hr as [Hin Hfr]. apply existsb_exists.
  exists r. split; [exact Hin | apply Hid; exact Hfr].
Qed.

Lemma find_all_false {A : Type} (f : A -> bool) (rows : list A) :
  (forall r, In r rows -> f r = false) -> List.find f rows = None.
Proof.
  intros Hall. destruct (List.find f rows) as [r |] eqn:E; [| reflexivity].
  apply find_some in E as [Hin Hfr]. rewrite (Hall r Hin) in Hfr. discriminate Hfr.
Qed.

(** The run of a reset whose token finds a user. *)
Lemma reset_password_run (now : Z) (request : NextRequest.t) (w : World)
    (data : ResetPasswordData.t) (u : User.t) :
  faults w = [] ->
  validateRequest request resetPasswordSchema = inl data ->
  resetUserOf (ResetPasswordData.token data) now w = Some u ->
  exists w',
    POST_reset_password now request w
    = (Ret (successResponse
              (JObj [("message",
                      JStr "Şifreniz başarıyla sıfırlandı. Yeni şifrenizle giriş yapabilirsiniz.")])
              200), w')
    /\ faults w' = []
    /\ prisma_user (db w')
       = updateWhere (user_by_id (User.id u))
           (fun r => User.set_resetPassword None None
                       (User.set_password
                          (bcrypt_hash (ResetPasswordData.password data) 12) r))
           (prisma_user (db w))
    /\ prisma_userSession (db w')
       = updateWhere (fun s => String.eqb (UserSession.userId s) (User.id u))
           (UserSession.set_isValid false) (prisma_userSession (db w)).
Proof.
  intros Hf Hdata Hu. unfold POST_reset_password. rewrite Hdata.
  unfold tryCatch, resetPassword_try, bind.
  rewrite user_findFirst_healthy by exact Hf.
  change (List.find _ (prisma_user (db w)))
    with (resetUserOf (ResetPasswordData.token data) now w).
  rewrite Hu. unfold hash, bind, effect, ret.
  rewrite user_update_healthy;
    [| exact Hf
     | apply existsb_exists; exists u; split;
       [apply (find_some _ _ Hu) | apply String.eqb_refl]].
  rewrite userSession_updateMany_healthy by exact Hf.
  rewrite securityLog_create_healthy by exact Hf.
  eexists. split; [reflexivity |]. split; [exact Hf |]. split; reflexivity.
Qed.


Lemma resetPasswordSchema_token (request : NextRequest.t) (data : ResetPasswordData.t) :
  validateRequest request resetPasswordSchema = inl data ->
  ResetPasswordData.token data <> "".
Proof.
  unfold validateRequest.
  destruct (NextRequest.json request) as [body |]; [| discriminate].
  destruct (resetPasswordSchema body) as [d | e] eqn:E;
    [| destruct e; discriminate].
  intros Hd. injection Hd as <-.
  unfold resetPasswordSchema, z_object in E.
  destruct body; try discriminate E.
  unfold z_string at 1 in E.
  destruct (jfield "token" _) as [[| | | s | |] |]; cbn [issues_of] in E;
    try (destruct (z_string "password" _ _); discriminate E).
  cbn [omap list_omap fst snd] in E.
  destruct (min_length 1 s) eqn:Emin;
    [| destruct (z_string "password" _ _); discriminate E].
  destruct (z_string "password" _ _); [| discriminate E].
  injection E as <-. cbn [ResetPasswordData.token].
  intros ->. discriminate Emin.
Qed.



(** ** Forgotten password *)

(** The run of a forgot-password request for an active user. *)
Lemma forgot_password_run (now : Z) (request : NextRequest.t) (w : World)
    (data : ForgotPasswordData.t) (u : User.t) :
  faults w = [] ->
  fst (rateLimit ("forgot-password:"
                  ++ or_default (header "x-forwarded-for" request) "anonymous")
                 3 (60 * 60 * 1000) now (rateLimitStore w)) = true ->
  validateRequest request forgotPasswordSchema = inl data ->
  userOf (ForgotPasswordData.email data) w = Some u ->
  User.isActive u = true ->
  exists w',
    POST_forgot_password now request w
    = (Ret (successResponse forgotPassword_message 200), w')
    /\ faults w' = []
    /\ prisma_user (db w')
       = updateWhere (user_by_id (User.id u))
           (User.set_resetPassword (Some (nanoid (seed w) 32))
                                   (Some (now + 60 * 60 * 1000)))
           (prisma_user (db w))
    /\ effects w'
       = (effects w
          ++ [Query "user.findUnique"; Query "user.update";
              SendPasswordResetEmail (User.email u) (User.firstName u)
                                     (nanoid (seed w) 32);
              Query "securityLog.create"])%list.
Proof.
  intros Hf Hrl Hdata Hu Ha.
  unfold POST_forgot_password, bind, applyRateLimit.
  destruct (rateLimit _ _ _ _ _) as [allowed store]. cbn [fst] in Hrl. subst allowed.
  cbv beta iota. rewrite Hdata. unfold tryCatch, forgotPassword_try, bind.
  unfold user_findUnique_email. rewrite query_healthy by exact Hf. cbn [fst snd].
  change (List.find _ (prisma_user (db (set_rateLimitStore store w))))
    with (userOf (ForgotPasswordData.email data) w).
  rewrite Hu, Ha. cbn [negb]. cbv beta iota.
  rewrite user_update_healthy; [| exact Hf | eapply userOf_exists; exact Hu].
  unfold sendPasswordResetEmail, effect.
  rewrite securityLog_create_healthy by exact Hf.
  eexists. split; [reflexivity |]. split; [exact Hf |]. split; [reflexivity |].
  cbn [effects set_db log_effect set_rateLimitStore next_seed seed].
  rewrite <- !app_assoc. reflexivity.
Qed.

(** X23.  With the store answering, an admitted forgot-password request
    for an active user stores a fresh token of 32 characters with an
    expiry one hour after [now] in the row of that user, and sends one
    mail to the stored address with that same token; for an unknown or an
    inactive user it makes the one lookup and nothing else: no write, no
    mail. *)
Theorem forgot_password_effect (now : Z) (request : NextRequest.t) (w : World)
    (data : ForgotPasswordData.t) :
  faults w = [] ->
  fst (rateLimit ("forgot-password:"
                  ++ or_default (header "x-forwarded-for" request) "anonymous")
                 3 (60 * 60 * 1000) now (rateLimitStore w)) = true ->
  validateRequest request forgotPasswordSchema = inl data ->
  exists response w',
    POST_forgot_password now request w = (Ret response, w')
    /\ match userOf (ForgotPasswordData.email data) w with
       | Some u =>
           if User.isActive u then
             userOf (ForgotPasswordData.email data) w'
             = Some (User.set_resetPassword (Some (nanoid (seed w) 32))
                                            (Some (now + 60 * 60 * 1000)) u)
             /\ effects w'
                = (effects w
                   ++ [Query "user.findUnique"; Query "user.update";
                       SendPasswordResetEmail (User.email u) (User.firstName u)
                                              (nanoid (seed w) 32);
                       Query "securityLog.create"])%list
           else db w' = db w
                /\ effects w' = (effects w ++ [Query "user.findUnique"])%list
       | None => db w' = db w
                 /\ effects w' = (effects w ++ [Query "user.findUnique"])%list
       end.
Proof.
  intros Hf Hrl Hdata.
  destruct (userOf (ForgotPasswordData.email data) w) as [u |] eqn:Hu.
  - destruct (User.isActive u) eqn:Ha.
    + destruct (forgot_password_run now request w data u Hf Hrl Hdata Hu Ha)
        as (w' & Hrun & _ & Husers & Heff).
      eexists. exists w'. split; [exact Hrun |]. split; [| exact Heff].
      unfold userOf. rewrite Husers.
      rewrite find_updateWhere_other by (intros r; reflexivity).
      unfold userOf in Hu. rewrite Hu. cbn [fmap option_fmap option_map].
      unfold user_by_id. rewrite String.eqb_refl. reflexivity.
    + unfold POST_forgot_password, bind, applyRateLimit.
      destruct (rateLimit _ _ _ _ _) as [allowed store]. cbn [fst] in Hrl. subst allowed.
      cbv beta iota. rewrite Hdata. unfold tryCatch, forgotPassword_try, bind.
      unfold user_findUnique_email. rewrite query_healthy by exact Hf. cbn [fst snd].
      change (List.find _ (prisma_user (db (set_rateLimitStore store w))))
        with (userOf (ForgotPasswordData.email data) w).
      rewrite Hu, Ha. eexists. eexists. split; [reflexivity |]. split; reflexivity.
  - unfold POST_forgot_password, bind, applyRateLimit.
    destruct (rateLimit _ _ _ _ _) as [allowed store]. cbn [fst] in Hrl. subst allowed.
    cbv beta iota. rewrite Hdata. unfold tryCatch, forgotPassword_try, bind.
    unfold user_findUnique_email. rewrite query_healthy by exact Hf. cbn [fst snd].
    change (List.find _ (prisma_user (db (set_rateLimitStore store w))))
      with (userOf (ForgotPasswordData.email data) w).
    rewrite Hu. eexists. eexists. split; [reflexivity |]. split; reflexivity.
Qed.

Lemma find_updateWhere_switch {A : Type} (p q : A -> bool) (d : A -> A) (rows : list A) :
  (forall r, q r = true -> p (d r) = true) ->
  (forall r, In r rows -> q r = false -> p r = false) ->
  List.find p (updateWhere q d rows) = d <$> List.find q rows.
Proof.
  intros Hyes Hno. induction rows as [| r rows IH]; [reflexivity |].
  cbn [updateWhere map List.find]. destruct (q r) eqn:E.
  - rewrite (Hyes r E). reflexivity.
  - rewrite (Hno r (or_introl eq_refl) E). apply IH.
    intros r' Hin. apply Hno. right. exact Hin.
Qed.

Lemma resetCandidate_set (token : string) (expires now : Z) (r : User.t) :
  resetCandidate token now (User.set_resetPassword (Some token) (Some expires) r)
  = (expires >? now).
Proof.
  unfold resetCandidate. cbn [User.resetPasswordToken User.resetPasswordExpires
                              User.set_resetPassword].
  rewrite bool_decide_eq_true_2 by reflexivity. reflexivity.
Qed.


(** ** Change of password *)


End AuthProperties.

(** ** Validators *)

Lemma digit_of_range (c : ascii) : is_digit c = true -> 0 <= digit_of c <= 9.
Proof.
  unfold is_digit, digit_of. intros Hc. apply andb_true_iff in Hc as [Hlo Hhi].
  apply Nat.leb_le in Hlo. apply Nat.leb_le in Hhi. lia.
Qed.

Lemma digit_of_inj (c c' : ascii) : digit_of c = digit_of c' -> c = c'.
Proof.
  unfold digit_of. intros Hd.
  rewrite <- (ascii_nat_embedding c), <- (ascii_nat_embedding c'). f_equal. lia.
Qed.

Lemma digit_zero (c : ascii) : digit_of c = 0 -> Ascii.eqb c "0" = true.
Proof.
  intros Hd. apply Ascii.eqb_eq. apply digit_of_inj. rewrite Hd. reflexivity.
Qed.

(** What an accepted number looks like, digit by digit. *)
Lemma validateTcKimlikNo_inv (s : string) :
  validateTcKimlikNo s = true ->
  exists c0 c1 c2 c3 c4 c5 c6 c7 c8 c9 c10,
    tcClean s = [c0; c1; c2; c3; c4; c5; c6; c7; c8; c9; c10]
    /\ Forall (fun c => 0 <= digit_of c <= 9) (tcClean s)
    /\ 1 <= digit_of c0
    /\ Z.rem (digit_of c0 + digit_of c1 + digit_of c2 + digit_of c3 + digit_of c4
              + digit_of c5 + digit_of c6 + digit_of c7 + digit_of c8 + digit_of c9) 10
       = digit_of c10
    /\ Z.rem ((digit_of c0 + digit_of c2 + digit_of c4 + digit_of c6 + digit_of c8) * 7
              - (digit_of c1 + digit_of c3 + digit_of c5 + digit_of c7)) 10
       = digit_of c9.
Proof.
  unfold validateTcKimlikNo.
  destruct ((length (tcClean s) =? 11)%nat && forallb is_digit (tcClean s)) eqn:Eshape;
    cbn [negb]; [| discriminate].
  apply andb_true_iff in Eshape as [Hlen Hdigits]. apply Nat.eqb_eq in Hlen.
  destruct (tcClean s) as [| c0 [| c1 [| c2 [| c3 [| c4 [| c5 [| c6 [| c7 [| c8 [| c9
                           [| c10 [| c11 rest]]]]]]]]]]]]; try discriminate Hlen.
  destruct (Ascii.eqb c0 "0") eqn:Ezero; [discriminate |].
  cbn [map nth firstn fold_left].
  destruct (Z.rem _ 10 =? digit_of c10) eqn:Esum; cbn [negb]; [| discriminate].
  destruct (Z.rem _ 10 <? 0) eqn:Eneg; cbn [orb]; [discriminate |].
  destruct (Z.rem _ 10 =? digit_of c9) eqn:Eten; cbn [negb]; [| discriminate].
  intros _. exists c0, c1, c2, c3, c4, c5, c6, c7, c8, c9, c10.
  assert (Forall (fun c => 0 <= digit_of c <= 9)
                 [c0; c1; c2; c3; c4; c5; c6; c7; c8; c9; c10]) as Hrange.
  { apply List.Forall_forall. intros c Hin. apply digit_of_range.
    apply (proj1 (forallb_forall _ _) Hdigits c Hin). }
  split; [reflexivity |]. split; [exact Hrange |].
  split.
  - assert (0 <= digit_of c0 <= 9) as H0.
    { apply digit_of_range. cbn [forallb] in Hdigits.
      apply andb_true_iff in Hdigits as [Hd _]. exact Hd. }
    assert (digit_of c0 <> 0) as Hnz; [| lia].
    intros Hz. apply digit_zero in Hz. rewrite Hz in Ezero. discriminate Ezero.
  - apply Z.eqb_eq in Esum. apply Z.eqb_eq in Eten.
    split; [| exact Eten]. rewrite <- Esum. reflexivity.
Qed.

(** X26.  A number that [validateTcKimlikNo] accepts has, after removal
    of white space and dashes, eleven decimal digits of which the first is
    not 0, the tenth is the remainder by 10 of seven times the sum of the
    digits at the odd places minus the sum of the digits at the even
    places among the first nine, and the eleventh is the remainder by 10
    of the sum of the first ten.  So the check digits follow from the
    first nine, and two accepted numbers never differ in exactly one
    digit: every error in a single digit is detected. *)
Theorem validateTcKimlikNo_check_digits (a b : string) :
  validateTcKimlikNo a = true ->
  (exists c0 c1 c2 c3 c4 c5 c6 c7 c8 c9 c10,
      tcClean a = [c0; c1; c2; c3; c4; c5; c6; c7; c8; c9; c10]
      /\ Forall (fun c => 0 <= digit_of c <= 9) (tcClean a)
      /\ 1 <= digit_of c0
      /\ digit_of c9
         = Z.rem ((digit_of c0 + digit_of c2 + digit_of c4 + digit_of c6 + digit_of c8) * 7
                  - (digit_of c1 + digit_of c3 + digit_of c5 + digit_of c7)) 10
      /\ digit_of c10
         = Z.rem (digit_of c0 + digit_of c1 + digit_of c2 + digit_of c3 + digit_of c4
                  + digit_of c5 + digit_of c6 + digit_of c7 + digit_of c8 + digit_of c9) 10)
  /\ (validateTcKimlikNo b = true ->
      (exists i, forall j, j <> i -> tcClean a !! j = tcClean b !! j) ->
      tcClean a = tcClean b).
Proof.
  intros Ha.
  destruct (validateTcKimlikNo_inv a Ha)
    as (a0 & a1 & a2 & a3 & a4 & a5 & a6 & a7 & a8 & a9 & a10
        & Hla & Hra & Ha0 & Hasum & Haten).
  split.
  - exists a0, a1, a2, a3, a4, a5, a6, a7, a8, a9, a10.
    repeat split; try assumption; symmetry; assumption.
  - intros Hb [i Hdiff].
    destruct (validateTcKimlikNo_inv b Hb)
      as (b0 & b1 & b2 & b3 & b4 & b5 & b6 & b7 & b8 & b9 & b10
          & Hlb & Hrb & Hb0 & Hbsum & Hbten).
    rewrite Hla in Hra, Hdiff |- *. rewrite Hlb in Hrb, Hdiff |- *.
    repeat match goal with
           | H : Forall _ (_ :: _) |- _ => apply Forall_cons_1 in H as [? H]
           end.
    assert (forall j, j <> i ->
                      nth j [a0; a1; a2; a3; a4; a5; a6; a7; a8; a9; a10] a0
                      = nth j [b0; b1; b2; b3; b4; b5; b6; b7; b8; b9; b10] a0) as Hnth.
    { intros j Hj. specialize (Hdiff j Hj).
      do 11 (destruct j as [| j]; [cbn in Hdiff |- *; congruence |]).
      destruct j; reflexivity. }
    do 11 (destruct i as [| i];
           [ pose proof (Hnth 0%nat) as E0; pose proof (Hnth 1%nat) as E1;
             pose proof (Hnth 2%nat) as E2; pose proof (Hnth 3%nat) as E3;
             pose proof (Hnth 4%nat) as E4; pose proof (Hnth 5%nat) as E5;
             pose proof (Hnth 6%nat) as E6; pose proof (Hnth 7%nat) as E7;
             pose proof (Hnth 8%nat) as E8; pose proof (Hnth 9%nat) as E9;
             pose proof (Hnth 10%nat) as E10; cbn [nth] in *;
             repeat match goal with
                    | E : (?n <> ?m)%nat -> _ |- _ =>
                        first [ specialize (E ltac:(discriminate)) | clear E ]
                    end;
             subst;
             repeat f_equal; apply digit_of_inj;
             Z.to_euclidean_division_equations; lia
           |]).
    pose proof (Hnth 0%nat ltac:(discriminate)) as E0.
    pose proof (Hnth 1%nat ltac:(discriminate)) as E1.
    pose proof (Hnth 2%nat ltac:(discriminate)) as E2.
    pose proof (Hnth 3%nat ltac:(discriminate)) as E3.
    pose proof (Hnth 4%nat ltac:(discriminate)) as E4.
    pose proof (Hnth 5%nat ltac:(discriminate)) as E5.
    pose proof (Hnth 6%nat ltac:(discriminate)) as E6.
    pose proof (Hnth 7%nat ltac:(discriminate)) as E7.
    pose proof (Hnth 8%nat ltac:(discriminate)) as E8.
    pose proof (Hnth 9%nat ltac:(discriminate)) as E9.
    pose proof (Hnth 10%nat ltac:(discriminate)) as E10.
    cbn [nth] in *. subst. reflexivity.
Qed.

Lemma js_space_length_plain (c : ascii) (l : list ascii) :
  is_digit c || Ascii.eqb c "+" = true -> js_space_length (c :: l) = 0%nat.
Proof.
  destruct c as [[] [] [] [] [] [] [] []]; intros Hc; try discriminate Hc; reflexivity.
Qed.

Lemma remove_spaces_and_plain (others : ascii -> bool) (l : list ascii) :
  forallb (fun c => (is_digit c || Ascii.eqb c "+") && negb (others c)) l = true ->
  remove_spaces_and others l = l.
Proof.
  unfold remove_spaces_and. generalize (length l) at 1. intros fuel. revert l.
  induction fuel as [| fuel IH]; intros l Hl; [reflexivity |].
  destruct l as [| c l]; [reflexivity |].
  cbn [forallb] in Hl. apply andb_true_iff in Hl as [Hc Hl].
  apply andb_true_iff in Hc as [Hplain Hothers].
  cbn [remove_spaces_and_from]. rewrite (js_space_length_plain c l Hplain).
  apply negb_true_iff in Hothers. rewrite Hothers. f_equal. apply IH. exact Hl.
Qed.

Lemma national_plain (number : list ascii) :
  national number = true ->
  forallb (fun c => (is_digit c || Ascii.eqb c "+")
                    && negb (Ascii.eqb c "-" || Ascii.eqb c "(" || Ascii.eqb c ")"))
          number = true.
Proof.
  assert (forall c, is_digit c = true ->
                    (is_digit c || Ascii.eqb c "+")
                    && negb (Ascii.eqb c "-" || Ascii.eqb c "(" || Ascii.eqb c ")") = true)
    as Hdigit.
  { intros c. destruct c as [[] [] [] [] [] [] [] []]; intros Hc; try discriminate Hc;
      reflexivity. }
  destruct number as [| c rest]; [discriminate |]. cbn [national].
  intros Hn. apply andb_true_iff in Hn as [Hn Hrest]. apply andb_true_iff in Hn as [Hc _].
  cbn [forallb]. apply andb_true_iff. split.
  - apply Hdigit. unfold is_nonzero_digit in Hc. unfold is_digit.
    apply andb_true_iff in Hc as [Hlo Hhi]. apply andb_true_iff.
    apply Nat.leb_le in Hlo. split; [apply Nat.leb_le; lia | exact Hhi].
  - apply forallb_forall. intros x Hx. apply Hdigit.
    apply (proj1 (forallb_forall _ _) Hrest x Hx).
Qed.

(** The canonical form is left as it is by the cleaning, and accepted. *)
Lemma phoneClean_international (number : list ascii) :
  forallb is_digit number = true ->
  phoneClean (string_of_list_ascii (chars "+90" ++ number))
  = (chars "+90" ++ number)%list.
Proof.
  intros Hn. unfold phoneClean, chars at 1.
  rewrite list_ascii_of_string_of_list_ascii.
  apply remove_spaces_and_plain. cbn [chars list_ascii_of_string app forallb].
  cbn. apply forallb_forall. intros c Hc.
  pose proof (proj1 (forallb_forall _ _) Hn c Hc) as Hd. revert Hd.
  destruct c as [[] [] [] [] [] [] [] []]; intros Hd; try discriminate Hd; reflexivity.
Qed.

(** X27.  For a phone number that [validateTurkishPhone] accepts,
    [formatTurkishPhone] gives the canonical form (+90 and the ten digits
    of the national number), which is accepted in turn and which a second
    call leaves as it is, in every case but one: a bare ten-digit number
    that itself starts with 90 loses these two digits, and the result,
    +90 and eight digits, is no longer accepted. *)
Theorem formatTurkishPhone_canonical (phone : string) :
  validateTurkishPhone phone = true ->
  (national (phoneClean phone) && startsWith90 (phoneClean phone) = false ->
   exists number,
     national number = true
     /\ formatTurkishPhone phone = string_of_list_ascii (chars "+90" ++ number)
     /\ validateTurkishPhone (formatTurkishPhone phone) = true
     /\ formatTurkishPhone (formatTurkishPhone phone) = formatTurkishPhone phone)
  /\ (national (phoneClean phone) && startsWith90 (phoneClean phone) = true ->
      formatTurkishPhone phone
      = string_of_list_ascii (chars "+90" ++ skipn 2 (phoneClean phone))
      /\ length (skipn 2 (phoneClean phone)) = 8%nat
      /\ validateTurkishPhone (formatTurkishPhone phone) = false).
Proof.
  intros Hvalid.
  assert (forall number,
             national number = true ->
             formatTurkishPhone phone = string_of_list_ascii (chars "+90" ++ number) ->
             validateTurkishPhone (formatTurkishPhone phone) = true
             /\ formatTurkishPhone (formatTurkishPhone phone) = formatTurkishPhone phone)
    as Hcanonical.
  { intros number Hn Hf.
    assert (forallb is_digit number = true) as Hd.
    { destruct number as [| c rest]; [discriminate Hn |]. cbn [national] in Hn.
      apply andb_true_iff in Hn as [Hn Hrest]. apply andb_true_iff in Hn as [Hc _].
      cbn [forallb]. rewrite Hrest, andb_true_r.
      unfold is_nonzero_digit in Hc. unfold is_digit.
      apply andb_true_iff in Hc as [Hlo Hhi]. apply andb_true_iff.
      apply Nat.leb_le in Hlo. split; [apply Nat.leb_le; lia | exact Hhi]. }
    rewrite Hf. unfold validateTurkishPhone, formatTurkishPhone.
    rewrite (phoneClean_international number Hd).
    assert (international (chars "+90" ++ number) = true) as Hi.
    { cbn. exact Hn. }
    cbn [existsb]. rewrite Hi. split; reflexivity. }
  unfold validateTurkishPhone in Hvalid. cbn [existsb] in Hvalid.
  rewrite orb_false_r in Hvalid.
  split.
  - intros Hnot.
    destruct (international (phoneClean phone)) eqn:Ei.
    + assert (exists number, phoneClean phone = (chars "+90" ++ number)%list
                             /\ national number = true) as (number & Hc & Hn).
      { unfold international in Ei.
        destruct (phoneClean phone) as [| p [| n [| z number]]]; try discriminate Ei;
          cbn [country] in Ei; rewrite ?andb_false_r in Ei; try discriminate Ei.
        apply andb_true_iff in Ei as [Hp Ei]. apply andb_true_iff in Ei as [Ei Hn].
        apply andb_true_iff in Ei as [Hnine Hzero].
        apply Ascii.eqb_eq in Hp, Hnine, Hzero. subst.
        exists number. split; [reflexivity | exact Hn]. }
      assert (formatTurkishPhone phone = string_of_list_ascii (chars "+90" ++ number))
        as Hf.
      { unfold formatTurkishPhone. rewrite Ei, Hc. reflexivity. }
      exists number. split; [exact Hn |]. split; [exact Hf |].
      apply (Hcanonical number Hn Hf).
    + cbn [orb] in Hvalid.
      destruct (country (phoneClean phone)) eqn:Ec.
      * assert (exists number, phoneClean phone = (chars "90" ++ number)%list
                               /\ national number = true) as (number & Hc & Hn).
        { unfold country in Ec.
          destruct (phoneClean phone) as [| n [| z number]]; try discriminate Ec.
          apply andb_true_iff in Ec as [Ec Hn].
          apply andb_true_iff in Ec as [Hnine Hzero].
          apply Ascii.eqb_eq in Hnine, Hzero. subst.
          exists number. split; [reflexivity | exact Hn]. }
        assert (formatTurkishPhone phone = string_of_list_ascii (chars "+90" ++ number))
          as Hf.
        { unfold formatTurkishPhone. rewrite Ei, Hc. reflexivity. }
        exists number. split; [exact Hn |]. split; [exact Hf |].
        apply (Hcanonical number Hn Hf).
      * cbn [orb] in Hvalid.
        destruct (trunk (phoneClean phone)) eqn:Et.
        -- assert (exists number, phoneClean phone = (chars "0" ++ number)%list
                                  /\ national number = true) as (number & Hc & Hn).
           { unfold trunk in Et.
             destruct (phoneClean phone) as [| z number]; try discriminate Et.
             apply andb_true_iff in Et as [Hzero Hn].
             apply Ascii.eqb_eq in Hzero. subst.
             exists number. split; [reflexivity | exact Hn]. }
           assert (formatTurkishPhone phone
                   = string_of_list_ascii (chars "+90" ++ number)) as Hf.
           { unfold formatTurkishPhone. rewrite Ei, Hc.
             destruct number as [| c rest]; [discriminate Hn |]. reflexivity. }
           exists number. split; [exact Hn |]. split; [exact Hf |].
           apply (Hcanonical number Hn Hf).
        -- cbn [orb] in Hvalid. rewrite Hvalid in Hnot. cbn [andb] in Hnot.
           assert (formatTurkishPhone phone
                   = string_of_list_ascii (chars "+90" ++ phoneClean phone)) as Hf.
           { unfold formatTurkishPhone. rewrite Ei.
             destruct (phoneClean phone) as [| n [| z rest]]; try discriminate Hvalid.
             - cbn [national] in Hvalid. rewrite andb_false_r in Hvalid.
               discriminate Hvalid.
             - cbn [startsWith90] in Hnot. rewrite Hnot.
               cbn [national] in Hvalid.
               apply andb_true_iff in Hvalid as [Hv _].
               apply andb_true_iff in Hv as [Hv _].
               assert (Ascii.eqb n "0" = false) as ->; [| reflexivity].
               destruct (Ascii.eqb_spec n "0") as [-> |]; [discriminate Hv | reflexivity]. }
           exists (phoneClean phone). split; [exact Hvalid |]. split; [exact Hf |].
           apply (Hcanonical _ Hvalid Hf).
  - intros Hbad. apply andb_true_iff in Hbad as [Hn H90].
    destruct (phoneClean phone) as [| n [| z rest]] eqn:Hc; try discriminate H90.
    cbn [startsWith90] in H90. apply andb_true_iff in H90 as [Hnine Hzero].
    apply Ascii.eqb_eq in Hnine, Hzero. subst n z.
    cbn [national] in Hn. apply andb_true_iff in Hn as [Hn Hdigits].
    apply andb_true_iff in Hn as [_ Hlen]. apply Nat.eqb_eq in Hlen.
    cbn [length] in Hlen. cbn [forallb] in Hdigits.
    apply andb_true_iff in Hdigits as [_ Hdigits].
    assert (formatTurkishPhone phone = string_of_list_ascii (chars "+90" ++ rest)) as Hf.
    { unfold formatTurkishPhone. rewrite Hc. reflexivity. }
    split; [exact Hf |]. split; [change (length rest = 8%nat); lia |].
    rewrite Hf. unfold validateTurkishPhone.
    rewrite (phoneClean_international rest Hdigits).
    cbn [existsb chars list_ascii_of_string app international country trunk national].
    cbn [Ascii.eqb Bool.eqb andb orb is_nonzero_digit].
    destruct rest as [| c rest']; [reflexivity |].
    cbn [national length] in *.
    assert ((length rest' =? 9)%nat = false) as -> by (apply Nat.eqb_neq; lia).
    rewrite !andb_false_r. reflexivity.
Qed.

(** ** The further properties on concrete data *)

Lemma getTokenExpiration_format_witness :
  getTokenExpiration "15m" 1000 = Ret 901000
  /\ 1000 <= 901000
  /\ (exists expires, getTokenExpiration "90s" 0 = Ret expires)
  /\ getTokenExpiration "7w" 0 = Throw (Error "Invalid expiration format").
Proof.
  destruct (getTokenExpiration_format "15m" 1000) as (Hvalue & _ & _).
  destruct (Hvalue (chars "15") "m"%char 60000) as [Hrun Hlater];
    try reflexivity; try discriminate; try (vm_compute; discriminate).
  split; [exact Hrun |]. split; [exact Hlater |].
  split.
  - apply (proj1 (proj2 (getTokenExpiration_format "90s" 0))).
    exists (chars "90"), "s"%char, 1000.
    repeat split; try reflexivity; discriminate.
  - destruct (getTokenExpiration "7w" 0) as [expires | error] eqn:E;
      [vm_compute in E; discriminate E |].
    rewrite (proj2 (proj2 (getTokenExpiration_format "7w" 0)) error E). reflexivity.
Defined.

Lemma getPaginationParams_bounds_witness :
  getPaginationParams [("page", "3"); ("limit", "500")]
  = PaginationParams.mk (Int 3) (Int 100) (Int 200)
  /\ PaginationParams.skip (getPaginationParams [("page", "3"); ("limit", "500")])
     = Int ((3 - 1) * 100)
  /\ PaginationParams.page (getPaginationParams [("limit", "20")]) = Int 1
  /\ PaginationParams.limit (getPaginationParams [("page", "2"); ("limit", "")]) = Int 10
  /\ PaginationParams.page (getPaginationParams [("page", "abc")]) = NaN
  /\ PaginationParams.skip (getPaginationParams [("page", "abc")]) = NaN.
Proof.
  split; [vm_compute; reflexivity |].
  destruct (getPaginationParams_bounds [("page", "3"); ("limit", "500")])
    as (_ & _ & Hskip & _).
  destruct (Hskip 3 100) as [Hs _];
    try (vm_compute; reflexivity).
  split; [exact Hs |].
  destruct (getPaginationParams_bounds [("limit", "20")]) as (_ & _ & _ & Hpage & _).
  split; [apply Hpage; reflexivity |].
  destruct (getPaginationParams_bounds [("page", "2"); ("limit", "")])
    as (_ & _ & _ & _ & Hlimit & _).
  split; [apply Hlimit; reflexivity |].
  destruct (getPaginationParams_bounds [("page", "abc")]) as (_ & _ & _ & _ & _ & Hnan).
  apply Hnan. vm_compute. reflexivity.
Defined.

Lemma paginateResults_pages_witness :
  exists k,
    Paginated.totalPages
      (paginateResults ["a"; "b"] (Int 25)
         (PaginationParams.mk (Int 2) (Int 10) (Int ((2 - 1) * 10)))) = Int k
    /\ (k - 1) * 10 < 25 <= k * 10
    /\ (Paginated.hasMore
          (paginateResults ["a"; "b"] (Int 25)
             (PaginationParams.mk (Int 2) (Int 10) (Int ((2 - 1) * 10)))) = true
        <-> 2 < k)
    /\ Paginated.data
         (paginateResults ["a"; "b"] (Int 25)
            (PaginationParams.mk (Int 2) (Int 10) (Int ((2 - 1) * 10)))) = ["a"; "b"].
Proof.
  apply (paginateResults_pages ["a"; "b"] 2 10 25); try lia; vm_compute; reflexivity.
Defined.

Lemma requireOrganizationAccess_tenant_witness :
  (exists u,
      List.find (user_by_id "u1") (prisma_user (db worldSessions)) = Some u
      /\ (User.role u = SUPER_ADMIN \/ User.organizationId u = "o1"))
  /\ (exists w',
        @requireOrganizationAccess "u2" "o2" worldSessions = (Ret false, w')
        /\ db w' = db worldSessions)
  /\ (exists w',
        @requireOrganizationAccess "u9" "o1" worldSessions = (Ret false, w')
        /\ db w' = db worldSessions).
Proof.
  split; [| split].
  - apply (proj1 (requireOrganizationAccess_tenant "u1" "o1" worldSessions)
             (snd (requireOrganizationAccess "u1" "o1" worldSessions))).
    vm_compute. reflexivity.
  - apply (proj2 (requireOrganizationAccess_tenant "u2" "o2" worldSessions)).
    reflexivity.
  - apply (proj2 (requireOrganizationAccess_tenant "u9" "o1" worldSessions)).
    reflexivity.
Defined.

Lemma isTrialExpired_decides_witness :
  (exists w',
      @isTrialExpired "o9" jan31 worldTrial = (Throw (Error "Organization not found"), w')
      /\ db w' = db worldTrial)
  /\ (exists expired w',
        @isTrialExpired "o1" jan31 worldTrial = (Ret expired, w')
        /\ db w' = db worldTrial
        /\ expired = true)
  /\ (exists expired w',
        @isTrialExpired "o1" mar01 world0 = (Ret expired, w')
        /\ expired <> true).
Proof.
  split; [| split].
  - apply (proj1 (isTrialExpired_decides "o9" jan31 worldTrial eq_refl)). reflexivity.
  - destruct (proj2 (isTrialExpired_decides "o1" jan31 worldTrial eq_refl) trialClinic
                eq_refl) as (expired & w' & Hrun & Hdb & Hiff).
    exists expired, w'. split; [exact Hrun |]. split; [exact Hdb |].
    apply Hiff. split; [reflexivity |]. exists jan15. split; [reflexivity |].
    vm_compute. reflexivity.
  - destruct (proj2 (isTrialExpired_decides "o1" mar01 world0 eq_refl) clinic eq_refl)
      as (expired & w' & Hrun & _ & Hiff).
    exists expired, w'. split; [exact Hrun |].
    intros He. apply Hiff in He as [Hs _]. discriminate Hs.
Defined.

Lemma requireFeature_decides_witness :
  exists result w',
    @requireFeature "o1" "white_label" world0 = (Ret result, w')
    /\ db w' = db world0
    /\ result
       = Some (errorResponse "This feature requires a higher subscription plan" 403 None).
Proof.
  destruct (requireFeature_decides "o1" "white_label" world0 eq_refl)
    as (result & w' & Hrun & Hdb & Hcase).
  exists result, w'. split; [exact Hrun |]. split; [exact Hdb |].
  change (organizationOf "o1" world0) with (Some clinic) in Hcase.
  change (bool_decide (Organization.status clinic = SUSPENDED)
          || bool_decide (Organization.status clinic = CANCELLED)) with false in Hcase.
  apply Hcase. vm_compute. intros Hin.
  repeat (destruct Hin as [Hin | Hin]; [discriminate Hin |]). exact Hin.
Defined.

Lemma usage_increment_decrement_witness :
  (exists w1 w2,
      @incrementUsage "o1" patients 3 world0 = (Ret tt, w1)
      /\ @decrementUsage "o1" patients 3 w1 = (Ret tt, w2)
      /\ prisma_organization (db w2) = prisma_organization (db world0))
  /\ (exists w1 o1,
        @decrementUsage "o1" storage 1 world0 = (Ret tt, w1)
        /\ organizationOf "o1" w1 = Some o1
        /\ Organization.currentField storage o1 = 0 - 1)
  /\ (exists w1 w2,
        @incrementUsage "o9" patients 3 world0 = (Throw (PrismaError "P2025"), w1)
        /\ @decrementUsage "o9" patients 3 world0 = (Throw (PrismaError "P2025"), w2)
        /\ db w1 = db world0 /\ db w2 = db world0).
Proof.
  split; [| split].
  - apply (proj1 (proj1 (usage_increment_decrement "o1" patients 3 world0
                           ltac:(discriminate) eq_refl)
                    clinic eq_refl)).
  - apply (proj2 (proj1 (usage_increment_decrement "o1" storage 1 world0
                           ltac:(discriminate) eq_refl)
                    clinic eq_refl)).
  - apply (proj2 (usage_increment_decrement "o9" patients 3 world0
                    ltac:(discriminate) eq_refl)). reflexivity.
Defined.

Lemma requireAuth_sound_witness :
  (exists token decoded u,
      accessTokenOf tokenRequest = Some token /\ token <> ""
      /\ @jwt_verify demoPlatform token (@JWT_SECRET demoPlatform) 1000 = Ret decoded
      /\ List.find (user_by_id (TokenPayload.userId decoded))
                   (prisma_user (db worldSessions)) = Some u
      /\ User.isActive u = true
      /\ AuthUser.mk "u1" "a@b.c" DIETITIAN "o1" = authUserOf u)
  /\ NextResponse.status (errorResponse "Unauthorized - No token provided" 401 None) = 401.
Proof.
  destruct (@requireAuth_sound demoPlatform 1000 tokenRequest worldSessions)
    as (_ & Huser & _).
  destruct (@requireAuth_sound demoPlatform 1000 anonymousRequest worldSessions)
    as (_ & _ & Herror).
  split.
  - apply (Huser (AuthUser.mk "u1" "a@b.c" DIETITIAN "o1")
                 (snd (@requireAuth demoPlatform 1000 tokenRequest worldSessions))).
    vm_compute. reflexivity.
  - apply (Herror (errorResponse "Unauthorized - No token provided" 401 None)
                  (snd (@requireAuth demoPlatform 1000 anonymousRequest worldSessions))).
    vm_compute. reflexivity.
Defined.



Lemma login_unknown_email_witness :
  exists w',
    @POST_login demoPlatform 1000 (loginRequest "nobody@b.c" "Secret123") world0
    = (Ret (errorResponse "Geçersiz email veya şifre" 401 None), w')
    /\ db w' = db world0
    /\ effects w' = (effects world0 ++ [Query "user.findUnique"])%list.
Proof.
  apply (@login_unknown_email demoPlatform 1000 (loginRequest "nobody@b.c" "Secret123")
           world0 (LoginData.mk "nobody@b.c" "Secret123" None));
    vm_compute; reflexivity.
Defined.

Lemma login_refused_after_password_witness :
  exists response w',
    @POST_login demoPlatform 1000 rightLogin worldInactive = (Ret response, w')
    /\ NextResponse.status response = 403
    /\ db w' = db worldInactive.
Proof.
  apply (@login_refused_after_password demoPlatform 1000 rightLogin worldInactive
           (LoginData.mk "a@b.c" "Secret123" None)
           (demoUser "u1" "a@b.c" "Secret123" false 3 None));
    try (vm_compute; reflexivity).
  left. reflexivity.
Defined.

Lemma login_wrong_password_report_witness :
  exists w' row,
    @POST_login demoPlatform 5000 wrongLogin world4
    = (Ret (errorResponse
              "Çok fazla başarısız giriş denemesi. Hesabınız 15 dakika süreyle kilitlendi."
              403 None), w')
    /\ prisma_securityLog (db w') = (prisma_securityLog (db world4) ++ [row])%list
    /\ SecurityLog.event row = "login.failed"
    /\ SecurityLog.userId row = "u1"
    /\ SecurityLog.severity row = "high"
    /\ prisma_userSession (db w') = prisma_userSession (db world4).
Proof.
  apply (@login_wrong_password_report demoPlatform 5000 wrongLogin world4
           (LoginData.mk "a@b.c" "wrong" None)
           (demoUser "u1" "a@b.c" "Secret123" true 4 None));
    vm_compute; reflexivity.
Defined.




Lemma logout_all_then_refresh_witness :
  exists w1 w2 w3,
    @DELETE_logout_all demoPlatform 1000 tokenRequest worldSessions
    = (Ret (cleared "Tüm cihazlardan başarıyla çıkış yapıldı"), w1)
    /\ @POST_refresh demoPlatform 2000
         (NextRequest.mk ∅ {[ "refreshToken" := "tok-2" ]} None) w1
       = (Ret (errorResponse "Session geçersiz. Lütfen tekrar giriş yapın." 401 None), w2)
    /\ db w2 = db w1
    /\ @requireAuth demoPlatform 1000 tokenRequest w1
       = (Ret (inl (AuthUser.mk "u1" "a@b.c" DIETITIAN "o1")), w3).
Proof.
  destruct (@logout_all_then_refresh demoPlatform 1000 2000 tokenRequest
              (NextRequest.mk ∅ {[ "refreshToken" := "tok-2" ]} None) "tok-2"
              worldSessions
              (snd (@requireAuth demoPlatform 1000 tokenRequest worldSessions))
              (AuthUser.mk "u1" "a@b.c" DIETITIAN "o1")
              (demoSession "s2" "u1" "tok-2" true 9000))
    as (w1 & w2 & w3 & Hrun & _ & Hrefresh & Hdb & Hauth);
    try (vm_compute; reflexivity); try discriminate.
  exists w1, w2, w3. repeat split; assumption.
Defined.




Lemma forgot_password_effect_witness :
  (exists response w',
      @POST_forgot_password demoPlatform 1000 forgotRequest world0 = (Ret response, w')
      /\ userOf "a@b.c" w'
         = Some (User.set_resetPassword (Some "nano-0") (Some (1000 + 60 * 60 * 1000)) ada)
      /\ effects w'
         = [Query "user.findUnique"; Query "user.update";
            SendPasswordResetEmail "a@b.c" "Ada" "nano-0";
            Query "securityLog.create"])
  /\ (exists response w',
        @POST_forgot_password demoPlatform 1000 forgotRequest worldInactive
        = (Ret response, w')
        /\ db w' = db worldInactive
        /\ effects w' = [Query "user.findUnique"]).
Proof.
  split.
  - destruct (@forgot_password_effect demoPlatform 1000 forgotRequest world0
                (ForgotPasswordData.mk "a@b.c"))
      as (response & w' & Hrun & Hcase); try (vm_compute; reflexivity).
    exists response, w'. split; [exact Hrun |].
    change (userOf (ForgotPasswordData.email (ForgotPasswordData.mk "a@b.c")) world0)
      with (Some ada) in Hcase.
    change (User.isActive ada) with true in Hcase.
    exact Hcase.
  - destruct (@forgot_password_effect demoPlatform 1000 forgotRequest worldInactive
                (ForgotPasswordData.mk "a@b.c"))
      as (response & w' & Hrun & Hcase); try (vm_compute; reflexivity).
    exists response, w'. split; [exact Hrun |].
    change (userOf (ForgotPasswordData.email (ForgotPasswordData.mk "a@b.c"))
                   worldInactive)
      with (Some (demoUser "u1" "a@b.c" "Secret123" false 3 None)) in Hcase.
    change (User.isActive (demoUser "u1" "a@b.c" "Secret123" false 3 None))
      with false in Hcase.
    exact Hcase.
Defined.



Lemma validateTcKimlikNo_check_digits_witness :
  (exists c0 c1 c2 c3 c4 c5 c6 c7 c8 c9 c10,
      tcClean "100 000-00146" = [c0; c1; c2; c3; c4; c5; c6; c7; c8; c9; c10]
      /\ digit_of c9 = 4 /\ digit_of c10 = 6)
  /\ validateTcKimlikNo "10000000246" = false.
Proof.
  destruct (validateTcKimlikNo_check_digits "100 000-00146" "10000000246")
    as [(c0 & c1 & c2 & c3 & c4 & c5 & c6 & c7 & c8 & c9 & c10 & Hc & _ & _ & H9 & H10)
        Hsingle];
    [vm_compute; reflexivity |].
  split.
  - exists c0, c1, c2, c3, c4, c5, c6, c7, c8, c9, c10. split; [exact Hc |].
    vm_compute in Hc. injection Hc as <- <- <- <- <- <- <- <- <- <- <-.
    split; reflexivity.
  - destruct (validateTcKimlikNo "10000000246") eqn:E; [| reflexivity].
    assert (tcClean "100 000-00146" = chars "10000000146") as Hca
      by (vm_compute; reflexivity).
    assert (tcClean "10000000246" = chars "10000000246") as Hcb
      by (vm_compute; reflexivity).
    assert (tcClean "100 000-00146" = tcClean "10000000246") as Heq.
    { apply Hsingle; [reflexivity |]. exists 8%nat. intros j Hj. rewrite Hca, Hcb.
      do 11 (destruct j as [| j]; [first [reflexivity | contradiction] |]).
      reflexivity. }
    rewrite Hca, Hcb in Heq. discriminate Heq.
Defined.

Lemma formatTurkishPhone_canonical_witness :
  (exists number,
      national number = true
      /\ formatTurkishPhone "0532 123 45 67" = string_of_list_ascii (chars "+90" ++ number)
      /\ validateTurkishPhone (formatTurkishPhone "0532 123 45 67") = true
      /\ formatTurkishPhone (formatTurkishPhone "0532 123 45 67")
         = formatTurkishPhone "0532 123 45 67")
  /\ formatTurkishPhone "9012345678" = "+9012345678"
  /\ validateTurkishPhone (formatTurkishPhone "9012345678") = false.
Proof.
  split.
  - apply (proj1 (formatTurkishPhone_canonical "0532 123 45 67" eq_refl)). reflexivity.
  - destruct (proj2 (formatTurkishPhone_canonical "9012345678" eq_refl) eq_refl)
      as (Hf & _ & Hv).
    split; [rewrite Hf; reflexivity | exact Hv].
Defined.
